(** * Resume ranking service: a shallow embedding and its checked properties

    The repository holds two implementations of the same service:
    - the modular one served by [main.py]: [core/file_processor.py],
      [core/aimodels.py], [api/helpers.py], [api/routes.py];
    - the earlier single-file one, [app.py].

    Both are embedded below, each function under the name it has in the
    source.  Python exceptions are values of [exn]; code that can raise runs
    in the monad [M], which threads the state of the generative backend, the
    log of the calls made to external libraries and the choices of the event
    loop.  The external libraries (PyPDF2, python-docx, the generative
    client, [json], [repr], the text of an [HTTPException]) are the fields
    of the class [Externals]; pandas is modelled by the small [Pandas]
    module, which leaves to two fields of that class what pandas does with
    objects that are no mappings and with sums outside int64.  The generative client is taken as configured (its credential is
    read when the process starts).  Calls to [logging] write to a file and
    are left out, except where evaluating a logged expression can itself
    raise. *)

From Stdlib Require Import ZArith NArith List Lia Bool Sorted.
From Stdlib Require Import Strings.Ascii Strings.String Strings.Byte.
From stdpp Require Import list.

Set Default Proof Using "Type".
Local Open Scope Z_scope.

(** ** Python strings *)

(** A Python [str] is a sequence of Unicode code points. *)
Definition str := list N.
Definition bytes := list byte.

(** A source literal, character by character. *)
Definition py (s : string) : str := map N_of_ascii (list_ascii_of_string s).
Arguments py s%_string : simpl never.

(** The double quote character. *)
Definition dq : str := [34%N].

Definition str_eqb (a b : str) : bool := bool_decide (a = b).

(** [str.isspace] on one code point, the table that [str.strip] uses. *)
Definition isspace (c : N) : bool :=
  ((9 <=? c) && (c <=? 13) || (28 <=? c) && (c <=? 32)
   || (c =? 133) || (c =? 160) || (c =? 5760)
   || (8192 <=? c) && (c <=? 8202) || (c =? 8232) || (c =? 8233)
   || (c =? 8239) || (c =? 8287) || (c =? 12288))%N.

(** [s.lstrip(chars)], [s.rstrip(chars)]: drop the leading (trailing)
    characters that belong to the set [chars]. *)
Fixpoint lstrip_where (drop : N -> bool) (s : str) : str :=
  match s with
  | [] => []
  | c :: s' => if drop c then lstrip_where drop s' else s
  end.

Definition rstrip_where (drop : N -> bool) (s : str) : str :=
  rev (lstrip_where drop (rev s)).

Definition in_chars (chars : str) (c : N) : bool := existsb (N.eqb c) chars.

Definition lstrip_chars (chars s : str) : str := lstrip_where (in_chars chars) s.
Definition rstrip_chars (chars s : str) : str := rstrip_where (in_chars chars) s.

(** [s.strip()] *)
Definition strip (s : str) : str := rstrip_where isspace (lstrip_where isspace s).

(** [s.split(sep)] for a separator of one character: never empty, one more
    piece than there are separators. *)
Fixpoint split_on (sep : N) (s : str) : list str :=
  match s with
  | [] => [[]]
  | c :: s' =>
      if (c =? sep)%N then [] :: split_on sep s'
      else match split_on sep s' with
           | [] => [[c]]
           | piece :: pieces => (c :: piece) :: pieces
           end
  end.

Definition newline : N := 10%N.

(** [sep.join(pieces)] *)
Fixpoint join (sep : str) (pieces : list str) : str :=
  match pieces with
  | [] => []
  | [p] => p
  | p :: rest => p ++ sep ++ join sep rest
  end.

Fixpoint startswith (prefix s : str) : bool :=
  match prefix, s with
  | [], _ => true
  | _ :: _, [] => false
  | a :: prefix', b :: s' => (a =? b)%N && startswith prefix' s'
  end.

(** [needle in hay] for two strings. *)
Fixpoint contains (needle hay : str) : bool :=
  startswith needle hay
  || match hay with
     | [] => false
     | _ :: hay' => contains needle hay'
     end.

(** ** Python values *)

(** What [json.loads] can return.  Numbers are the integers; a number with a
    fraction is kept as its text. *)
#[warnings="-register-all"]
Inductive json :=
| JNull
| JBool (b : bool)
| JInt (z : Z)
| JFloat (text : str)
| JStr (s : str)
| JList (items : list json)
| JDict (items : list (str * json)).

(** A [dict] with string keys, in insertion order.  The keys of a [dict]
    that Python built are distinct; [dict_get] takes the first binding. *)
Definition dict := list (str * json).

Fixpoint dict_get (k : str) (d : dict) : option json :=
  match d with
  | [] => None
  | (k', v) :: d' => if str_eqb k k' then Some v else dict_get k d'
  end.

Definition dict_keys (d : dict) : list str := map fst d.

(** Exceptions, each with the argument it was raised with. *)
Inductive exn :=
| ValueError (msg : str)
| TypeError (msg : str)
| AttributeError (msg : str)
| KeyError (key : str)
| JSONDecodeError (msg : str)
| HTTPException (status_code : Z) (detail : str)
| PdfReadError (msg : str)
| PythonDocxError (msg : str)
| PackageNotFoundError (msg : str)
| LibraryError (msg : str).

Definition is_HTTPException (e : exn) : bool :=
  match e with HTTPException _ _ => true | _ => false end.

(** The outcome of running a piece of code: it raised or it returned. *)
Inductive result (A : Type) :=
| Raise (e : exn)
| Return (a : A).
Arguments Raise {A} e.
Arguments Return {A} a.

(** An object as the orchestrator holds it after [gather]: a returned value
    or an exception object. *)
Definition pyobj := result json.

(** ** External collaborators *)

(** What PyPDF2 does with a payload. [page.extract_text()] gives a text, or
    [None], or raises. *)
Inductive pdf_error :=
| ReadError (msg : str)
| OtherPdfError (msg : str).

Inductive page :=
| PageText (text : option str)
| PageRaises (e : pdf_error).

Inductive pdf_outcome :=
| PdfRaises (e : pdf_error)
| PdfPages (pages : list page).

(** What python-docx does with a payload. *)
Inductive docx_error :=
| DocxError (msg : str)
| PackageNotFound (msg : str)
| OtherDocxError (msg : str).

Inductive docx_outcome :=
| DocxRaises (e : docx_error)
| DocxParagraphs (paragraphs : list str).

(** What the generative client does with a prompt: it raises, or it returns
    a response whose [text] may be absent. *)
Inductive backend_outcome :=
| BackendRaises (msg : str)
| Response (text : option str).

Class Externals := {
  (** state of the generative service: the same prompt need not get the
      same answer twice *)
  backend : Type;
  generate_content : backend -> str -> str -> backend_outcome * backend;
  PdfReader : bytes -> pdf_outcome;
  Document : bytes -> docx_outcome;
  (** [json.loads]: [inl msg] is a [JSONDecodeError] *)
  json_loads : str -> str + json;
  (** [str(e)] for an [HTTPException] (the framework's choice) *)
  http_exception_str : Z -> str -> str;
  (** [f"{l}"] for a list of column labels *)
  format_list : list json -> str;
  (** [repr(s)] for a string *)
  repr : str -> str;
  (** the text of the [ValueError] that [response.text] of the client of
      [app.py] raises for a response without text *)
  no_text_message : str;
  (** whether the installed PyPDF2 has [PdfReadError] at its top level,
      where [app.py] looks for it *)
  PyPDF2_PdfReadError : bool;
  (** [pd.DataFrame(data)] for a list one of whose entries is no mapping:
      pandas raises (the message), or it builds a frame whose labels are the
      integers 0, 1, ... (the number of columns and the cells) *)
  DataFrame_objects : list pyobj -> str + nat * list (list (option json));
  (** [df.sum(axis=1)] on a frame that is not made of int64 cells alone
      (floats, texts, booleans, missing cells, larger integers, no column at
      all): pandas raises (the message), or gives each row, by its position,
      a total *)
  sum_axis1_other : list (list (option json)) -> str + (nat -> option json)
}.

(** Calls that leave the process. *)
Inductive event :=
| CallPdfReader (content : bytes)
| CallDocument (content : bytes)
| CallGenerateContent (model contents : str).

Section Monad.
Context {E : Externals}.

(** The state outside the program: the generative service, the calls made
    so far, and the choices the event loop will make between ready tasks. *)
Record world := World {
  gemini : backend;
  calls : list event;
  loop : list nat
}.

Definition M (A : Type) : Type := world -> result A * world.

Definition ret {A} (a : A) : M A := fun w => (Return a, w).
Definition raise {A} (e : exn) : M A := fun w => (Raise e, w).

Definition bind {A B} (m : M A) (k : A -> M B) : M B :=
  fun w =>
    match m w with
    | (Return a, w') => k a w'
    | (Raise e, w') => (Raise e, w')
    end.

(** [try: m  except ... as e: handler e]; a handler that does not match
    re-raises. *)
Definition try_except {A} (m : M A) (handler : exn -> M A) : M A :=
  fun w =>
    match m w with
    | (Return a, w') => (Return a, w')
    | (Raise e, w') => handler e w'
    end.

Definition lift {A} (r : result A) : M A := fun w => (r, w).

Definition log_call (ev : event) : M unit :=
  fun w => (Return tt, World (gemini w) (calls w ++ [ev]) (loop w)).

Fixpoint mapM {A B} (f : A -> M B) (l : list A) : M (list B) :=
  match l with
  | [] => ret []
  | a :: l' => bind (f a) (fun b => bind (mapM f l') (fun bs => ret (b :: bs)))
  end.

(** [str(e)] *)
Definition exn_str (e : exn) : str :=
  match e with
  | ValueError msg | TypeError msg | AttributeError msg
  | JSONDecodeError msg | PdfReadError msg | PythonDocxError msg
  | PackageNotFoundError msg | LibraryError msg => msg
  | KeyError key => repr key
  | HTTPException status_code detail => http_exception_str status_code detail
  end.
End Monad.

Notation "x <- m ;; k" := (bind m (fun x => k))
  (at level 100, m at next level, right associativity).
Notation "m ;;; k" := (bind m (fun _ => k))
  (at level 100, right associativity).

(** An uploaded file as the framework hands it over. *)
Record UploadFile := {
  filename : str;
  content_type : str;
  data : bytes
}.

(** [len(b)] *)
Definition len {A} (l : list A) : Z := Z.of_nat (length l).

(** ** Calls into the libraries *)
Section Libraries.
Context {E : Externals}.

(** [await file.read()] *)
Definition read (file : UploadFile) : M bytes := ret (data file).

Definition call_PdfReader (content : bytes) : M (list page) :=
  log_call (CallPdfReader content) ;;;
  match PdfReader content with
  | PdfRaises (ReadError msg) => raise (PdfReadError msg)
  | PdfRaises (OtherPdfError msg) => raise (LibraryError msg)
  | PdfPages pages => ret pages
  end.

(** [page.extract_text() or ""] *)
Definition page_extract_text_or_empty (p : page) : M str :=
  match p with
  | PageText (Some text) => ret text
  | PageText None => ret []
  | PageRaises (ReadError msg) => raise (PdfReadError msg)
  | PageRaises (OtherPdfError msg) => raise (LibraryError msg)
  end.

Definition call_Document (content : bytes) : M (list str) :=
  log_call (CallDocument content) ;;;
  match Document content with
  | DocxRaises (DocxError msg) => raise (PythonDocxError msg)
  | DocxRaises (PackageNotFound msg) => raise (PackageNotFoundError msg)
  | DocxRaises (OtherDocxError msg) => raise (LibraryError msg)
  | DocxParagraphs paragraphs => ret paragraphs
  end.

(** [generate_content] of the client, giving
    the [text] of the response *)
Definition call_generate_content (model contents : str) : M (option str) :=
  fun w =>
    let '(out, gemini') := generate_content (gemini w) model contents in
    let w' := World gemini' (calls w ++ [CallGenerateContent model contents])
                    (loop w) in
    match out with
    | BackendRaises msg => (Raise (LibraryError msg), w')
    | Response text => (Return text, w')
    end.

(** [text.method(..)] where [text] may be [None] *)
Definition on_text (method : string) (f : str -> str) (text : option str) : M str :=
  match text with
  | Some t => ret (f t)
  | None =>
      raise (AttributeError
               (py "'NoneType' object has no attribute '" ++ py method ++ py "'"))
  end.

(** [json.loads(s)] *)
Definition loads (s : str) : M json :=
  match json_loads s with
  | inl msg => raise (JSONDecodeError msg)
  | inr v => ret v
  end.
End Libraries.

Definition application_pdf : str := py "application/pdf".
Definition application_docx : str :=
  py "application/vnd.openxmlformats-officedocument.wordprocessingml.document".

(** What text extraction hands back in [core/file_processor.py]: the text, or
    the dictionary [{"status_code": .., "error": ..}]. *)
Inductive extraction :=
| Text (text : str)
| Failure (status_code : Z) (error : str).

(** ** core/file_processor.py *)
Module FileProcessor.
Section WithExternals.
Context {E : Externals}.

(** An instance of [BaseDoc] or of a subclass. *)
Record BaseDoc := { file : bytes; content : bytes }.

Definition validate_size (file : bytes) : M unit :=
  if len file >? 5 * 1024 * 1024
  then raise (ValueError (py "File size exceeds 5MB limit"))
  else ret tt.

(** [BaseDoc.__init__], inherited by [PdfDoc] and [DocxDoc] *)
Definition BaseDoc_init (file_data : bytes) : M BaseDoc :=
  validate_size file_data ;;;
  ret {| file := file_data; content := file_data |}.

Definition from_upload (file : UploadFile) : M BaseDoc :=
  file_data <- read file ;;
  BaseDoc_init file_data.

(** [PdfDoc.extract_text] *)
Definition PdfDoc_extract_text (self : BaseDoc) : M extraction :=
  try_except
    (pages <- call_PdfReader (content self) ;;
     match pages with
     | [] => ret (Failure 422 (py "PDF contains no readable text"))
     | _ =>
         texts <- mapM page_extract_text_or_empty pages ;;
         ret (Text (join [newline] texts))
     end)
    (fun e =>
       match e with
       | PdfReadError _ =>
           ret (Failure 422 (py "Invalid PDF structure - unable to read file"))
       | _ => ret (Failure 422 (py "PDF processing error: " ++ exn_str e))
       end).

(** [DocxDoc.extract_text] *)
Definition DocxDoc_extract_text (self : BaseDoc) : M extraction :=
  try_except
    (paragraphs <- call_Document (content self) ;;
     match paragraphs with
     | [] => ret (Failure 422 (py "DOCX contains no readable text"))
     | _ => ret (Text (join (py " ") paragraphs))
     end)
    (fun e =>
       match e with
       | PythonDocxError _ =>
           ret (Failure 422 (py "Invalid DOCX file - corrupted or empty"))
       | _ => ret (Failure 422 (py "DOCX processing error: " ++ exn_str e))
       end).

(** [DocProcessor.process] *)
Definition process (self_file : UploadFile) : M extraction :=
  doc <- from_upload self_file ;;
  if str_eqb (content_type self_file) application_pdf then
    pdf <- BaseDoc_init (file doc) ;;
    PdfDoc_extract_text pdf
  else if str_eqb (content_type self_file) application_docx then
    docx <- BaseDoc_init (file doc) ;;
    DocxDoc_extract_text docx
  else
    ret (Failure 422 (py "Unsupported file type. Upload PDF or DOCX.")).
End WithExternals.
End FileProcessor.

(** ** core/aimodels.py *)
Module AIModels.

(** [{"error": .., "status_code": ..}] or [{"requirements": .., "code": ..}] *)
Inductive criteria_reply :=
| CriteriaError (error : str) (status_code : Z)
| Requirements (requirements : list str) (code : Z).

(** [{"error": .., "status_code": ..}] or [{"response": .., "status_code": ..}] *)
Inductive rank_reply :=
| RankError (error : str) (status_code : Z)
| RankResponse (response : str) (status_code : Z).

Section WithExternals.
Context {E : Externals}.

Definition model : str := py "models/gemini-1.5-flash-001".

Definition criteria_prompt (job_description : str) : str :=
  py "
                        Analyse and validate if the provided text is a job description, if not, return " ++ dq ++ py "INVALID_INPUT" ++ dq ++ py ",
                        Extract all key requirements from this job description such as skills, certifications, experience, and qualifications:
                        " ++ job_description ++ py "
                        Format:
                            - Each requirement should be a clear, self-contained statement.
                            - No bullet points, hyphens or numbers.
                            - requirement must be a quantifiable metric
                            - requirement must be a must have , no nice to haves
                        Return only the extracted requirements as a plain list.
                ".

Definition extract_criteria (job_description : str) : M criteria_reply :=
  try_except
    (text <- call_generate_content model (criteria_prompt job_description) ;;
     stripped <- on_text "strip" strip text ;;
     if str_eqb stripped (py "INVALID_INPUT") then
       ret (CriteriaError (py "Not a valid Job Description") 400)
     else
       stripped <- on_text "strip" strip text ;;
       ret (Requirements (split_on newline stripped) 200))
    (fun e => ret (CriteriaError (py "Extraction failed: " ++ exn_str e) 500)).

Definition rank_prompt (req_ls resume : str) : str :=
  py "You are a resume ranking and analysis expert, rank the resume you are provided as per the requirements.
                    For each requirement, provide Score (0-5), 0 being the least matched and 5 being most:

                    Requirements:
                    " ++ req_ls ++ py "

                    Resume:
                    " ++ resume ++ py "
                    
                    Return a string response only as " ++ dq ++ py "NOT_VALID" ++ dq ++ py " and nothing else, if:
                        - The Resume is not valid resume from a candidate
                        - job requirements are not valid requirements
                    if not NOT_VALID, Return a valid dictionary, where:
                        - The first key is 'Candidate Name' with the candidate's name.
                        - Each job requirement is a key and its score (integer) is the value.
                    ".

Definition rank_resumes (req_ls resume : str) : M rank_reply :=
  text <- call_generate_content model (rank_prompt req_ls resume) ;;
  stripped <- on_text "strip" strip text ;;
  if contains (py "NOT_VALID") stripped then
    ret (RankError (py "Not a valid Resume or Job Requirements") 400)
  else
    left <- on_text "lstrip" (lstrip_chars (py "```json")) text ;;
    ret (RankResponse (rstrip_chars (py "```") left) 200).

Definition labels_prompt (req_ls : list json) : str :=
  py "Convert these requirements into labels and generate a dictionary with these requirements as keys and corresponding labels as the values
                    " ++ format_list req_ls ++ py "
                  return only the generate labels dictionary as a json
                ".

Definition shorten_requirements (req_ls : list json) : M json :=
  text <- call_generate_content model (labels_prompt req_ls) ;;
  left <- on_text "lstrip" (lstrip_chars (py "```json")) text ;;
  loads (rstrip_chars (py "```") left).
End WithExternals.
End AIModels.

(** ** The part of pandas that report building uses

    A frame holds its column labels and, row by row, one cell per column; a
    cell is missing ([None], shown as NaN) when the record had no such key,
    or a null under it.  The row index is the position of the row.  What
    pandas makes of a list that holds something else than mappings, and how
    it adds up a frame that is not made of int64 cells, is the library's to
    say ([DataFrame_objects] and [sum_axis1_other] of the class
    [Externals]); an exception from there is a [LibraryError].  [rename]
    and [drop] raise the class that pandas raises; the text is shortened,
    except for the [KeyError] of [drop]. *)
Module Pandas.

Definition label := json.
Definition cell := option json.

Record frame := { columns : list label; rows : list (list cell) }.

Fixpoint as_records (data : list pyobj) : option (list dict) :=
  match data with
  | [] => Some []
  | Return (JDict d) :: data' =>
      match as_records data' with
      | Some ds => Some (d :: ds)
      | None => None
      end
  | _ :: _ => None
  end.

(** keys in the order in which they are first seen *)
Fixpoint add_keys (seen keys : list str) : list str :=
  match keys with
  | [] => seen
  | k :: keys' =>
      if existsb (str_eqb k) seen then add_keys seen keys'
      else add_keys (seen ++ [k]) keys'
  end.

Definition all_keys (records : list dict) : list str :=
  fold_left (fun seen d => add_keys seen (dict_keys d)) records [].

(** The cell that holds a value of a record, or the lack of one: [None] and
    the float [nan] are missing values to pandas, as is a key that the
    record lacks.  A cell stands for the value it holds: the representation
    pandas chooses for a number by the type of its column is not kept
    apart. *)
Definition cell_of (v : option json) : cell :=
  match v with
  | Some JNull => None
  | Some (JFloat text) => if str_eqb text (py "NaN") then None else v
  | _ => v
  end.

Definition row_of (keys : list str) (d : dict) : list cell :=
  map (fun k => cell_of (dict_get k d)) keys.

Section WithExternals.
Context {E : Externals}.

(** [pd.DataFrame(data)]: for a list of mappings, a column for each key
    and a row for each mapping; for any other list, what pandas makes of
    the objects. *)
Definition DataFrame (data : list pyobj) : result frame :=
  match as_records data with
  | Some records =>
      let keys := all_keys records in
      Return {| columns := map JStr keys; rows := map (row_of keys) records |}
  | None =>
      match DataFrame_objects data with
      | inl msg => Raise (LibraryError msg)
      | inr (n, cells) =>
          Return {| columns := map (fun j => JInt (Z.of_nat j)) (seq 0 n);
                    rows := cells |}
      end
  end.
End WithExternals.

Definition rename_label (mapper : dict) (l : label) : label :=
  match l with
  | JStr s => match dict_get s mapper with Some l' => l' | None => l end
  | _ => l
  end.

(** [df.rename(columns=mapper)]: a mapper that is no mapping is called as
    a function on each label, which raises as soon as there is a label. *)
Definition rename (mapper : json) (df : frame) : result frame :=
  match mapper with
  | JDict d =>
      Return {| columns := map (rename_label d) (columns df); rows := rows df |}
  | JNull => Raise (TypeError (py "must pass an index to rename"))
  | _ =>
      match columns df with
      | [] => Return df
      | _ :: _ => Raise (TypeError (py "object is not callable"))
      end
  end.

Definition is_label (name : str) (l : label) : bool :=
  match l with JStr s => str_eqb s name | _ => false end.

(** the entries of [l] at the positions where [keep] holds *)
Fixpoint select {A} (keep : list bool) (l : list A) : list A :=
  match keep, l with
  | true :: keep', a :: l' => a :: select keep' l'
  | false :: keep', _ :: l' => select keep' l'
  | _, _ => []
  end.

(** [df.drop(name, axis=1)] *)
Definition drop (name : str) (df : frame) : result frame :=
  if existsb (is_label name) (columns df) then
    let keep := map (fun l => negb (is_label name l)) (columns df) in
    Return {| columns := select keep (columns df);
              rows := map (select keep) (rows df) |}
  else Raise (KeyError (py "['" ++ name ++ py "'] not found in axis")).

(** A 64-bit integer of numpy: additions wrap around. *)
Definition int64 (z : Z) : Z := (z + 2 ^ 63) mod 2 ^ 64 - 2 ^ 63.

(** the integer in a cell of an int64 column *)
Definition int64_cell (c : cell) : option Z :=
  match c with
  | Some (JInt z) => if (- 2 ^ 63 <=? z) && (z <? 2 ^ 63) then Some z else None
  | _ => None
  end.

(** the integers of a row, when every cell of it is an int64 *)
Fixpoint int64_row (r : list cell) : option (list Z) :=
  match r with
  | [] => Some []
  | c :: r' =>
      match int64_cell c, int64_row r' with
      | Some z, Some zs => Some (z :: zs)
      | _, _ => None
      end
  end.

Fixpoint int64_rows (rs : list (list cell)) : option (list (list Z)) :=
  match rs with
  | [] => Some []
  | r :: rs' =>
      match int64_row r, int64_rows rs' with
      | Some zs, Some zss => Some (zs :: zss)
      | _, _ => None
      end
  end.

Section WithExternals.
Context {E : Externals}.

(** [df.sum(axis=1)]: one total for each row.  A frame of int64 columns is
    added up in int64; any other frame is left to pandas. *)
Definition sum_axis1 (df : frame) : result (list cell) :=
  match columns df, int64_rows (rows df) with
  | _ :: _, Some zss =>
      Return (map (fun zs => Some (JInt (int64 (fold_right Z.add 0 zs)))) zss)
  | _, _ =>
      match sum_axis1_other (rows df) with
      | inl msg => Raise (LibraryError msg)
      | inr total => Return (imap (fun i _ => total i) (rows df))
      end
  end.
End WithExternals.

(** one row of [df[name] = values]: every column called [name] takes the
    value; without such a column the value is appended *)
Definition set_cells (hit : list bool) (v : cell) (r : list cell) : list cell :=
  if existsb id hit
  then map (fun '(h, c) => if h : bool then v else c) (combine hit r)
  else r ++ [v].

(** [df[name] = values] *)
Definition setitem (name : str) (values : list cell) (df : frame) : frame :=
  let hit := map (is_label name) (columns df) in
  {| columns := if existsb id hit then columns df else columns df ++ [JStr name];
     rows := map (fun '(r, v) => set_cells hit v r) (combine (rows df) values) |}.
End Pandas.

(** ** api/helpers.py *)
Module Helpers.
Section WithExternals.
Context {E : Externals}.

Definition process_resume (resume : UploadFile) (requirements : str) : M json :=
  text <- FileProcessor.process resume ;;
  match text with
  | Failure status_code error =>
      (* ["error" in text] on the dictionary *)
      raise (HTTPException status_code error)
  | Text resume_text =>
      (* ["error" in text] on a text looks for the word in it, and
         [text["error"]] then indexes a string by a string (the text of
         the exception is that of Python up to 3.10) *)
      if contains (py "error") resume_text then
        raise (TypeError (py "string indices must be integers"))
      else
        result <- AIModels.rank_resumes requirements resume_text ;;
        match result with
        | AIModels.RankError error status_code =>
            raise (HTTPException status_code error)
        | AIModels.RankResponse response _ => loads response
        end
  end.

(** The returned [BytesIO] holds the sheet that [df.to_excel] wrote: the
    frame itself stands for it. *)
Definition generate_excel (results : list pyobj) : M Pandas.frame :=
  df <- lift (Pandas.DataFrame results) ;;
  colmap <- AIModels.shorten_requirements (Pandas.columns df) ;;
  df <- lift (Pandas.rename colmap df) ;;
  scores <- lift (Pandas.drop (py "Candidate Name") df) ;;
  totals <- lift (Pandas.sum_axis1 scores) ;;
  ret (Pandas.setitem (py "Total Score") totals df).
End WithExternals.
End Helpers.

(** ** asyncio *)
Module Asyncio.
Section WithExternals.
Context {E : Externals}.

(** The event loop picks one of [n] ready tasks. *)
Definition choose (n : nat) : world -> nat * world :=
  fun w => (hd O (loop w) mod n, World (gemini w) (calls w) (tl (loop w)))%nat.

(** Each coroutine here suspends only while its own upload is read, so a
    task is run in one piece, and the order between tasks is the loop's
    choice.  [slots] receives each outcome at the position of its task. *)
Fixpoint run_tasks {A} (fuel : nat) (pending : list (nat * M A))
    (slots : list (option (result A))) : world -> list (option (result A)) * world :=
  fun w =>
    match fuel with
    | O => (slots, w)
    | S fuel' =>
        let '(k, w0) := choose (length pending) w in
        match pending !! k with
        | None => (slots, w0)
        | Some (i, task) =>
            let '(r, w1) := task w0 in
            run_tasks fuel' (delete k pending) (<[i := Some r]> slots) w1
        end
    end.

(** [await asyncio.gather] over the tasks with [return_exceptions=True]:
    the outcomes in the order of the tasks, an exception as a value *)
Definition gather {A} (tasks : list (M A)) : M (list (result A)) :=
  fun w =>
    let '(slots, w') :=
      run_tasks (length tasks) (imap pair tasks)
                (replicate (length tasks) None) w in
    (Return (omap id slots), w').

(** [r] is what the task at position [i] gave, from some state of the world *)
Definition outcome_of {A} (tasks : list (M A)) (i : nat) (r : result A) : Prop :=
  exists task w0 w0', tasks !! i = Some task /\ task w0 = (r, w0').

(** every task that is no longer pending has left its outcome in its slot *)
Definition settled {A} (tasks : list (M A)) (pending : list (nat * M A))
    (slots : list (option (result A))) : Prop :=
  length slots = length tasks
  /\ (forall i task, (i, task) ∈ pending -> tasks !! i = Some task)
  /\ (forall i, (i < length tasks)%nat -> i ∉ pending.*1 ->
       exists r, slots !! i = Some (Some r) /\ outcome_of tasks i r).
End WithExternals.
End Asyncio.

(** What an endpoint returns on success. *)
Inductive response :=
| CriteriaResponse (status_code : Z) (criteria : list str)
| StreamingResponse (content : Pandas.frame) (status_code : Z)
                    (media_type : str) (headers : list (str * str)).

Definition xlsx_media_type : str :=
  py "application/vnd.openxmlformats-officedocument.spreadsheetml.sheet".
Definition xlsx_headers : list (str * str) :=
  [(py "Content-Disposition", py "attachment; filename=resume_scores.xlsx")].

(** The status the framework answers with: that of the response, that of a
    raised [HTTPException], and 500 for any other exception. *)
Definition http_status (r : result response) : Z :=
  match r with
  | Return (CriteriaResponse _ _) => 200
  | Return (StreamingResponse _ status_code _ _) => status_code
  | Raise (HTTPException status_code _) => status_code
  | Raise _ => 500
  end.

(** ** api/routes.py *)
Module Routes.
Section WithExternals.
Context {E : Externals}.

Definition extract_criteria (file : UploadFile) : M response :=
  text <- FileProcessor.process file ;;
  match text with
  | Failure status_code error => raise (HTTPException status_code error)
  | Text job_description =>
      if contains (py "error") job_description then
        raise (TypeError (py "string indices must be integers"))
      else
        result <- AIModels.extract_criteria job_description ;;
        match result with
        | AIModels.CriteriaError error status_code =>
            raise (HTTPException status_code error)
        | AIModels.Requirements requirements _ =>
            ret (CriteriaResponse 200 requirements)
        end
  end.

(** the loop of [rank_resumes] over the gathered results, giving
    [(final_results, errors)] *)
Fixpoint collect (results : list pyobj) (final_results : list pyobj)
    (errors : list str) : list pyobj * list str :=
  match results with
  | [] => (final_results, errors)
  | res :: results' =>
      match res with
      | Raise (HTTPException _ detail) =>
          collect results' final_results (errors ++ [detail])
      | _ => collect results' (final_results ++ [res]) errors
      end
  end.

Definition rank_resumes (requirements : str) (resumes : list UploadFile) : M response :=
  let tasks := map (fun resume => Helpers.process_resume resume requirements) resumes in
  results <- Asyncio.gather tasks ;;
  let '(final_results, errors) := collect results [] [] in
  excel <- Helpers.generate_excel final_results ;;
  ret (StreamingResponse excel 200 xlsx_media_type xlsx_headers).
End WithExternals.
End Routes.

(** ** app.py *)
Module App.
Section WithExternals.
Context {E : Externals}.

Definition model : str := py "gemini-2.0-flash".

(** [response.text] of this client raises when the response has no text *)
Definition response_text (text : option str) : M str :=
  match text with
  | Some t => ret t
  | None => raise (ValueError (py "response.text requires a valid part"))
  end.

(** naming [PyPDF2.PdfReadError] in an [except] clause *)
Definition lookup_PdfReadError : M unit :=
  if PyPDF2_PdfReadError then ret tt
  else raise (AttributeError (py "module 'PyPDF2' has no attribute 'PdfReadError'")).

Definition extract_text_from_pdf (file_content : bytes) : M str :=
  try_except
    (pages <- call_PdfReader file_content ;;
     match pages with
     | [] => raise (ValueError (py "PDF contains no readable text"))
     | _ =>
         texts <- mapM page_extract_text_or_empty pages ;;
         ret (join [newline] texts)
     end)
    (fun e =>
       lookup_PdfReadError ;;;
       match e with
       | PdfReadError _ =>
           raise (HTTPException 422 (py "Invalid PDF structure - unable to read file"))
       | _ => raise (HTTPException 422 (py "PDF processing error: " ++ exn_str e))
       end).

Definition extract_text_from_docx (file_content : bytes) : M str :=
  try_except
    (paragraphs <- call_Document file_content ;;
     match paragraphs with
     | [] => raise (ValueError (py "DOCX contains no readable text"))
     | _ => ret (join (py " ") paragraphs)
     end)
    (fun e =>
       match e with
       | PackageNotFoundError _ =>
           raise (HTTPException 422 (py "Invalid DOCX file - corrupted or empty"))
       | _ => raise (HTTPException 422 (py "DOCX processing error: " ++ exn_str e))
       end).

Definition criteria_prompt (text : str) : str :=
  py "
                    Extract all key requirements from this job description such as skills, certifications, experience, and qualifications:
                    " ++ text ++ py "
                    Format:
                        - Each requirement should be a clear, self-contained statement.
                        - No bullet points or numbers.
                        - requirement must be a quantifiable metric
                        - requirement must be a must have , no nice to haves
                    Return only the extracted requirements as a plain list.
                ".

Definition extract_criteria_with_gemini (text : str) : M (list str) :=
  try_except
    (response <- call_generate_content model (criteria_prompt text) ;;
     response_text <- response_text response ;;
     ret (split_on newline (strip response_text)))
    (fun e =>
       raise (HTTPException 500 (py "Error processing with Gemini: " ++ exn_str e))).

Definition score_prompt (resume_text requirements : str) : str :=
  py "Analyze this resume against the following job requirements. 
        For each requirement, provide Score (0-5):

        Requirements:
        " ++ requirements ++ py "

        Resume:
        " ++ resume_text ++ py "

        Return a valid dictionary, where:
        - The first key is 'Candidate Name' with the candidate's name.
        - Each job requirement is a key (use the exact requirement text), and its score (integer) is the value.

        Example:
        {
            " ++ dq ++ py "Candidate Name" ++ dq ++ py ": " ++ dq ++ py "John Doe" ++ dq ++ py ",
            " ++ dq ++ py "Bachelor's degree in Computer Science" ++ dq ++ py ": 3,
            " ++ dq ++ py "5+ years of Python experience" ++ dq ++ py ": 5
        }
        ".

Definition score_resume_with_gemini (resume_text requirements : str) : M json :=
  try_except
    (response <- call_generate_content model (score_prompt resume_text requirements) ;;
     text <- response_text response ;;
     let response_text := rstrip_chars (py "```") (lstrip_chars (py "```json") text) in
     try_except
       (loads response_text)
       (fun e =>
          match e with
          | JSONDecodeError _ =>
              raise (HTTPException 500 (py "Invalid JSON response from Gemini."))
          | _ => raise e
          end))
    (fun e => raise (HTTPException 500 (py "Resume scoring error: " ++ exn_str e))).

Definition supported (content_type : str) : bool :=
  str_eqb content_type application_pdf || str_eqb content_type application_docx.

Definition extract_text (file : UploadFile) (content : bytes) : M str :=
  if str_eqb (content_type file) application_pdf
  then extract_text_from_pdf content
  else extract_text_from_docx content.

Definition extract_criteria_endpoint (file : UploadFile) : M response :=
  if len (data file) >? 5 * 1024 * 1024 then
    raise (HTTPException 400 (py "File size exceeds 5MB limit"))
  else if negb (supported (content_type file)) then
    raise (HTTPException 400 (py "Unsupported file type. Upload PDF or DOCX."))
  else
    content <- read file ;;
    text <- extract_text file content ;;
    criteria <- extract_criteria_with_gemini text ;;
    ret (CriteriaResponse 200 criteria).

(** the [for] loop of [rank_resumes] *)
Fixpoint score_all (requirements : str) (resumes : list UploadFile)
    (results : list json) : M (list json) :=
  match resumes with
  | [] => ret results
  | resume :: resumes' =>
      if negb (supported (content_type resume)) then
        score_all requirements resumes' results
      else
        content <- read resume ;;
        text <- extract_text resume content ;;
        scores <- score_resume_with_gemini text requirements ;;
        score_all requirements resumes' (results ++ [scores])
  end.

Definition rank_resumes (requirements : str) (resumes : list UploadFile) : M response :=
  if len resumes >? 50 then
    raise (HTTPException 400 (py "Maximum of 50 resumes allowed per request"))
  else
    results <- score_all requirements resumes [] ;;
    df <- lift (Pandas.DataFrame (map Return results)) ;;
    scores <- lift (Pandas.drop (py "Candidate Name") df) ;;
    totals <- lift (Pandas.sum_axis1 scores) ;;
    let df := Pandas.setitem (py "Total Score") totals df in
    match results with
    | [] => raise (HTTPException 400 (py "No resumes processed successfully."))
    | _ => ret (StreamingResponse df 200 xlsx_media_type xlsx_headers)
    end.
End WithExternals.
End App.

(** ** Score records, as the data model of the specification describes them *)

Definition candidate_name : str := py "Candidate Name".
Definition total_score : str := py "Total Score".

(** A score record: distinct keys, the candidate's name as a text, and a
    score, an integer from 0 to 5, under every other key. *)
Definition ScoreRecord (d : dict) : Prop :=
  List.NoDup (dict_keys d)
  /\ (exists name, dict_get candidate_name d = Some (JStr name))
  /\ (forall k v, In (k, v) d -> k <> candidate_name ->
       exists z, v = JInt z /\ 0 <= z <= 5).

(** The sum of the integer scores of a record, the name left out. *)
Fixpoint score_sum (d : dict) : Z :=
  match d with
  | [] => 0
  | (k, v) :: d' =>
      (if str_eqb k candidate_name then 0
       else match v with JInt z => z | _ => 0 end) + score_sum d'
  end.

(** The score that a record holds under one key: the integer found there,
    nothing for the name and for a key that the record lacks. *)
Definition score_of (d : dict) (k : str) : Z :=
  if str_eqb k candidate_name then 0
  else match dict_get k d with Some (JInt z) => z | _ => 0 end.

Definition sum_list (l : list Z) : Z := fold_right Z.add 0 l.

(** The mappings among the gathered outcomes, each with its position in the
    upload sequence. *)
Fixpoint succeeding_from (i : nat) (results : list pyobj) : list (nat * dict) :=
  match results with
  | [] => []
  | Return (JDict d) :: results' => (i, d) :: succeeding_from (S i) results'
  | _ :: results' => succeeding_from (S i) results'
  end.

Definition succeeding (results : list pyobj) : list (nat * dict) :=
  succeeding_from 0 results.

(** A pipeline outcome that is a structured failure: an [HTTPException]. *)
Definition is_structured_failure (r : pyobj) : bool :=
  match r with
  | Raise (HTTPException _ _) => true
  | _ => false
  end.

(** The columns of a report for records with the keys [keys], relabelled by
    the mapping [colmap]. *)
Definition relabelled (colmap : dict) (keys : list str) : list Pandas.label :=
  map (fun k => Pandas.rename_label colmap (JStr k)) keys.

(** A row of the sheet: the cells of the record [d] under the keys [keys],
    with [total] in the columns marked by [hit], or appended when no column
    is marked. *)
Definition sheet_row (hit : list bool) (keys : list str) (d : dict) (total : Z)
    : list Pandas.cell :=
  Pandas.set_cells hit (Some (JInt total)) (Pandas.row_of keys d).

(** The report expected for the records [records] under the relabelling
    [colmap]: one row per record, in order, each with the record's cells and
    the sum of its scores under Total Score. *)
Definition report (colmap : dict) (records : list dict) : Pandas.frame :=
  let keys := Pandas.all_keys records in
  let hit := map (Pandas.is_label total_score) (relabelled colmap keys) in
  {| Pandas.columns :=
       if existsb id hit then relabelled colmap keys
       else relabelled colmap keys ++ [JStr total_score];
     Pandas.rows := map (fun d => sheet_row hit keys d (score_sum d)) records |}.

(** The relabelling leaves the name column, and only it, with the label
    Candidate Name. *)
Definition keeps_candidate_name (colmap : dict) (keys : list str) : bool :=
  forallb (fun k =>
             Bool.eqb (Pandas.is_label candidate_name
                         (Pandas.rename_label colmap (JStr k)))
                      (str_eqb k candidate_name))
          keys.

(** [row] shows [total] under Total Score, in a sheet that has the column. *)
Definition has_total (df : Pandas.frame) (row : list Pandas.cell) (total : Z) : Prop :=
  (exists j, Pandas.columns df !! j = Some (JStr total_score))
  /\ (forall j, Pandas.columns df !! j = Some (JStr total_score) ->
       row !! j = Some (Some (JInt total))).

(** The records among the gathered outcomes, in the order of the uploads. *)
Definition records_of (results : list pyobj) : list dict :=
  map snd (succeeding results).

(** The columns of the relabelled frame that are called Total Score: the
    columns that [df['Total Score'] = ...] writes to. *)
Definition total_marks (colmap : dict) (keys : list str) : list bool :=
  map (Pandas.is_label total_score) (relabelled colmap keys).

(** The records of a batch make a table of scores: there is a requirement,
    every record scores every requirement of the batch, and the sum of the
    scores of a record is below 2^63. *)
Definition ScoreTable (records : list dict) : Prop :=
  (exists k, In k (Pandas.all_keys records) /\ k <> candidate_name)
  /\ Forall (fun d =>
               (forall k, In k (Pandas.all_keys records) -> In k (dict_keys d))
               /\ score_sum d < 2 ^ 63)
       records.

(** ** Concrete collaborators for the examples *)
Module Fixtures.

Definition text_of_bytes (b : bytes) : str := map Byte.to_N b.

(** A stand-in for the libraries: the backend answers from a script, a
    payload that starts with a zero byte is a damaged document, an empty
    payload has no page or paragraph, any other payload is its own text;
    [json.loads] knows the documents of [table]; a list of objects is
    refused by [DataFrame] when it starts with a mapping and becomes a frame
    of one column otherwise; a frame outside int64 is not added up. *)
Definition scripted (table : list (str * json)) : Externals := {|
  backend := list backend_outcome;
  generate_content := fun script _ _ =>
    match script with
    | [] => (BackendRaises (py "deadline exceeded"), [])
    | answer :: script' => (answer, script')
    end;
  PdfReader := fun content =>
    match content with
    | [] => PdfPages []
    | x00 :: _ => PdfRaises (ReadError (py "EOF marker not found"))
    | _ => PdfPages [PageText (Some (text_of_bytes content))]
    end;
  Document := fun content =>
    match content with
    | [] => DocxParagraphs []
    | x00 :: _ => DocxRaises (PackageNotFound (py "Package not found"))
    | _ => DocxParagraphs [text_of_bytes content]
    end;
  json_loads := fun s =>
    match dict_get s table with
    | Some v => inr v
    | None => inl (py "Expecting value")
    end;
  http_exception_str := fun _ detail => detail;
  format_list := fun labels =>
    join (py ", ") (map (fun l => match l with JStr s => s | _ => [] end) labels);
  repr := fun s => py "'" ++ s ++ py "'";
  no_text_message := py "The response has no valid part";
  PyPDF2_PdfReadError := false;
  DataFrame_objects := fun data =>
    match data with
    | Return (JDict _) :: _ => inl (py "object has no attribute 'keys'")
    | _ => inr (1%nat, map (fun _ => [None]) data)
    end;
  sum_axis1_other := fun _ => inl (py "unsupported operand type(s) for +")
|}.

(** the world at the start of a request: the answers the backend will
    give, no call made yet, and the loop's choices *)
Definition start (table : list (str * json)) (script : list backend_outcome)
    (choices : list nat) : @world (scripted table) :=
  @World (scripted table) script [] choices.

Definition bytes_of (s : string) : bytes := list_byte_of_string s.

Definition upload (name type : str) (payload : bytes) : UploadFile :=
  {| filename := name; content_type := type; data := payload |}.

(** one byte more than 5 MB *)
Definition oversized (type : str) : UploadFile :=
  upload (py "big") type (repeat x41 (N.to_nat 5242881)).

Definition ann_pdf : UploadFile :=
  upload (py "ann.pdf") application_pdf (bytes_of "Ann, Python developer").
Definition bob_docx : UploadFile :=
  upload (py "bob.docx") application_docx (bytes_of "Bob, SQL analyst").
Definition notes_txt : UploadFile :=
  upload (py "notes.txt") (py "text/plain") (bytes_of "hello").

Definition ann : dict :=
  [(candidate_name, JStr (py "Ann")); (py "Python", JInt 4); (py "SQL", JInt 3)].
Definition bob : dict :=
  [(candidate_name, JStr (py "Bob")); (py "Python", JInt 2); (py "SQL", JInt 5)].

(** a relabelling that keeps the name column, and one that renames it *)
Definition same : dict :=
  [(candidate_name, JStr candidate_name); (py "Python", JStr (py "Py"));
   (py "SQL", JStr (py "SQL"))].
Definition renamed : dict := [(candidate_name, JStr (py "Name"))].

Definition table : list (str * json) :=
  [(py "{ann}", JDict ann); (py "{bob}", JDict bob);
   (py "{same}", JDict same); (py "{name}", JDict renamed)].
End Fixtures.

(** ** Vocabulary of the further properties *)

(** The world after one more call to a parsing library. *)
Definition logged {E : Externals} (ev : event) (w : world) : world :=
  World (gemini w) (calls w ++ [ev]) (loop w).

(** The world after a call to the generative client that left the service
    in the state [gemini']. *)
Definition answered {E : Externals} (gemini' : backend) (model contents : str)
    (w : world) : world :=
  World gemini' (calls w ++ [CallGenerateContent model contents]) (loop w).

(** An extraction result that is a text or a failure of status 422. *)
Definition text_or_422 (r : extraction) : Prop :=
  match r with
  | Text _ => True
  | Failure status_code _ => status_code = 422
  end.

(** An outcome that is a value or an [HTTPException] of status [status]. *)
Definition value_or_http {A} (status : Z) (r : result A) : Prop :=
  match r with
  | Return _ => True
  | Raise (HTTPException status_code _) => status_code = status
  | Raise _ => False
  end.

(** The text of a page that was read, empty for a page without text. *)
Definition page_text (p : page) : option str :=
  match p with
  | PageText (Some text) => Some text
  | PageText None => Some []
  | PageRaises _ => None
  end.

(** What is handed to [json.loads]: the answer without its code fence. *)
Definition without_fence (text : str) : str :=
  rstrip_chars (py "```") (lstrip_chars (py "```json") text).

(** The details of the structured failures among the outcomes, in order. *)
Fixpoint failure_details (results : list pyobj) : list str :=
  match results with
  | [] => []
  | Raise (HTTPException _ detail) :: results' => detail :: failure_details results'
  | _ :: results' => failure_details results'
  end.

(** * Properties *)

(** ** The string operations on small inputs *)

Example strip_spaces :
  strip (py "  5+ years of Python " ++ [newline]) = py "5+ years of Python".
Proof. reflexivity. Qed.

Example split_keeps_blank_line :
  split_on newline (py "Python" ++ [newline; newline] ++ py "SQL")
  = [py "Python"; []; py "SQL"].
Proof. reflexivity. Qed.

(** [lstrip] and [rstrip] with an argument take a set of characters, not a
    prefix: they remove the fence, and would remove more. *)
Example strip_fence :
  rstrip_chars (py "```") (lstrip_chars (py "```json") (py "```json{x: 1}```"))
  = py "{x: 1}".
Proof. reflexivity. Qed.

Example strip_fence_set :
  lstrip_chars (py "```json") (py "nosql: 3") = py "ql: 3".
Proof. reflexivity. Qed.

Example error_is_a_word :
  contains (py "error") (py "Reduced the error rate of the pipeline") = true.
Proof. reflexivity. Qed.

Example first_seen_keys :
  Pandas.all_keys [[(py "b", JInt 1); (py "a", JInt 2)]; [(py "c", JInt 3); (py "a", JInt 4)]]
  = [py "b"; py "a"; py "c"].
Proof. reflexivity. Qed.

(** ** Running the monad *)

Ltac unfold_monad :=
  unfold bind, ret, raise, lift, try_except, log_call in *.

Section MonadFacts.
Context {E : Externals}.

Lemma bind_return {A B} (m : M A) (k : A -> M B) w a w' :
  m w = (Return a, w') -> bind m k w = k a w'.
Proof. intros Hm. unfold bind. now rewrite Hm. Qed.

Lemma bind_raise {A B} (m : M A) (k : A -> M B) w e w' :
  m w = (Raise e, w') -> bind m k w = (Raise e, w').
Proof. intros Hm. unfold bind. now rewrite Hm. Qed.

Lemma try_return {A} (m : M A) handler w a w' :
  m w = (Return a, w') -> try_except m handler w = (Return a, w').
Proof. intros Hm. unfold try_except. now rewrite Hm. Qed.

Lemma try_raise {A} (m : M A) handler w e w' :
  m w = (Raise e, w') -> try_except m handler w = handler e w'.
Proof. intros Hm. unfold try_except. now rewrite Hm. Qed.
End MonadFacts.

(** ** The size limit *)

Section SizeLimit.
Context {E : Externals}.

Lemma validate_size_over (payload : bytes) w :
  5 * 1024 * 1024 < len payload ->
  FileProcessor.validate_size payload w
  = (Raise (ValueError (py "File size exceeds 5MB limit")), w).
Proof.
  intros Hlen. unfold FileProcessor.validate_size.
  destruct (Z.gtb_spec (len payload) (5 * 1024 * 1024)); [reflexivity | lia].
Qed.

Lemma validate_size_within (payload : bytes) w :
  len payload <= 5 * 1024 * 1024 ->
  FileProcessor.validate_size payload w = (Return tt, w).
Proof.
  intros Hlen. unfold FileProcessor.validate_size.
  destruct (Z.gtb_spec (len payload) (5 * 1024 * 1024)); [lia | reflexivity].
Qed.

Lemma BaseDoc_init_within (payload : bytes) w :
  len payload <= 5 * 1024 * 1024 ->
  FileProcessor.BaseDoc_init payload w
  = (Return {| FileProcessor.file := payload; FileProcessor.content := payload |}, w).
Proof.
  intros Hlen. unfold FileProcessor.BaseDoc_init.
  now rewrite (bind_return _ _ _ _ _ (validate_size_within _ w Hlen)).
Qed.

Lemma process_over (file : UploadFile) w :
  5 * 1024 * 1024 < len (data file) ->
  FileProcessor.process file w
  = (Raise (ValueError (py "File size exceeds 5MB limit")), w).
Proof.
  intros Hlen. unfold FileProcessor.process, FileProcessor.from_upload, read.
  apply bind_raise. unfold bind at 1, ret at 1.
  unfold FileProcessor.BaseDoc_init.
  apply bind_raise, validate_size_over, Hlen.
Qed.
End SizeLimit.

Lemma oversized_len type : len (data (Fixtures.oversized type)) = 5242881.
Proof.
  unfold len, Fixtures.oversized, Fixtures.upload, data.
  rewrite repeat_length. apply N_nat_Z.
Qed.

(** C4.  A payload above 5 MB never reaches the parsing library: the
    document processor stops at the size check, before any call is made.
    It stops by raising [ValueError], which the extract-criteria route
    answers with status 500, where the single-file service answers the same
    upload with a structured failure of status 400. *)
Theorem oversized_payload_stops_before_parsing {E : Externals}
    (file : UploadFile) (w : world) :
  5 * 1024 * 1024 < len (data file) ->
  FileProcessor.process file w
  = (Raise (ValueError (py "File size exceeds 5MB limit")), w)
  /\ (forall status_code error,
        fst (FileProcessor.process file w) <> Return (Failure status_code error))
  /\ http_status (fst (Routes.extract_criteria file w)) = 500
  /\ App.extract_criteria_endpoint file w
     = (Raise (HTTPException 400 (py "File size exceeds 5MB limit")), w).
Proof.
  intros Hlen. pose proof (process_over file w Hlen) as Hp.
  split; [exact Hp |]. split; [| split].
  - intros status_code error. rewrite Hp. discriminate.
  - unfold Routes.extract_criteria.
    now rewrite (bind_raise _ _ _ _ _ Hp).
  - unfold App.extract_criteria_endpoint.
    destruct (Z.gtb_spec (len (data file)) (5 * 1024 * 1024)); [reflexivity | lia].
Qed.

Lemma oversized_payload_stops_before_parsing_witness :
  5 * 1024 * 1024 < len (data (Fixtures.oversized application_pdf))
  /\ FileProcessor.process (Fixtures.oversized application_pdf)
       (Fixtures.start [] [] [])
     = (Raise (ValueError (py "File size exceeds 5MB limit")), Fixtures.start [] [] []).
Proof.
  assert (Hlen : 5 * 1024 * 1024 < len (data (Fixtures.oversized application_pdf))).
  { rewrite oversized_len. reflexivity. }
  split; [exact Hlen |].
  exact (proj1 (oversized_payload_stops_before_parsing _ (Fixtures.start [] [] []) Hlen)).
Defined.

(** ** Unsupported content types *)

Lemma str_eqb_eq (a b : str) : str_eqb a b = true <-> a = b.
Proof. unfold str_eqb. apply bool_decide_eq_true. Qed.

Lemma str_eqb_refl (a : str) : str_eqb a a = true.
Proof. now apply str_eqb_eq. Qed.

Lemma str_eqb_ne (a b : str) : a <> b -> str_eqb a b = false.
Proof. unfold str_eqb. apply bool_decide_eq_false. Qed.

Section ContentTypes.
Context {E : Externals}.

Lemma from_upload_within (file : UploadFile) w :
  len (data file) <= 5 * 1024 * 1024 ->
  FileProcessor.from_upload file w
  = (Return {| FileProcessor.file := data file;
               FileProcessor.content := data file |}, w).
Proof.
  intros Hlen. unfold FileProcessor.from_upload, read.
  unfold bind at 1, ret at 1. now apply BaseDoc_init_within.
Qed.

Lemma process_pdf (file : UploadFile) w :
  content_type file = application_pdf ->
  len (data file) <= 5 * 1024 * 1024 ->
  FileProcessor.process file w
  = FileProcessor.PdfDoc_extract_text
      {| FileProcessor.file := data file; FileProcessor.content := data file |} w.
Proof.
  intros Htype Hlen. unfold FileProcessor.process.
  rewrite (bind_return _ _ _ _ _ (from_upload_within file w Hlen)).
  rewrite Htype, str_eqb_refl. cbn [FileProcessor.file].
  now rewrite (bind_return _ _ _ _ _ (BaseDoc_init_within _ w Hlen)).
Qed.
End ContentTypes.

(** C7, as stated, fails on an upload that is also above the size limit:
    the size is checked first, and the processor raises instead of
    returning a failure. *)
Lemma unsupported_type_oversized_counterexample :
  content_type (Fixtures.oversized (py "text/plain")) <> application_pdf
  /\ content_type (Fixtures.oversized (py "text/plain")) <> application_docx
  /\ forall status_code error,
       fst (FileProcessor.process (Fixtures.oversized (py "text/plain"))
              (Fixtures.start [] [] []))
       <> Return (Failure status_code error).
Proof.
  split; [| split].
  - intros Heq. vm_compute in Heq. discriminate.
  - intros Heq. vm_compute in Heq. discriminate.
  - intros status_code error. rewrite process_over.
    + discriminate.
    + rewrite oversized_len. reflexivity.
Qed.

(** C7, amended.  For every upload whose declared content type is neither
    PDF nor DOCX and whose payload is within the 5 MB limit, the document
    processor returns the failure of status 422 whose message starts with
    "Unsupported file type", without calling any library. *)
Theorem unsupported_type_within_limit {E : Externals}
    (file : UploadFile) (w : world) :
  content_type file <> application_pdf ->
  content_type file <> application_docx ->
  len (data file) <= 5 * 1024 * 1024 ->
  FileProcessor.process file w
  = (Return (Failure 422 (py "Unsupported file type. Upload PDF or DOCX.")), w)
  /\ startswith (py "Unsupported file type")
       (py "Unsupported file type. Upload PDF or DOCX.") = true.
Proof.
  intros Hpdf Hdocx Hlen. split; [| reflexivity].
  unfold FileProcessor.process.
  rewrite (bind_return _ _ _ _ _ (from_upload_within file w Hlen)).
  now rewrite (str_eqb_ne _ _ Hpdf), (str_eqb_ne _ _ Hdocx).
Qed.

Lemma unsupported_type_within_limit_witness :
  FileProcessor.process Fixtures.notes_txt (Fixtures.start [] [] [])
  = (Return (Failure 422 (py "Unsupported file type. Upload PDF or DOCX.")),
     Fixtures.start [] [] []).
Proof.
  refine (proj1 (unsupported_type_within_limit _ (Fixtures.start [] [] []) _ _ _)).
  - intros Heq. vm_compute in Heq. discriminate.
  - intros Heq. vm_compute in Heq. discriminate.
  - vm_compute. discriminate.
Defined.

(** ** Failures of PDF extraction *)

(** C8.  A PDF without pages and a PDF that the library cannot read both
    give a failure of status 422, the first with the message "PDF contains
    no readable text", the second with "Invalid PDF structure - unable to
    read file"; the two messages differ. *)
Theorem pdf_failure_causes {E : Externals}
    (self : FileProcessor.BaseDoc) (w : world) :
  PdfReader (FileProcessor.content self) = PdfPages []
  \/ (exists msg, PdfReader (FileProcessor.content self) = PdfRaises (ReadError msg)) ->
  exists error,
    fst (FileProcessor.PdfDoc_extract_text self w) = Return (Failure 422 error)
    /\ (PdfReader (FileProcessor.content self) = PdfPages [] ->
        error = py "PDF contains no readable text")
    /\ ((exists msg, PdfReader (FileProcessor.content self) = PdfRaises (ReadError msg)) ->
        error = py "Invalid PDF structure - unable to read file")
    /\ py "PDF contains no readable text"
       <> py "Invalid PDF structure - unable to read file".
Proof.
  assert (Hne : py "PDF contains no readable text"
                <> py "Invalid PDF structure - unable to read file").
  { intros Heq. vm_compute in Heq. discriminate. }
  intros [Hpages | [msg Hread]].
  - exists (py "PDF contains no readable text").
    unfold FileProcessor.PdfDoc_extract_text, call_PdfReader.
    unfold_monad. rewrite Hpages. cbn.
    repeat split; [| exact Hne].
    intros [msg Hread]. discriminate.
  - exists (py "Invalid PDF structure - unable to read file").
    unfold FileProcessor.PdfDoc_extract_text, call_PdfReader.
    unfold_monad. rewrite Hread. cbn.
    repeat split; [| exact Hne].
    intros Hpages. discriminate.
Qed.

Lemma pdf_failure_causes_witness :
  exists error,
    fst (FileProcessor.PdfDoc_extract_text
           {| FileProcessor.file := []; FileProcessor.content := [] |}
           (Fixtures.start [] [] []))
    = Return (Failure 422 error)
    /\ error = py "PDF contains no readable text".
Proof.
  destruct (pdf_failure_causes
              {| FileProcessor.file := []; FileProcessor.content := [] |}
              (Fixtures.start [] [] []) (or_introl eq_refl))
    as (error & Hrun & Hpages & _).
  exists error. split; [exact Hrun | exact (Hpages eq_refl)].
Defined.

Section PdfFailures.
Context {E : Externals}.

(** Through the extract-criteria route the failure reaches the caller as an
    [HTTPException] with the same status and message. *)
Lemma pdf_failure_reaches_caller (file : UploadFile) w status_code error :
  content_type file = application_pdf ->
  len (data file) <= 5 * 1024 * 1024 ->
  fst (FileProcessor.PdfDoc_extract_text
         {| FileProcessor.file := data file; FileProcessor.content := data file |} w)
  = Return (Failure status_code error) ->
  fst (Routes.extract_criteria file w) = Raise (HTTPException status_code error).
Proof.
  intros Htype Hlen Hfail. unfold Routes.extract_criteria, bind.
  rewrite (process_pdf file w Htype Hlen).
  destruct (FileProcessor.PdfDoc_extract_text _ w) as [r w']. cbn in Hfail.
  now subst r.
Qed.

(** The single-file service tells the two causes apart as well, when the
    installed PyPDF2 has [PdfReadError] where the [except] clause names it;
    when it has not, every failure of extraction ends in [AttributeError]. *)
Lemma extract_text_from_pdf_failures (file_content : bytes) w :
  (PdfReader file_content = PdfPages [] ->
   fst (App.extract_text_from_pdf file_content w)
   = if PyPDF2_PdfReadError
     then Raise (HTTPException 422
                   (py "PDF processing error: " ++ py "PDF contains no readable text"))
     else Raise (AttributeError (py "module 'PyPDF2' has no attribute 'PdfReadError'")))
  /\ (forall msg,
        PdfReader file_content = PdfRaises (ReadError msg) ->
        fst (App.extract_text_from_pdf file_content w)
        = if PyPDF2_PdfReadError
          then Raise (HTTPException 422 (py "Invalid PDF structure - unable to read file"))
          else Raise (AttributeError
                        (py "module 'PyPDF2' has no attribute 'PdfReadError'"))).
Proof.
  split; [intros Hparse | intros msg Hparse];
    unfold App.extract_text_from_pdf, App.lookup_PdfReadError, call_PdfReader;
    unfold_monad; rewrite Hparse; now destruct PyPDF2_PdfReadError.
Qed.
End PdfFailures.

(** ** Criteria extraction *)

Lemma split_on_nonempty sep s : split_on sep s <> [].
Proof.
  destruct s as [| c s]; cbn; [discriminate |].
  destruct (c =? sep)%N; [discriminate |].
  destruct (split_on sep s); discriminate.
Qed.

(** Joining the pieces with the separator gives the string back: splitting
    drops nothing and keeps empty pieces. *)
Lemma join_split_on sep s : join [sep] (split_on sep s) = s.
Proof.
  induction s as [| c s IH]; [reflexivity |].
  cbn [split_on]. destruct (N.eqb_spec c sep) as [-> | Hne].
  - pose proof (split_on_nonempty sep s) as Hs.
    destruct (split_on sep s) as [| piece pieces]; [contradiction |].
    cbn [join]. cbn [join] in IH. now rewrite IH.
  - pose proof (split_on_nonempty sep s) as Hs.
    destruct (split_on sep s) as [| piece pieces]; [contradiction |].
    cbn [join] in *. destruct pieces as [| piece' pieces].
    + now rewrite IH.
    + rewrite <- IH. reflexivity.
Qed.

Lemma length_split_on sep s :
  length (split_on sep s) = S (count_occ N.eq_dec s sep).
Proof.
  induction s as [| c s IH]; [reflexivity |].
  cbn [split_on count_occ]. destruct (N.eqb_spec c sep) as [-> | Hne].
  - destruct (N.eq_dec sep sep); [| contradiction]. cbn. now rewrite IH.
  - destruct (N.eq_dec c sep); [contradiction |].
    pose proof (split_on_nonempty sep s) as Hs.
    destruct (split_on sep s) as [| piece pieces]; [contradiction |].
    exact IH.
Qed.

Section Criteria.
Context {E : Externals}.

Lemma call_generate_content_response model contents w text gemini' :
  generate_content (gemini w) model contents = (Response text, gemini') ->
  call_generate_content model contents w
  = (Return text,
     World gemini' (calls w ++ [CallGenerateContent model contents]) (loop w)).
Proof. intros Hgen. unfold call_generate_content. now rewrite Hgen. Qed.

Lemma call_generate_content_raises model contents w msg gemini' :
  generate_content (gemini w) model contents = (BackendRaises msg, gemini') ->
  call_generate_content model contents w
  = (Raise (LibraryError msg),
     World gemini' (calls w ++ [CallGenerateContent model contents]) (loop w)).
Proof. intros Hgen. unfold call_generate_content. now rewrite Hgen. Qed.

Lemma extract_criteria_sentinel job_description w text gemini' :
  generate_content (gemini w) AIModels.model
    (AIModels.criteria_prompt job_description) = (Response (Some text), gemini') ->
  strip text = py "INVALID_INPUT" ->
  fst (AIModels.extract_criteria job_description w)
  = Return (AIModels.CriteriaError (py "Not a valid Job Description") 400).
Proof.
  intros Hgen Hstrip. unfold AIModels.extract_criteria.
  erewrite try_return; [reflexivity |].
  rewrite (bind_return _ _ _ _ _ (call_generate_content_response _ _ _ _ _ Hgen)).
  cbn [on_text]. unfold bind at 1, ret at 1.
  rewrite Hstrip, str_eqb_refl. reflexivity.
Qed.

Lemma extract_criteria_lines job_description w text gemini' :
  generate_content (gemini w) AIModels.model
    (AIModels.criteria_prompt job_description) = (Response (Some text), gemini') ->
  strip text <> py "INVALID_INPUT" ->
  fst (AIModels.extract_criteria job_description w)
  = Return (AIModels.Requirements (split_on newline (strip text)) 200).
Proof.
  intros Hgen Hstrip. unfold AIModels.extract_criteria.
  erewrite try_return; [reflexivity |].
  rewrite (bind_return _ _ _ _ _ (call_generate_content_response _ _ _ _ _ Hgen)).
  cbn [on_text]. unfold bind at 1, ret at 1.
  rewrite (str_eqb_ne _ _ Hstrip). reflexivity.
Qed.

(** The single-file service splits the stripped response in the same way,
    and has no sentinel. *)
Lemma extract_criteria_with_gemini_lines text w response gemini' :
  generate_content (gemini w) App.model (App.criteria_prompt text)
  = (Response (Some response), gemini') ->
  fst (App.extract_criteria_with_gemini text w)
  = Return (split_on newline (strip response)).
Proof.
  intros Hgen. unfold App.extract_criteria_with_gemini.
  erewrite try_return; [reflexivity |].
  rewrite (bind_return _ _ _ _ _ (call_generate_content_response _ _ _ _ _ Hgen)).
  reflexivity.
Qed.
End Criteria.

(** C6.  When the backend answers the criteria prompt with the sentinel
    (its answer, stripped, is INVALID_INPUT), criteria extraction returns
    the failure of status 400 with the message "Not a valid Job
    Description", and so returns no requirement list. *)
Theorem sentinel_gives_failure_400 {E : Externals}
    (job_description : str) (w : world) (text : str) (gemini' : backend) :
  generate_content (gemini w) AIModels.model
    (AIModels.criteria_prompt job_description) = (Response (Some text), gemini') ->
  strip text = py "INVALID_INPUT" ->
  fst (AIModels.extract_criteria job_description w)
  = Return (AIModels.CriteriaError (py "Not a valid Job Description") 400)
  /\ forall requirements code,
       fst (AIModels.extract_criteria job_description w)
       <> Return (AIModels.Requirements requirements code).
Proof.
  intros Hgen Hstrip.
  pose proof (extract_criteria_sentinel _ _ _ _ Hgen Hstrip) as Hrun.
  split; [exact Hrun |]. intros requirements code. rewrite Hrun. discriminate.
Qed.

Lemma sentinel_gives_failure_400_witness :
  fst (AIModels.extract_criteria (py "Mix flour and water, bake for an hour.")
         (Fixtures.start [] [Response (Some (py " INVALID_INPUT" ++ [newline]))] []))
  = Return (AIModels.CriteriaError (py "Not a valid Job Description") 400).
Proof.
  refine (proj1 (sentinel_gives_failure_400 _
                   (Fixtures.start [] [Response (Some (py " INVALID_INPUT" ++ [newline]))] [])
                   (py " INVALID_INPUT" ++ [newline]) [] _ _)).
  - reflexivity.
  - vm_compute. reflexivity.
Defined.

(** C9, as stated, fails on a response that starts with blank lines: they
    are lines of the response, and no requirement is returned for them. *)
Lemma leading_blank_lines_counterexample :
  fst (AIModels.extract_criteria (py "Data engineer wanted.")
         (Fixtures.start []
            [Response (Some ([newline; newline] ++ py "Python" ++ [newline] ++ py "SQL"))]
            []))
  = Return (AIModels.Requirements [py "Python"; py "SQL"] 200)
  /\ split_on newline ([newline; newline] ++ py "Python" ++ [newline] ++ py "SQL")
     = [[]; []; py "Python"; py "SQL"].
Proof. split; vm_compute; reflexivity. Qed.

(** C9, amended.  For every answer of the backend that is not the sentinel,
    the returned requirements are the pieces of the stripped answer between
    its newlines: leading and trailing white space of the answer is removed
    first, and after that nothing is filtered, so that every blank line
    inside is a requirement and joining the requirements with newlines
    gives the stripped answer back. *)
Theorem requirements_are_lines_of_stripped_answer {E : Externals}
    (job_description : str) (w : world) (text : str) (gemini' : backend) :
  generate_content (gemini w) AIModels.model
    (AIModels.criteria_prompt job_description) = (Response (Some text), gemini') ->
  strip text <> py "INVALID_INPUT" ->
  fst (AIModels.extract_criteria job_description w)
  = Return (AIModels.Requirements (split_on newline (strip text)) 200)
  /\ join [newline] (split_on newline (strip text)) = strip text
  /\ length (split_on newline (strip text))
     = S (count_occ N.eq_dec (strip text) newline).
Proof.
  intros Hgen Hstrip. split; [| split].
  - exact (extract_criteria_lines _ _ _ _ Hgen Hstrip).
  - apply join_split_on.
  - apply length_split_on.
Qed.

Lemma requirements_are_lines_of_stripped_answer_witness :
  fst (AIModels.extract_criteria (py "Data engineer wanted.")
         (Fixtures.start []
            [Response (Some (py " Python" ++ [newline; newline] ++ py "SQL" ++ [newline]))]
            []))
  = Return (AIModels.Requirements [py "Python"; []; py "SQL"] 200).
Proof.
  refine (proj1 (requirements_are_lines_of_stripped_answer _
                   (Fixtures.start []
                      [Response (Some (py " Python" ++ [newline; newline] ++ py "SQL" ++ [newline]))]
                      [])
                   (py " Python" ++ [newline; newline] ++ py "SQL" ++ [newline]) [] _ _)).
  - reflexivity.
  - intros Heq. vm_compute in Heq. discriminate.
Defined.

(** ** Failures of report building *)

Section ReportFailures.
Context {E : Externals}.

Lemma loads_fails s msg w :
  json_loads s = inl msg -> loads s w = (Raise (JSONDecodeError msg), w).
Proof. intros Hs. unfold loads. now rewrite Hs. Qed.

Lemma loads_value s v w :
  json_loads s = inr v -> loads s w = (Return v, w).
Proof. intros Hs. unfold loads. now rewrite Hs. Qed.

(** The label shortener returns a value or raises an exception of the
    libraries. *)
Lemma shorten_requirements_cases req_ls w :
  (exists e w', AIModels.shorten_requirements req_ls w = (Raise e, w')
                /\ is_HTTPException e = false)
  \/ (exists colmap w', AIModels.shorten_requirements req_ls w = (Return colmap, w')).
Proof.
  unfold AIModels.shorten_requirements.
  destruct (generate_content (gemini w) AIModels.model (AIModels.labels_prompt req_ls))
    as [[msg | [text |]] gemini'] eqn:Hgen.
  - left. rewrite (bind_raise _ _ _ _ _ (call_generate_content_raises _ _ _ _ _ Hgen)).
    eauto.
  - rewrite (bind_return _ _ _ _ _ (call_generate_content_response _ _ _ _ _ Hgen)).
    cbn [on_text]. unfold bind at 1, ret at 1. cbv beta iota.
    destruct (json_loads (rstrip_chars (py "```") (lstrip_chars (py "```json") text)))
      as [msg | colmap] eqn:Hjson.
    + left. eexists _, _. split; [apply loads_fails, Hjson | reflexivity].
    + right. eexists _, _. apply loads_value, Hjson.
  - left. rewrite (bind_return _ _ _ _ _ (call_generate_content_response _ _ _ _ _ Hgen)).
    cbn [on_text]. unfold bind at 1, raise at 1. eauto.
Qed.

Lemma DataFrame_raises data e :
  Pandas.DataFrame data = Raise e -> is_HTTPException e = false.
Proof.
  unfold Pandas.DataFrame. destruct (Pandas.as_records data); [discriminate |].
  destruct (DataFrame_objects data) as [msg | [n cells]]; [| discriminate].
  now intros [= <-].
Qed.

Lemma rename_raises colmap df e :
  Pandas.rename colmap df = Raise e -> is_HTTPException e = false.
Proof.
  unfold Pandas.rename.
  destruct colmap; try discriminate; try (now intros [= <-]);
    destruct (Pandas.columns df); try discriminate; now intros [= <-].
Qed.

Lemma drop_raises name df e :
  Pandas.drop name df = Raise e -> is_HTTPException e = false.
Proof.
  unfold Pandas.drop. destruct (existsb _ _); [discriminate |]. now intros [= <-].
Qed.

Lemma sum_axis1_raises df e :
  Pandas.sum_axis1 df = Raise e -> is_HTTPException e = false.
Proof.
  unfold Pandas.sum_axis1.
  destruct (Pandas.columns df), (Pandas.int64_rows (Pandas.rows df));
    try discriminate;
    (destruct (sum_axis1_other (Pandas.rows df)); [| discriminate]);
    now intros [= <-].
Qed.

Lemma lift_bind_raises {A B} (r : result A) (k : A -> M B) w e w' :
  (forall e, r = Raise e -> is_HTTPException e = false) ->
  (forall a, r = Return a -> k a w = (Raise e, w') -> is_HTTPException e = false) ->
  bind (lift r) k w = (Raise e, w') -> is_HTTPException e = false.
Proof.
  intros Hr Hk. unfold bind at 1, lift at 1. destruct r as [e0 | a].
  - intros [= <- <-]. now apply Hr.
  - now apply Hk.
Qed.

Lemma generate_excel_raises data w e w' :
  Helpers.generate_excel data w = (Raise e, w') -> is_HTTPException e = false.
Proof.
  unfold Helpers.generate_excel.
  apply lift_bind_raises; [apply DataFrame_raises |]. intros df _.
  destruct (shorten_requirements_cases (Pandas.columns df) w)
    as [(e1 & w1 & Hs & Hne) | (colmap & w1 & Hs)].
  - rewrite (bind_raise _ _ _ _ _ Hs). now intros [= <- <-].
  - rewrite (bind_return _ _ _ _ _ Hs).
    apply lift_bind_raises; [apply rename_raises |]. intros df1 _.
    apply lift_bind_raises; [apply drop_raises |]. intros scores _.
    apply lift_bind_raises; [apply sum_axis1_raises |]. intros totals _.
    discriminate.
Qed.

(** A frame that was not built from mappings has integer labels, which no
    relabelling turns into Candidate Name. *)
Lemma rename_label_int (mapper : dict) (l : Pandas.label) :
  (forall s, l <> JStr s) -> Pandas.rename_label mapper l = l.
Proof. intros Hl. destruct l; try reflexivity. now destruct (Hl s). Qed.

Lemma DataFrame_objects_labels data df :
  Pandas.as_records data = None ->
  Pandas.DataFrame data = Return df ->
  Forall (fun l => forall s, l <> JStr s) (Pandas.columns df).
Proof.
  intros Hdata. unfold Pandas.DataFrame. rewrite Hdata.
  destruct (DataFrame_objects data) as [msg | [n cells]]; [discriminate |].
  intros [= <-]. cbn [Pandas.columns]. apply List.Forall_forall.
  intros l Hl. apply in_map_iff in Hl as (j & <- & _). discriminate.
Qed.

Lemma drop_without_name (df : Pandas.frame) :
  Forall (fun l => Pandas.is_label candidate_name l = false) (Pandas.columns df) ->
  Pandas.drop candidate_name df
  = Raise (KeyError (py "['" ++ candidate_name ++ py "'] not found in axis")).
Proof.
  intros Hnone. unfold Pandas.drop.
  assert (Hex : existsb (Pandas.is_label candidate_name) (Pandas.columns df) = false).
  { induction Hnone as [| l ls Hl _ IH]; [reflexivity |]. cbn. now rewrite Hl, IH. }
  now rewrite Hex.
Qed.

Lemma rename_keeps_int_labels mapper df df' :
  Forall (fun l => forall s, l <> JStr s) (Pandas.columns df) ->
  Pandas.rename mapper df = Return df' ->
  Forall (fun l => Pandas.is_label candidate_name l = false) (Pandas.columns df').
Proof.
  intros Hint Hren.
  assert (Hsame : Forall (fun l => Pandas.is_label candidate_name l = false)
                    (Pandas.columns df)).
  { eapply List.Forall_impl; [| exact Hint]. intros l Hl. cbn beta.
    destruct l; try reflexivity. now destruct (Hl s). }
  unfold Pandas.rename in Hren. destruct mapper; try discriminate;
    try (destruct (Pandas.columns df) eqn:Hcols; [| discriminate];
         injection Hren as <-; now rewrite Hcols).
  injection Hren as <-. cbn [Pandas.columns].
  clear Hsame. induction Hint as [| l ls Hl _ IH]; constructor; [| exact IH].
  rewrite (rename_label_int _ _ Hl). destruct l; try reflexivity. now destruct (Hl s).
Qed.

(** Report building returns no sheet unless every entry is a mapping: it
    raises, in the constructor or, after the label shortener was asked, in
    [rename] or in [drop]. *)
Lemma generate_excel_objects (data : list pyobj) w :
  Pandas.as_records data = None ->
  exists e w',
    Helpers.generate_excel data w = (Raise e, w') /\ is_HTTPException e = false.
Proof.
  intros Hdata.
  destruct (Helpers.generate_excel data w) as [[e | excel] w'] eqn:Hrun.
  { exists e, w'. split; [reflexivity | apply (generate_excel_raises _ _ _ _ Hrun)]. }
  exfalso. revert Hrun. unfold Helpers.generate_excel.
  destruct (Pandas.DataFrame data) as [e | df] eqn:Hdf;
    unfold bind at 1, lift at 1; [discriminate |].
  pose proof (DataFrame_objects_labels _ _ Hdata Hdf) as Hint.
  destruct (shorten_requirements_cases (Pandas.columns df) w)
    as [(e1 & w1 & Hs & _) | (colmap & w1 & Hs)].
  - now rewrite (bind_raise _ _ _ _ _ Hs).
  - rewrite (bind_return _ _ _ _ _ Hs). unfold bind at 1, lift at 1.
    destruct (Pandas.rename colmap df) as [e | df1] eqn:Hren; [discriminate |].
    unfold bind at 1, lift at 1.
    pose proof (drop_without_name _ (rename_keeps_int_labels _ _ _ Hint Hren))
      as Hdrop.
    unfold candidate_name in Hdrop. now rewrite Hdrop.
Qed.

(** Report building on an empty success set never gets past [drop]: the
    empty frame has no column called Candidate Name. *)
Lemma generate_excel_empty w :
  exists e w',
    Helpers.generate_excel [] w = (Raise e, w') /\ is_HTTPException e = false.
Proof.
  destruct (Helpers.generate_excel [] w) as [[e | excel] w'] eqn:Hrun.
  { exists e, w'. split; [reflexivity | apply (generate_excel_raises _ _ _ _ Hrun)]. }
  exfalso. revert Hrun. unfold Helpers.generate_excel.
  change (Pandas.DataFrame []) with (Return {| Pandas.columns := []; Pandas.rows := [] |}).
  unfold bind at 1, lift at 1. cbn [Pandas.columns].
  destruct (shorten_requirements_cases [] w) as [(e & w1 & Hs & He) | (colmap & w1 & Hs)].
  - now rewrite (bind_raise _ _ _ _ _ Hs).
  - rewrite (bind_return _ _ _ _ _ Hs). destruct colmap; cbn; discriminate.
Qed.
End ReportFailures.

(** ** The orchestrator's two sets *)

(** The success set is what is left of the gathered outcomes once the
    structured failures are taken out, in the same order. *)
Lemma collect_final_results results final_results errors :
  fst (Routes.collect results final_results errors)
  = final_results
    ++ List.filter (fun r => negb (is_structured_failure r)) results.
Proof.
  revert final_results errors.
  induction results as [| res results IH]; intros final_results errors.
  - cbn. now rewrite app_nil_r.
  - cbn [Routes.collect List.filter].
    destruct res as [e | v].
    + destruct e; cbn [is_structured_failure negb];
        rewrite IH; try rewrite <- app_assoc; reflexivity.
    + cbn [is_structured_failure negb]. rewrite IH.
      now rewrite <- app_assoc.
Qed.

Lemma collect_keeps_fault results e :
  is_HTTPException e = false ->
  In (Raise e) results ->
  In (Raise e) (fst (Routes.collect results [] [])).
Proof.
  intros He Hin. rewrite collect_final_results. cbn [app].
  apply filter_In. split; [exact Hin |].
  destruct e; try reflexivity; discriminate.
Qed.

Lemma as_records_fault (data : list pyobj) e :
  In (Raise e) data -> Pandas.as_records data = None.
Proof.
  induction data as [| r data IH]; intros Hin; [contradiction |].
  destruct Hin as [-> | Hin]; [reflexivity |].
  cbn. destruct r as [e' | v]; [reflexivity |].
  destruct v; try reflexivity. now rewrite (IH Hin).
Qed.

Section Faults.
Context {E : Externals}.

Lemma process_resume_text resume requirements w resume_text w1 :
  FileProcessor.process resume w = (Return (Text resume_text), w1) ->
  contains (py "error") resume_text = false ->
  Helpers.process_resume resume requirements w
  = bind (AIModels.rank_resumes requirements resume_text)
      (fun result =>
         match result with
         | AIModels.RankError error status_code =>
             raise (HTTPException status_code error)
         | AIModels.RankResponse response _ => loads response
         end) w1.
Proof.
  intros Hp Hword. unfold Helpers.process_resume.
  rewrite (bind_return _ _ _ _ _ Hp). now rewrite Hword.
Qed.
End Faults.

(** C3.  A failure of the backend call inside a pipeline is not turned
    into a structured failure: the pipeline raises the library's exception.
    The orchestrator, which takes only [HTTPException] for a failure, files
    that exception among the successes, and report building then raises an
    exception that is no [HTTPException] either: the batch is lost. *)
Theorem backend_fault_enters_success_set {E : Externals}
    (resume : UploadFile) (requirements : str) (w : world)
    (resume_text : str) (w1 : world) (msg : str) (gemini' : backend) :
  FileProcessor.process resume w = (Return (Text resume_text), w1) ->
  contains (py "error") resume_text = false ->
  generate_content (gemini w1) AIModels.model
    (AIModels.rank_prompt requirements resume_text) = (BackendRaises msg, gemini') ->
  fst (Helpers.process_resume resume requirements w) = Raise (LibraryError msg)
  /\ (forall results,
        In (Raise (LibraryError msg)) results ->
        In (Raise (LibraryError msg)) (fst (Routes.collect results [] [])))
  /\ (forall results w',
        In (Raise (LibraryError msg)) results ->
        exists e,
          fst (Helpers.generate_excel (fst (Routes.collect results [] [])) w') = Raise e
          /\ is_HTTPException e = false).
Proof.
  intros Hp Hword Hgen. split; [| split].
  - rewrite (process_resume_text _ _ _ _ _ Hp Hword).
    erewrite bind_raise; [reflexivity |].
    unfold AIModels.rank_resumes.
    apply bind_raise, (call_generate_content_raises _ _ _ _ _ Hgen).
  - intros results Hin. now apply collect_keeps_fault.
  - intros results w' Hin.
    destruct (generate_excel_objects (fst (Routes.collect results [] [])) w')
      as (e & w2 & Hrun & Hkind).
    + apply (as_records_fault _ (LibraryError msg)). now apply collect_keeps_fault.
    + exists e. now rewrite Hrun.
Qed.

Lemma backend_fault_enters_success_set_witness :
  fst (Helpers.process_resume Fixtures.ann_pdf (py "Python")
         (Fixtures.start Fixtures.table [] []))
  = Raise (LibraryError (py "deadline exceeded")).
Proof.
  refine (proj1 (backend_fault_enters_success_set
                   _ (py "Python") (Fixtures.start Fixtures.table [] [])
                   (py "Ann, Python developer") _ (py "deadline exceeded") [] _ _ _)).
  - vm_compute. reflexivity.
  - vm_compute. reflexivity.
  - reflexivity.
Defined.

(** ** Answers of the scoring backend that are not JSON *)

Section Scoring.
Context {E : Externals}.

Lemma rank_resumes_response req_ls resume w text gemini' :
  generate_content (gemini w) AIModels.model (AIModels.rank_prompt req_ls resume)
  = (Response (Some text), gemini') ->
  contains (py "NOT_VALID") (strip text) = false ->
  AIModels.rank_resumes req_ls resume w
  = (Return (AIModels.RankResponse
               (rstrip_chars (py "```") (lstrip_chars (py "```json") text)) 200),
     World gemini'
           (calls w ++ [CallGenerateContent AIModels.model
                          (AIModels.rank_prompt req_ls resume)])
           (loop w)).
Proof.
  intros Hgen Hvalid. unfold AIModels.rank_resumes.
  rewrite (bind_return _ _ _ _ _ (call_generate_content_response _ _ _ _ _ Hgen)).
  cbn [on_text]. unfold bind at 1, ret at 1. now rewrite Hvalid.
Qed.

Lemma score_resume_with_gemini_not_json resume_text requirements w text gemini' msg :
  generate_content (gemini w) App.model (App.score_prompt resume_text requirements)
  = (Response (Some text), gemini') ->
  json_loads (rstrip_chars (py "```") (lstrip_chars (py "```json") text)) = inl msg ->
  fst (App.score_resume_with_gemini resume_text requirements w)
  = Raise (HTTPException 500
             (py "Resume scoring error: "
              ++ http_exception_str 500 (py "Invalid JSON response from Gemini."))).
Proof.
  intros Hgen Hjson. unfold App.score_resume_with_gemini.
  erewrite try_raise; cycle 1.
  - rewrite (bind_return _ _ _ _ _ (call_generate_content_response _ _ _ _ _ Hgen)).
    cbn [App.response_text]. unfold bind at 1, ret at 1.
    erewrite try_raise; [| apply loads_fails, Hjson]. reflexivity.
  - reflexivity.
Qed.
End Scoring.

(** C5.  When the answer of the scoring backend is not JSON, the pipeline
    of the modular service raises the [JSONDecodeError] of [json.loads] as
    it is; only the single-file service turns it into a structured failure
    of status 500. *)
Theorem unparseable_answer_is_raised_raw {E : Externals}
    (resume : UploadFile) (requirements : str) (w : world)
    (resume_text : str) (w1 : world) (text : str) (gemini' : backend) (msg : str) :
  FileProcessor.process resume w = (Return (Text resume_text), w1) ->
  contains (py "error") resume_text = false ->
  generate_content (gemini w1) AIModels.model
    (AIModels.rank_prompt requirements resume_text) = (Response (Some text), gemini') ->
  contains (py "NOT_VALID") (strip text) = false ->
  json_loads (rstrip_chars (py "```") (lstrip_chars (py "```json") text)) = inl msg ->
  fst (Helpers.process_resume resume requirements w) = Raise (JSONDecodeError msg)
  /\ is_structured_failure (fst (Helpers.process_resume resume requirements w)) = false
  /\ forall w2 gemini2,
       generate_content (gemini w2) App.model
         (App.score_prompt resume_text requirements) = (Response (Some text), gemini2) ->
       fst (App.score_resume_with_gemini resume_text requirements w2)
       = Raise (HTTPException 500
                  (py "Resume scoring error: "
                   ++ http_exception_str 500 (py "Invalid JSON response from Gemini."))).
Proof.
  intros Hp Hword Hgen Hvalid Hjson.
  assert (Hrun : fst (Helpers.process_resume resume requirements w)
                 = Raise (JSONDecodeError msg)).
  { rewrite (process_resume_text _ _ _ _ _ Hp Hword).
    rewrite (bind_return _ _ _ _ _ (rank_resumes_response _ _ _ _ _ Hgen Hvalid)).
    now rewrite (loads_fails _ _ _ Hjson). }
  split; [exact Hrun |]. split; [now rewrite Hrun |].
  intros w2 gemini2 Hgen2.
  exact (score_resume_with_gemini_not_json _ _ _ _ _ _ Hgen2 Hjson).
Qed.

Lemma unparseable_answer_is_raised_raw_witness :
  fst (Helpers.process_resume
         Fixtures.ann_pdf
         (py "Python")
         (Fixtures.start Fixtures.table [Response (Some (py "I cannot score this."))] []))
  = Raise (JSONDecodeError (py "Expecting value")).
Proof.
  refine (proj1 (unparseable_answer_is_raised_raw
                   _ (py "Python")
                   (Fixtures.start Fixtures.table
                      [Response (Some (py "I cannot score this."))] [])
                   (py "Ann, Python developer") _ (py "I cannot score this.") []
                   (py "Expecting value") _ _ _ _ _)).
  - vm_compute. reflexivity.
  - vm_compute. reflexivity.
  - reflexivity.
  - vm_compute. reflexivity.
  - vm_compute. reflexivity.
Defined.

(** ** The fan-in *)

Section Gather.
Context {E : Externals} {A : Type}.
Implicit Types (tasks : list (M A)) (pending : list (nat * M A)).
Implicit Types (slots : list (option (result A))).

Lemma settled_start tasks :
  Asyncio.settled tasks (imap pair tasks) (replicate (length tasks) None).
Proof.
  split; [apply length_replicate |]. split.
  - intros i task Hin.
    apply elem_of_lookup_imap in Hin as (j & t & Heq & Hj).
    now inversion Heq; subst.
  - intros i Hi Hout. exfalso. apply Hout.
    destruct (lookup_lt_is_Some_2 tasks i Hi) as [t Ht].
    apply (list_elem_of_fmap_2' fst _ (i, t)); [| reflexivity].
    now apply (elem_of_lookup_imap_2 pair).
Qed.

Lemma settled_step tasks pending slots k i task r w0 w1 :
  Asyncio.settled tasks pending slots ->
  pending !! k = Some (i, task) ->
  task w0 = (r, w1) ->
  Asyncio.settled tasks (delete k pending) (<[i := Some r]> slots).
Proof.
  intros (Hlen & Hpending & Hdone) Hk Hrun.
  pose proof (delete_Permutation _ _ _ Hk) as Hperm.
  assert (Htask : tasks !! i = Some task).
  { apply Hpending. now apply list_elem_of_lookup_2 in Hk. }
  split; [now rewrite length_insert |]. split.
  - intros i' task' Hin. apply Hpending. rewrite Hperm. now right.
  - intros i' Hi' Hout. destruct (decide (i' = i)) as [-> | Hne].
    + exists r. split.
      * apply list_lookup_insert_eq. now rewrite Hlen.
      * now exists task, w0, w1.
    + destruct (Hdone i' Hi') as (r' & Hslot & Hr').
      * intros Hin. apply Hout.
        rewrite Hperm in Hin. cbn in Hin.
        apply elem_of_cons in Hin as [-> | Hin]; [contradiction | exact Hin].
      * exists r'. split; [| exact Hr'].
        rewrite list_lookup_insert_ne; [exact Hslot | congruence].
Qed.

Lemma run_tasks_settled tasks fuel :
  forall pending slots w,
    fuel = length pending ->
    Asyncio.settled tasks pending slots ->
    Asyncio.settled tasks [] (fst (Asyncio.run_tasks fuel pending slots w)).
Proof.
  induction fuel as [| fuel IH]; intros pending slots w Hfuel Hinv.
  - symmetry in Hfuel. apply nil_length_inv in Hfuel. now subst.
  - cbn [Asyncio.run_tasks]. unfold Asyncio.choose. cbv beta iota.
    set (k := (hd 0 (loop w) mod length pending)%nat).
    assert (Hk : (k < length pending)%nat).
    { apply Nat.mod_upper_bound. lia. }
    destruct (lookup_lt_is_Some_2 _ _ Hk) as [[i task] Hlook].
    unfold M in *. rewrite Hlook.
    destruct (task (World (gemini w) (calls w) (tl (loop w)))) as [r w1] eqn:Hrun.
    apply IH.
    + rewrite length_delete; [lia | eauto].
    + eapply settled_step; eauto.
Qed.

Lemma filled_slots slots :
  (forall i, (i < length slots)%nat -> exists r, slots !! i = Some (Some r)) ->
  slots = Some <$> omap id slots.
Proof.
  induction slots as [| o slots IH]; intros Hall; [reflexivity |].
  destruct (Hall 0%nat) as [r Hr]; [cbn; lia |].
  cbn in Hr. inversion Hr; subst. cbn. f_equal.
  apply IH. intros i Hi. apply (Hall (S i)). cbn. lia.
Qed.

(** [gather] returns one outcome per task, and the outcome at position [i]
    is that of the task at position [i], whatever order the loop chose. *)
Lemma gather_outcomes tasks w :
  exists results w',
    Asyncio.gather tasks w = (Return results, w')
    /\ length results = length tasks
    /\ forall i r, results !! i = Some r -> Asyncio.outcome_of tasks i r.
Proof.
  unfold Asyncio.gather.
  pose proof (run_tasks_settled tasks (length tasks) (imap pair tasks)
                (replicate (length tasks) None) w
                (eq_sym (length_imap _ _)) (settled_start tasks)) as Hinv.
  destruct (Asyncio.run_tasks (length tasks) (imap pair tasks)
              (replicate (length tasks) None) w) as [slots w'].
  cbn [fst] in Hinv. destruct Hinv as (Hlen & _ & Hdone).
  assert (Hslots : slots = Some <$> omap id slots).
  { apply filled_slots. intros i Hi. rewrite Hlen in Hi.
    destruct (Hdone i Hi) as (r & Hr & _); [apply not_elem_of_nil | eauto]. }
  exists (omap id slots), w'. split; [reflexivity |]. split.
  - rewrite <- Hlen. rewrite Hslots at 2. now rewrite length_fmap.
  - intros i r Hr.
    assert (Hi : (i < length tasks)%nat).
    { rewrite <- Hlen, Hslots, length_fmap. now apply lookup_lt_Some in Hr. }
    destruct (Hdone i Hi) as (r' & Hr' & Hout); [apply not_elem_of_nil |].
    rewrite Hslots, list_lookup_fmap, Hr in Hr'. cbn in Hr'.
    now inversion Hr'; subst.
Qed.
End Gather.

(** ** A batch without any success *)

Lemma as_records_nil (data : list pyobj) :
  Pandas.as_records data = Some [] -> data = [].
Proof.
  destruct data as [| r data]; [reflexivity |]. cbn.
  destruct r as [e | v]; [discriminate |].
  destruct v; try discriminate.
  destruct (Pandas.as_records data); discriminate.
Qed.

(** When what is left after the structured failures are all mappings, they
    are the succeeding records, in the order of the uploads. *)
Lemma as_records_succeeding (results : list pyobj) : forall i0 records,
  Pandas.as_records (List.filter (fun r => negb (is_structured_failure r)) results)
  = Some records ->
  map snd (succeeding_from i0 results) = records.
Proof.
  induction results as [| r results IH]; intros i0 records; cbn [List.filter].
  - cbn. now intros [= <-].
  - destruct r as [e | v].
    + destruct e; cbn [is_structured_failure negb Pandas.as_records];
        try discriminate.
      apply IH.
    + cbn [is_structured_failure negb Pandas.as_records].
      destruct v; try discriminate.
      destruct (Pandas.as_records _) as [ds |] eqn:Hrest; [| discriminate].
      intros [= <-]. cbn [succeeding_from map snd]. f_equal. now apply IH.
Qed.

Section EmptyBatch.
Context {E : Externals}.

Lemma rank_resumes_gathered requirements resumes w results w1 :
  Asyncio.gather
    (map (fun resume => Helpers.process_resume resume requirements) resumes) w
  = (Return results, w1) ->
  Routes.rank_resumes requirements resumes w
  = bind (Helpers.generate_excel (fst (Routes.collect results [] [])))
      (fun excel => ret (StreamingResponse excel 200 xlsx_media_type xlsx_headers))
      w1.
Proof.
  intros Hgather. unfold Routes.rank_resumes.
  rewrite (bind_return _ _ _ _ _ Hgather).
  now destruct (Routes.collect results [] []).
Qed.

Lemma score_all_unsupported requirements resumes results w :
  Forall (fun resume => App.supported (content_type resume) = false) resumes ->
  App.score_all requirements resumes results w = (Return results, w).
Proof.
  induction 1 as [| resume resumes Hresume _ IH]; [reflexivity |].
  cbn [App.score_all]. now rewrite Hresume.
Qed.
End EmptyBatch.

(** C2.  When no pipeline of a batch gives a score record, the
    rank-resumes route does not answer 400: report building is still called
    and raises an exception that is no [HTTPException], which the framework
    answers with status 500.  The single-file service has the check for an
    empty batch, but after the total is computed, and raises [KeyError]
    before reaching it. *)
Theorem empty_batch_is_answered_with_500 {E : Externals}
    (requirements : str) (resumes : list UploadFile) (w : world)
    (results : list pyobj) (w1 : world) :
  Asyncio.gather
    (map (fun resume => Helpers.process_resume resume requirements) resumes) w
  = (Return results, w1) ->
  succeeding results = [] ->
  http_status (fst (Routes.rank_resumes requirements resumes w)) = 500
  /\ (forall detail,
        fst (Routes.rank_resumes requirements resumes w)
        <> Raise (HTTPException 400 detail))
  /\ (len resumes <= 50 ->
      Forall (fun resume => App.supported (content_type resume) = false) resumes ->
      App.rank_resumes requirements resumes w
      = (Raise (KeyError (py "['Candidate Name'] not found in axis")), w)).
Proof.
  intros Hgather Hnone.
  assert (Hrun : exists e,
             fst (Routes.rank_resumes requirements resumes w) = Raise e
             /\ is_HTTPException e = false).
  { rewrite (rank_resumes_gathered _ _ _ _ _ Hgather).
    rewrite collect_final_results. cbn [app].
    destruct (Pandas.as_records
                (List.filter (fun r => negb (is_structured_failure r)) results))
      as [records |] eqn:Hrec.
    - pose proof (as_records_succeeding results 0 records Hrec) as Hsucc.
      fold (succeeding results) in Hsucc. rewrite Hnone in Hsucc.
      cbn in Hsucc. subst records. apply as_records_nil in Hrec. rewrite Hrec.
      destruct (generate_excel_empty w1) as (e & w2 & He & Hkind). exists e.
      split; [| exact Hkind]. now rewrite (bind_raise _ _ _ _ _ He).
    - destruct (generate_excel_objects _ w1 Hrec) as (e & w2 & He & Hkind).
      exists e. split; [| exact Hkind]. now rewrite (bind_raise _ _ _ _ _ He). }
  destruct Hrun as (e & He & Hkind). split; [| split].
  - rewrite He. now destruct e.
  - intros detail. rewrite He. intros Heq. inversion Heq; subst. discriminate.
  - intros Hlen Hskip. unfold App.rank_resumes.
    destruct (Z.gtb_spec (len resumes) 50); [lia |].
    now rewrite (bind_return _ _ _ _ _ (score_all_unsupported _ _ [] w Hskip)).
Qed.

Lemma empty_batch_is_answered_with_500_witness :
  http_status
    (fst (Routes.rank_resumes (py "Python") [Fixtures.notes_txt]
            (Fixtures.start Fixtures.table [] [])))
  = 500.
Proof.
  refine (proj1 (empty_batch_is_answered_with_500 (py "Python") [Fixtures.notes_txt]
                   (Fixtures.start Fixtures.table [] [])
                   [Raise (HTTPException 422
                             (py "Unsupported file type. Upload PDF or DOCX."))]
                   (Fixtures.start Fixtures.table [] []) _ _)).
  - vm_compute. reflexivity.
  - reflexivity.
Defined.

(** ** Columns and totals of the report *)

Lemma existsb_str_eqb k (seen : list str) :
  existsb (str_eqb k) seen = true <-> In k seen.
Proof.
  rewrite existsb_exists. split.
  - intros (k' & Hin & Heq). apply str_eqb_eq in Heq. now subst.
  - intros Hin. exists k. split; [exact Hin | apply str_eqb_refl].
Qed.

Lemma add_keys_spec keys : forall seen,
  List.NoDup seen ->
  List.NoDup (Pandas.add_keys seen keys)
  /\ forall k, In k (Pandas.add_keys seen keys) <-> In k seen \/ In k keys.
Proof.
  induction keys as [| k0 keys IH]; intros seen Hseen; cbn [Pandas.add_keys].
  - split; [exact Hseen |]. intros k. cbn. tauto.
  - destruct (existsb (str_eqb k0) seen) eqn:Hk0.
    + apply existsb_str_eqb in Hk0.
      destruct (IH seen Hseen) as [Hnd Hin]. split; [exact Hnd |].
      intros k. rewrite Hin. cbn. split; [tauto |].
      intros [H | [<- | H]]; tauto.
    + assert (Hfresh : ~ In k0 seen).
      { intros Hin. apply existsb_str_eqb in Hin. congruence. }
      assert (Hseen' : List.NoDup (seen ++ [k0])).
      { apply NoDup_ListNoDup, NoDup_app. repeat split.
        - now apply NoDup_ListNoDup.
        - intros x Hx Hx0. apply list_elem_of_In in Hx.
          apply list_elem_of_singleton in Hx0. now subst.
        - apply NoDup_singleton. }
      destruct (IH _ Hseen') as [Hnd Hin]. split; [exact Hnd |].
      intros k. rewrite Hin, in_app_iff. cbn. tauto.
Qed.

Lemma all_keys_from records : forall seen,
  List.NoDup seen ->
  List.NoDup (fold_left (fun seen d => Pandas.add_keys seen (dict_keys d)) records seen)
  /\ forall k,
       In k seen \/ (exists d, In d records /\ In k (dict_keys d)) ->
       In k (fold_left (fun seen d => Pandas.add_keys seen (dict_keys d)) records seen).
Proof.
  induction records as [| d records IH]; intros seen Hseen; cbn [fold_left].
  - split; [exact Hseen |]. intros k [Hk | (d & [] & _)]. exact Hk.
  - destruct (add_keys_spec (dict_keys d) seen Hseen) as [Hnd Hin].
    destruct (IH _ Hnd) as [Hnd' Hin']. split; [exact Hnd' |].
    intros k [Hk | (d' & [<- | Hd'] & Hk)]; apply Hin'.
    + left. apply Hin. now left.
    + left. apply Hin. now right.
    + right. now exists d'.
Qed.

Lemma all_keys_NoDup records : List.NoDup (Pandas.all_keys records).
Proof. apply all_keys_from. constructor. Qed.

Lemma all_keys_covers records d k :
  In d records -> In k (dict_keys d) -> In k (Pandas.all_keys records).
Proof.
  intros Hd Hk. apply all_keys_from; [constructor |]. right. now exists d.
Qed.

Lemma dict_get_In k d v : dict_get k d = Some v -> In (k, v) d.
Proof.
  induction d as [| [k' v'] d IH]; cbn; [discriminate |].
  destruct (str_eqb k k') eqn:Hk.
  - apply str_eqb_eq in Hk. intros [= ->]. subst. now left.
  - intros Hget. right. now apply IH.
Qed.

Lemma dict_get_absent k d : ~ In k (dict_keys d) -> dict_get k d = None.
Proof.
  induction d as [| [k' v'] d IH]; cbn; [reflexivity |].
  intros Hout. destruct (str_eqb k k') eqn:Hk.
  - apply str_eqb_eq in Hk. subst. tauto.
  - apply IH. tauto.
Qed.

Lemma sum_list_override (f : str -> Z) k0 c0 keys :
  List.NoDup keys ->
  sum_list (map (fun k => if str_eqb k k0 then c0 else f k) keys)
  = if existsb (str_eqb k0) keys
    then c0 + sum_list (map f keys) - f k0
    else sum_list (map f keys).
Proof.
  induction 1 as [| k keys Hk Hnd IH]; [reflexivity |].
  cbn [map sum_list fold_right existsb]. fold (sum_list (map f keys)).
  fold (sum_list (map (fun k => if str_eqb k k0 then c0 else f k) keys)).
  rewrite IH. destruct (str_eqb k k0) eqn:Hkk.
  - apply str_eqb_eq in Hkk. subst k. rewrite str_eqb_refl. cbn [orb].
    destruct (existsb (str_eqb k0) keys) eqn:Hex.
    + apply existsb_str_eqb in Hex. contradiction.
    + lia.
  - assert (Hsym : str_eqb k0 k = false).
    { apply str_eqb_ne. intros ->. rewrite str_eqb_refl in Hkk. discriminate. }
    rewrite Hsym. cbn [orb].
    destruct (existsb (str_eqb k0) keys); lia.
Qed.

Lemma score_of_cons k0 v0 d k :
  score_of ((k0, v0) :: d) k
  = if str_eqb k k0
    then (if str_eqb k0 candidate_name then 0
          else match v0 with JInt z => z | _ => 0 end)
    else score_of d k.
Proof.
  unfold score_of. cbn [dict_get]. destruct (str_eqb k k0) eqn:Hk.
  - apply str_eqb_eq in Hk. now subst.
  - reflexivity.
Qed.

(** Adding the scores of a record over a list of distinct keys that covers
    its own gives the sum of its scores. *)
Lemma sum_scores keys : forall d,
  List.NoDup keys ->
  List.NoDup (dict_keys d) ->
  (forall k, In k (dict_keys d) -> In k keys) ->
  sum_list (map (score_of d) keys) = score_sum d.
Proof.
  intros d Hkeys. induction d as [| [k0 v0] d IH]; intros Hd Hcover.
  - cbn [score_sum]. induction keys as [| k keys IHk]; [reflexivity |].
    cbn [map sum_list fold_right]. fold (sum_list (map (score_of []) keys)).
    inversion Hkeys; subst. rewrite IHk by (assumption || now intros ? []).
    unfold score_of. cbn. now destruct (str_eqb k candidate_name).
  - cbn [dict_keys map fst] in Hd. inversion Hd as [| ? ? Hk0 Hd']; subst.
    rewrite (map_ext _ _ (score_of_cons k0 v0 d)).
    rewrite (sum_list_override _ _ _ _ Hkeys).
    assert (Hin : existsb (str_eqb k0) keys = true).
    { apply existsb_str_eqb, Hcover. now left. }
    rewrite Hin, IH; [| exact Hd' | intros k Hk; apply Hcover; now right].
    cbn [score_sum]. unfold score_of at 1.
    rewrite (dict_get_absent _ _ Hk0).
    destruct (str_eqb k0 candidate_name); lia.
Qed.

Lemma dict_get_present k d : In k (dict_keys d) -> exists v, dict_get k d = Some v.
Proof.
  induction d as [| [k' v'] d IH]; cbn; [contradiction |].
  destruct (str_eqb k k') eqn:Hk; [eauto |].
  intros [<- | Hin]; [| now apply IH].
  rewrite str_eqb_refl in Hk. discriminate.
Qed.

Lemma int64_small z : - 2 ^ 63 <= z < 2 ^ 63 -> Pandas.int64 z = z.
Proof. intros Hz. unfold Pandas.int64. rewrite Z.mod_small; lia. Qed.

Lemma sum_scores_bounds d keys :
  (forall k v, In (k, v) d -> k <> candidate_name ->
     exists z, v = JInt z /\ 0 <= z <= 5) ->
  0 <= sum_list (map (score_of d) keys).
Proof.
  intros Hints. induction keys as [| k keys IH]; [cbn; lia |].
  cbn [map sum_list fold_right]. fold (sum_list (map (score_of d) keys)).
  enough (0 <= score_of d k) by lia.
  unfold score_of. destruct (str_eqb k candidate_name) eqn:Hk; [lia |].
  destruct (dict_get k d) as [v |] eqn:Hget; [| lia].
  destruct (Hints k v (dict_get_In _ _ _ Hget)) as (z & -> & Hz); [| lia].
  intros ->. rewrite str_eqb_refl in Hk. discriminate.
Qed.

(** The cells of a score record under the requirements are int64 cells,
    and they add up to the sum of its scores. *)
Lemma int64_row_scores d keys :
  (forall k v, In (k, v) d -> k <> candidate_name ->
     exists z, v = JInt z /\ 0 <= z <= 5) ->
  (forall k, In k keys -> In k (dict_keys d)) ->
  exists zs,
    Pandas.int64_row
      (Pandas.select (map (fun k => negb (str_eqb k candidate_name)) keys)
         (Pandas.row_of keys d))
    = Some zs
    /\ fold_right Z.add 0 zs = sum_list (map (score_of d) keys).
Proof.
  intros Hints. induction keys as [| k keys IH]; intros Hcover.
  - exists []. split; reflexivity.
  - destruct IH as (zs & Hrow & Hsum); [intros k' Hk'; apply Hcover; now right |].
    cbn [map Pandas.row_of Pandas.select sum_list fold_right].
    fold (Pandas.row_of keys d). fold (sum_list (map (score_of d) keys)).
    unfold score_of at 1. destruct (str_eqb k candidate_name) eqn:Hk; cbn [negb].
    + exists zs. split; [exact Hrow | now rewrite Hsum].
    + destruct (dict_get_present k d (Hcover k (or_introl eq_refl))) as (v & Hget).
      destruct (Hints k v (dict_get_In _ _ _ Hget)) as (z & -> & Hz).
      { intros ->. rewrite str_eqb_refl in Hk. discriminate. }
      exists (z :: zs). rewrite Hget. cbn [Pandas.cell_of Pandas.int64_row Pandas.int64_cell].
      rewrite (proj2 (Z.leb_le _ _)), (proj2 (Z.ltb_lt _ _)) by lia.
      cbn [andb]. rewrite Hrow. split; [reflexivity |].
      cbn [fold_right]. now rewrite Hsum.
Qed.

Lemma int64_rows_scores keys records :
  List.NoDup keys ->
  Forall (fun d => ScoreRecord d
                   /\ (forall k, In k (dict_keys d) -> In k keys)
                   /\ (forall k, In k keys -> In k (dict_keys d))
                   /\ score_sum d < 2 ^ 63) records ->
  exists zss,
    Pandas.int64_rows
      (map (Pandas.select (map (fun k => negb (str_eqb k candidate_name)) keys))
         (map (Pandas.row_of keys) records))
    = Some zss
    /\ map (fun zs => Some (JInt (Pandas.int64 (fold_right Z.add 0 zs)))) zss
       = map (fun d => Some (JInt (score_sum d))) records.
Proof.
  intros Hkeys.
  induction 1 as [| d records ((Hnd & _ & Hints) & Hcover & Hall & Hsmall) _ IH].
  - exists []. split; reflexivity.
  - destruct IH as (zss & Hrows & Hsums).
    destruct (int64_row_scores d keys Hints Hall) as (zs & Hrow & Hsum).
    exists (zs :: zss). cbn [map Pandas.int64_rows].
    rewrite Hrow, Hrows. split; [reflexivity |]. rewrite Hsums. do 3 f_equal.
    pose proof (sum_scores_bounds d keys Hints) as Hpos.
    rewrite (sum_scores keys d Hkeys Hnd Hcover) in Hsum, Hpos.
    rewrite Hsum. apply int64_small. lia.
Qed.

Lemma keeps_candidate_name_spec colmap keys k :
  keeps_candidate_name colmap keys = true ->
  In k keys ->
  Pandas.is_label candidate_name (Pandas.rename_label colmap (JStr k))
  = str_eqb k candidate_name.
Proof.
  unfold keeps_candidate_name. rewrite forallb_forall. intros Hall Hk.
  now apply eqb_prop, Hall.
Qed.

Lemma keep_relabelled colmap keys :
  keeps_candidate_name colmap keys = true ->
  map (fun l => negb (Pandas.is_label candidate_name l)) (relabelled colmap keys)
  = map (fun k => negb (str_eqb k candidate_name)) keys.
Proof.
  intros Hkeeps. unfold relabelled. rewrite map_map.
  apply map_ext_in. intros k Hk.
  now rewrite (keeps_candidate_name_spec _ _ _ Hkeeps Hk).
Qed.

Lemma name_relabelled colmap keys :
  keeps_candidate_name colmap keys = true ->
  In candidate_name keys ->
  existsb (Pandas.is_label candidate_name) (relabelled colmap keys) = true.
Proof.
  intros Hkeeps Hname. apply existsb_exists.
  exists (Pandas.rename_label colmap (JStr candidate_name)). split.
  - unfold relabelled. now apply (in_map (fun k => Pandas.rename_label colmap (JStr k))).
  - rewrite (keeps_candidate_name_spec _ _ _ Hkeeps Hname). apply str_eqb_refl.
Qed.

Lemma as_records_dicts records :
  Pandas.as_records (map (fun d => Return (JDict d)) records) = Some records.
Proof.
  induction records as [| d records IH]; [reflexivity |].
  cbn [map Pandas.as_records]. now rewrite IH.
Qed.

Lemma combine_rows (hit : list bool) keys (records : list dict) :
  map (fun '(r, v) => Pandas.set_cells hit v r)
      (combine (map (Pandas.row_of keys) records)
               (map (fun d => Some (JInt (score_sum d))) records))
  = map (fun d => sheet_row hit keys d (score_sum d)) records.
Proof.
  induction records as [| d records IH]; [reflexivity |].
  cbn [map combine]. now rewrite IH.
Qed.

Lemma ScoreRecord_has_name d : ScoreRecord d -> In candidate_name (dict_keys d).
Proof.
  intros (_ & (name & Hname) & _). apply dict_get_In in Hname.
  now apply (in_map fst) in Hname.
Qed.

Lemma select_nonempty (keys : list str) (labels : list Pandas.label) k :
  length labels = length keys ->
  In k keys ->
  k <> candidate_name ->
  Pandas.select (map (fun k => negb (str_eqb k candidate_name)) keys) labels <> [].
Proof.
  revert labels. induction keys as [| k0 keys IH]; intros labels Hlen Hin Hk;
    [contradiction |].
  destruct labels as [| l labels]; [discriminate |].
  cbn [map Pandas.select]. destruct (str_eqb k0 candidate_name) eqn:Hk0; cbn [negb];
    [| discriminate].
  apply str_eqb_eq in Hk0. subst k0.
  destruct Hin as [<- | Hin]; [contradiction |].
  apply IH; [cbn in Hlen; lia | exact Hin | exact Hk].
Qed.

Section Totals.
Context {E : Externals}.

(** The frame of a table of score records, relabelled so that the name
    column keeps its label: dropping the name column works, the sums of the
    rows are the sums of the scores, and writing them under Total Score
    gives the expected report. *)
Lemma frame_totals colmap records :
  Forall ScoreRecord records ->
  records <> [] ->
  ScoreTable records ->
  keeps_candidate_name colmap (Pandas.all_keys records) = true ->
  exists scores,
    Pandas.drop candidate_name
      {| Pandas.columns := relabelled colmap (Pandas.all_keys records);
         Pandas.rows := map (Pandas.row_of (Pandas.all_keys records)) records |}
    = Return scores
    /\ Pandas.sum_axis1 scores
       = Return (map (fun d => Some (JInt (score_sum d))) records)
    /\ Pandas.setitem total_score (map (fun d => Some (JInt (score_sum d))) records)
         {| Pandas.columns := relabelled colmap (Pandas.all_keys records);
            Pandas.rows := map (Pandas.row_of (Pandas.all_keys records)) records |}
       = report colmap records.
Proof.
  intros Hrecords Hsome ((k & Hk & Hkname) & Htable) Hkeeps.
  assert (Hname : In candidate_name (Pandas.all_keys records)).
  { destruct records as [| d records]; [contradiction |].
    inversion Hrecords; subst.
    apply (all_keys_covers _ d); [now left | now apply ScoreRecord_has_name]. }
  unfold Pandas.drop. cbn [Pandas.columns Pandas.rows].
  rewrite (name_relabelled _ _ Hkeeps Hname), (keep_relabelled _ _ Hkeeps).
  eexists. split; [reflexivity |]. split.
  - destruct (int64_rows_scores (Pandas.all_keys records) records
                (all_keys_NoDup records)) as (zss & Hrows & Hsums).
    { rewrite List.Forall_forall in Hrecords, Htable |- *. intros d Hd.
      destruct (Htable d Hd) as [Hall Hsmall].
      split; [now apply Hrecords |]. split; [| split; assumption].
      intros k' Hk'. now apply (all_keys_covers _ d). }
    unfold Pandas.sum_axis1. cbn [Pandas.columns Pandas.rows].
    rewrite Hrows, Hsums.
    destruct (Pandas.select _ (relabelled colmap (Pandas.all_keys records)))
      eqn:Hcols; [| reflexivity].
    exfalso. revert Hcols. apply (select_nonempty _ _ k); try assumption.
    unfold relabelled. apply length_map.
  - unfold Pandas.setitem, report. cbn [Pandas.columns Pandas.rows].
    now rewrite combine_rows.
Qed.

Lemma relabelled_nil keys : relabelled [] keys = map JStr keys.
Proof. reflexivity. Qed.

Lemma keeps_candidate_name_nil keys : keeps_candidate_name [] keys = true.
Proof.
  unfold keeps_candidate_name. apply forallb_forall. intros k _.
  cbn [Pandas.rename_label dict_get Pandas.is_label]. apply eqb_reflx.
Qed.

(** Report building on a table of score records, with a relabelling that
    keeps the name column: the expected report. *)
Lemma generate_excel_records records colmap w w' :
  Forall ScoreRecord records ->
  records <> [] ->
  ScoreTable records ->
  AIModels.shorten_requirements (map JStr (Pandas.all_keys records)) w
  = (Return (JDict colmap), w') ->
  keeps_candidate_name colmap (Pandas.all_keys records) = true ->
  Helpers.generate_excel (map (fun d => Return (JDict d)) records) w
  = (Return (report colmap records), w').
Proof.
  intros Hrecords Hsome Htable Hshorten Hkeeps.
  destruct (frame_totals colmap records Hrecords Hsome Htable Hkeeps)
    as (scores & Hdrop & Hsum & Hset).
  unfold Helpers.generate_excel, Pandas.DataFrame.
  change (py "Candidate Name") with candidate_name.
  change (py "Total Score") with total_score.
  rewrite as_records_dicts. unfold lift at 1, bind at 1. cbn [Pandas.columns].
  rewrite (bind_return _ _ _ _ _ Hshorten).
  unfold Pandas.rename. cbn [Pandas.columns Pandas.rows].
  unfold lift at 1, bind at 1. rewrite map_map.
  fold (relabelled colmap (Pandas.all_keys records)).
  rewrite Hdrop. unfold lift at 1, bind at 1.
  rewrite Hsum. unfold lift at 1, bind at 1.
  unfold ret. now rewrite Hset.
Qed.

(** Report building on the same records, with a relabelling that leaves no
    column called Candidate Name: [drop] raises. *)
Lemma generate_excel_renamed records colmap w w' :
  AIModels.shorten_requirements (map JStr (Pandas.all_keys records)) w
  = (Return (JDict colmap), w') ->
  existsb (Pandas.is_label candidate_name) (relabelled colmap (Pandas.all_keys records))
  = false ->
  Helpers.generate_excel (map (fun d => Return (JDict d)) records) w
  = (Raise (KeyError (py "['Candidate Name'] not found in axis")), w').
Proof.
  intros Hshorten Hnone.
  unfold Helpers.generate_excel, Pandas.DataFrame.
  change (py "Candidate Name") with candidate_name.
  rewrite as_records_dicts. unfold lift at 1, bind at 1. cbn [Pandas.columns].
  rewrite (bind_return _ _ _ _ _ Hshorten).
  unfold Pandas.rename. cbn [Pandas.columns Pandas.rows].
  unfold lift at 1, bind at 1. rewrite map_map.
  fold (relabelled colmap (Pandas.all_keys records)).
  unfold Pandas.drop. cbn [Pandas.columns]. rewrite Hnone.
  unfold lift at 1, bind at 1. reflexivity.
Qed.

(** The single-file service builds the report, without relabelling, once
    every supported resume of the batch has been scored. *)
Lemma app_rank_resumes_report requirements resumes w records w' :
  len resumes <= 50 ->
  App.score_all requirements resumes [] w = (Return (map JDict records), w') ->
  Forall ScoreRecord records ->
  records <> [] ->
  ScoreTable records ->
  App.rank_resumes requirements resumes w
  = (Return (StreamingResponse (report [] records) 200 xlsx_media_type xlsx_headers),
     w').
Proof.
  intros Hlen Hscores Hrecords Hsome Htable.
  destruct (frame_totals [] records Hrecords Hsome Htable (keeps_candidate_name_nil _))
    as (scores & Hdrop & Hsum & Hset).
  rewrite relabelled_nil in Hdrop, Hset.
  unfold App.rank_resumes.
  change (py "Candidate Name") with candidate_name.
  change (py "Total Score") with total_score.
  destruct (Z.gtb_spec (len resumes) 50); [lia |].
  rewrite (bind_return _ _ _ _ _ Hscores).
  unfold Pandas.DataFrame. rewrite map_map, as_records_dicts.
  unfold lift at 1, bind at 1. rewrite Hdrop. unfold lift at 1, bind at 1.
  rewrite Hsum. unfold lift at 1, bind at 1. rewrite Hset.
  destruct records as [| d records]; [contradiction | reflexivity].
Qed.
End Totals.

(** ** Rows of the report and succeeding resumes *)

Lemma succeeding_from_lookup (results : list pyobj) : forall i0,
  Forall (fun '(i, d) => (i0 <= i)%nat /\ results !! (i - i0)%nat = Some (Return (JDict d)))
         (succeeding_from i0 results).
Proof.
  induction results as [| r results IH]; intros i0; [constructor |].
  assert (Hrest : Forall (fun '(i, d) =>
                            (i0 <= i)%nat
                            /\ (r :: results) !! (i - i0)%nat = Some (Return (JDict d)))
                         (succeeding_from (S i0) results)).
  { eapply Forall_impl; [apply IH |]. intros [i d] [Hle Hlook]. split; [lia |].
    replace (i - i0)%nat with (S (i - S i0)) by lia. exact Hlook. }
  destruct r as [e | v]; [exact Hrest |].
  destruct v; try exact Hrest.
  cbn [succeeding_from]. constructor; [| exact Hrest].
  split; [lia |]. now rewrite Nat.sub_diag.
Qed.

Lemma succeeding_lookup (results : list pyobj) :
  Forall (fun '(i, d) => results !! i = Some (Return (JDict d))) (succeeding results).
Proof.
  eapply Forall_impl; [apply (succeeding_from_lookup results 0) |].
  intros [i d] [_ Hlook]. now rewrite Nat.sub_0_r in Hlook.
Qed.

Lemma succeeding_from_sorted (results : list pyobj) : forall i0,
  StronglySorted lt (map fst (succeeding_from i0 results)).
Proof.
  induction results as [| r results IH]; intros i0; [constructor |].
  destruct r as [e | v]; [apply IH |].
  destruct v; try apply IH.
  cbn [succeeding_from map fst]. constructor; [apply IH |].
  apply List.Forall_forall. intros i Hi. apply in_map_iff in Hi as ([i' d] & <- & Hin).
  pose proof (succeeding_from_lookup results (S i0)) as Hall.
  rewrite List.Forall_forall in Hall. specialize (Hall _ Hin). cbn in *. lia.
Qed.

Lemma final_results_records (results : list pyobj) : forall i0,
  Forall (fun r => is_structured_failure r = true
                   \/ exists d, r = Return (JDict d) /\ ScoreRecord d) results ->
  List.filter (fun r => negb (is_structured_failure r)) results
  = map (fun d => Return (JDict d)) (map snd (succeeding_from i0 results))
  /\ Forall ScoreRecord (map snd (succeeding_from i0 results)).
Proof.
  intros i0 Hall. revert i0.
  induction Hall as [| r results [Hfail | (d & -> & Hd)] _ IH]; intros i0.
  - split; [reflexivity | constructor].
  - cbn [List.filter]. rewrite Hfail. cbn [negb].
    destruct r as [e | v]; [| discriminate].
    destruct e; try discriminate. apply IH.
  - cbn [List.filter is_structured_failure negb succeeding_from map snd].
    destruct (IH (S i0)) as [-> Hrecords]. split; [reflexivity |].
    now constructor.
Qed.

Lemma is_label_eq name l : Pandas.is_label name l = true <-> l = JStr name.
Proof.
  destruct l; cbn; try (split; [discriminate | intros [=]]).
  rewrite str_eqb_eq. split; [now intros -> | now intros [= ->]].
Qed.

Lemma set_cells_marked (v : Pandas.cell) : forall (hit : list bool) (r : list Pandas.cell) j,
  length hit = length r ->
  hit !! j = Some true ->
  Pandas.set_cells hit v r !! j = Some v.
Proof.
  intros hit r j Hlen Hj. unfold Pandas.set_cells.
  assert (Hex : existsb id hit = true).
  { apply existsb_exists. exists true. split; [| reflexivity].
    apply list_elem_of_In. now apply list_elem_of_lookup_2 in Hj. }
  rewrite Hex. clear Hex. revert r j Hlen Hj.
  induction hit as [| h hit IH]; intros r j Hlen Hj; [discriminate |].
  destruct r as [| c r]; [discriminate |].
  destruct j as [| j]; cbn in *.
  - now inversion Hj; subst.
  - apply IH; [lia | exact Hj].
Qed.

Lemma lookup_map {A B} (f : A -> B) (l : list A) j :
  map f l !! j = f <$> l !! j.
Proof.
  revert j. induction l as [| a l IH]; intros [| j]; cbn; auto.
Qed.

Lemma length_row_of keys d : length (Pandas.row_of keys d) = length keys.
Proof. unfold Pandas.row_of. apply length_map. Qed.

(** In the expected report every row shows the sum of its record's scores
    under Total Score. *)
Lemma report_has_total colmap records d :
  has_total (report colmap records)
    (sheet_row (map (Pandas.is_label total_score)
                    (relabelled colmap (Pandas.all_keys records)))
               (Pandas.all_keys records) d (score_sum d))
    (score_sum d).
Proof.
  set (keys := Pandas.all_keys records).
  set (cols := relabelled colmap keys).
  set (hit := map (Pandas.is_label total_score) cols).
  assert (Hlen : length hit = length (Pandas.row_of keys d)).
  { unfold hit, cols, relabelled. now rewrite !length_map, length_row_of. }
  assert (Hcols : length cols = length (Pandas.row_of keys d)).
  { unfold cols, relabelled. now rewrite length_map, length_row_of. }
  unfold has_total, report. cbn [Pandas.columns]. fold keys cols hit.
  unfold Pandas.label, Pandas.cell in *.
  destruct (existsb id hit) eqn:Hex.
  - split.
    + apply existsb_exists in Hex as (h & Hin & Hh). unfold id in Hh. subst h.
      unfold hit in Hin. apply in_map_iff in Hin as (l & Hl & Hin).
      apply is_label_eq in Hl. subst l.
      apply list_elem_of_In, list_elem_of_lookup_1 in Hin. exact Hin.
    + intros j Hj. unfold sheet_row. apply set_cells_marked; [exact Hlen |].
      unfold hit. rewrite lookup_map, Hj.
      cbn [fmap option_fmap option_map Pandas.is_label]. now rewrite str_eqb_refl.
  - split.
    + exists (length cols). rewrite lookup_app_r by lia.
      now rewrite Nat.sub_diag.
    + intros j Hj. unfold sheet_row, Pandas.set_cells. rewrite Hex.
      destruct (decide (j < length cols)%nat) as [Hlt | Hge].
      * rewrite lookup_app_l in Hj by exact Hlt. exfalso.
        assert (Htrue : existsb id hit = true); [| congruence].
        apply existsb_exists. exists true. split; [| reflexivity].
        unfold hit. apply in_map_iff. exists (JStr total_score). split.
        -- now apply is_label_eq.
        -- apply list_elem_of_In. now apply list_elem_of_lookup_2 in Hj.
      * rewrite lookup_app_r in Hj by lia.
        destruct (j - length cols)%nat as [| n] eqn:Hn; [| now destruct n].
        assert (j = length cols) as -> by (clear - Hn Hge; lia).
        rewrite Hcols.
        rewrite lookup_app_r by lia. now rewrite Nat.sub_diag.
Qed.

Lemma int64_rows_length rs : forall zss,
  Pandas.int64_rows rs = Some zss -> length zss = length rs.
Proof.
  induction rs as [| r rs IH]; intros zss; cbn [Pandas.int64_rows].
  - now intros [= <-].
  - destruct (Pandas.int64_row r) as [zs |]; [| discriminate].
    destruct (Pandas.int64_rows rs) as [zss' |]; [| discriminate].
    intros [= <-]. cbn. f_equal. now apply IH.
Qed.

Lemma sum_axis1_length {E : Externals} df totals :
  Pandas.sum_axis1 df = Return totals -> length totals = length (Pandas.rows df).
Proof.
  unfold Pandas.sum_axis1.
  assert (Hother : match sum_axis1_other (Pandas.rows df) with
                   | inl msg => Raise (LibraryError msg)
                   | inr total => Return (imap (fun i _ => total i) (Pandas.rows df))
                   end = Return totals ->
                   length totals = length (Pandas.rows df)).
  { destruct (sum_axis1_other (Pandas.rows df)); [discriminate |].
    intros [= <-]. apply length_imap. }
  destruct (Pandas.columns df); [exact Hother |].
  destruct (Pandas.int64_rows (Pandas.rows df)) as [zss |] eqn:Hrows; [| exact Hother].
  intros [= <-]. rewrite length_map. now apply int64_rows_length.
Qed.

Lemma rename_rows mapper df df' :
  Pandas.rename mapper df = Return df' -> Pandas.rows df' = Pandas.rows df.
Proof.
  unfold Pandas.rename.
  destruct mapper; try discriminate;
    try (destruct (Pandas.columns df); [now intros [= <-] | discriminate]).
  now intros [= <-].
Qed.

Lemma drop_rows name df df' :
  Pandas.drop name df = Return df' ->
  length (Pandas.rows df') = length (Pandas.rows df).
Proof.
  unfold Pandas.drop. destruct (existsb _ _); [| discriminate].
  intros [= <-]. cbn. apply length_map.
Qed.

Lemma rows_in_order (Q : nat -> dict -> Prop) hit keys :
  forall (succ : list (nat * dict)) (totals : list Pandas.cell),
    length totals = length succ ->
    Forall (fun '(i, d) => Q i d) succ ->
    Forall2 (fun '(i, d) '(row, total) =>
               Q i d /\ row = Pandas.set_cells hit total (Pandas.row_of keys d))
      succ
      (combine
         (map (fun '(r, v) => Pandas.set_cells hit v r)
              (combine (map (Pandas.row_of keys) (map snd succ)) totals))
         totals).
Proof.
  induction succ as [| [i d] succ IH]; intros totals Hlen Hall.
  - constructor.
  - destruct totals as [| total totals]; [discriminate |].
    inversion Hall; subst. cbn [map snd combine]. constructor.
    + split; [assumption | reflexivity].
    + apply IH; [cbn in Hlen; lia | assumption].
Qed.

Section Order.
Context {E : Externals}.

Lemma bind_inv {A B} (m : M A) (k : A -> M B) w b w' :
  bind m k w = (Return b, w') ->
  exists a w1, m w = (Return a, w1) /\ k a w1 = (Return b, w').
Proof.
  unfold bind. destruct (m w) as [[e | a] w1]; [discriminate |]. eauto.
Qed.

Lemma lift_inv {A} (r : result A) w a w' :
  lift r w = (Return a, w') -> r = Return a /\ w' = w.
Proof. unfold lift. now intros [= -> ->]. Qed.

(** A report that was built was built from mappings, by the steps of
    [generate_excel]: the label shortener returned a mapping, the name
    column was dropped from the relabelled frame, the rows were added up and
    the totals written under Total Score. *)
Lemma generate_excel_inv (data : list pyobj) w df w' :
  Helpers.generate_excel data w = (Return df, w') ->
  exists records colmap scores totals,
    Pandas.as_records data = Some records
    /\ AIModels.shorten_requirements (map JStr (Pandas.all_keys records)) w
       = (Return (JDict colmap), w')
    /\ Pandas.drop candidate_name
         {| Pandas.columns := relabelled colmap (Pandas.all_keys records);
            Pandas.rows := map (Pandas.row_of (Pandas.all_keys records)) records |}
       = Return scores
    /\ Pandas.sum_axis1 scores = Return totals
    /\ length totals = length records
    /\ df = Pandas.setitem total_score totals
              {| Pandas.columns := relabelled colmap (Pandas.all_keys records);
                 Pandas.rows := map (Pandas.row_of (Pandas.all_keys records)) records |}.
Proof.
  intros Hrun.
  destruct (Pandas.as_records data) as [records |] eqn:Hrec.
  2: { destruct (generate_excel_objects data w Hrec) as (e & w0 & Hraise & _).
       rewrite Hraise in Hrun. discriminate. }
  unfold Helpers.generate_excel, Pandas.DataFrame in Hrun. rewrite Hrec in Hrun.
  change (py "Candidate Name") with candidate_name in Hrun.
  change (py "Total Score") with total_score in Hrun.
  apply bind_inv in Hrun as (df0 & w0 & Hdf0 & Hrun).
  apply lift_inv in Hdf0 as [[= <-] ->]. cbn [Pandas.columns] in Hrun.
  apply bind_inv in Hrun as (mapper & w1 & Hshorten & Hrun).
  apply bind_inv in Hrun as (df1 & w2 & Hdf1 & Hrun).
  apply lift_inv in Hdf1 as [Hdf1 ->].
  apply bind_inv in Hrun as (scores & w3 & Hscores & Hrun).
  apply lift_inv in Hscores as [Hscores ->].
  apply bind_inv in Hrun as (totals & w4 & Htotals & Hrun).
  apply lift_inv in Htotals as [Htotals ->].
  unfold ret in Hrun. injection Hrun as <- <-.
  assert (Hmapper : exists colmap,
             mapper = JDict colmap
             /\ df1 = {| Pandas.columns := relabelled colmap (Pandas.all_keys records);
                         Pandas.rows :=
                           map (Pandas.row_of (Pandas.all_keys records)) records |}).
  { unfold Pandas.rename in Hdf1. cbn [Pandas.columns Pandas.rows] in Hdf1.
    destruct mapper as [| b | z | text | t | items | colmap]; try discriminate;
      try (destruct (map JStr (Pandas.all_keys records)) as [| l ls] eqn:Hcols;
           [| discriminate Hdf1];
           injection Hdf1 as <-; unfold Pandas.drop in Hscores;
           cbn [Pandas.columns existsb] in Hscores; discriminate Hscores).
    exists colmap. split; [reflexivity |]. injection Hdf1 as <-.
    unfold relabelled. now rewrite map_map. }
  destruct Hmapper as (colmap & -> & ->).
  exists records, colmap, scores, totals.
  split; [reflexivity |]. split; [exact Hshorten |]. split; [exact Hscores |].
  split; [exact Htotals |]. split; [| reflexivity].
  rewrite (sum_axis1_length _ _ Htotals), (drop_rows _ _ _ Hscores).
  cbn [Pandas.rows]. apply length_map.
Qed.
End Order.

Section Batch.
Context {E : Externals}.

(** The gathered outcomes stand in the order of the uploads: the outcome at
    position [i] is that of the pipeline of the resume at position [i]. *)
Lemma gather_pipelines requirements resumes w :
  exists results w1,
    Asyncio.gather
      (map (fun resume => Helpers.process_resume resume requirements) resumes) w
    = (Return results, w1)
    /\ length results = length resumes
    /\ forall i r,
         results !! i = Some r ->
         exists resume w0 w0',
           resumes !! i = Some resume
           /\ Helpers.process_resume resume requirements w0 = (r, w0').
Proof.
  destruct (gather_outcomes
              (map (fun resume => Helpers.process_resume resume requirements) resumes) w)
    as (results & w1 & Hgather & Hlen & Hout).
  exists results, w1. split; [exact Hgather |]. split.
  - now rewrite Hlen, length_map.
  - intros i r Hr. destruct (Hout i r Hr) as (task & w0 & w0' & Htask & Hrun).
    rewrite lookup_map in Htask.
    destruct (resumes !! i) as [resume |]; [| discriminate].
    injection Htask as <-. now exists resume, w0, w0'.
Qed.
End Batch.

Lemma rows_have_totals (Q : nat -> dict -> Prop) colmap records :
  forall succ : list (nat * dict),
    Forall (fun '(i, d) => Q i d) succ ->
    Forall2 (fun '(i, d) row =>
               Q i d /\ has_total (report colmap records) row (score_sum d))
      succ
      (map (fun x =>
              sheet_row (map (Pandas.is_label total_score)
                             (relabelled colmap (Pandas.all_keys records)))
                        (Pandas.all_keys records) (snd x) (score_sum (snd x)))
           succ).
Proof.
  induction 1 as [| [i d] succ Hid _ IH]; [constructor |].
  cbn [map]. constructor; [| exact IH].
  split; [exact Hid | apply report_has_total].
Qed.

(** C1.  A batch whose pipelines give score records or structured
    failures, at least one a record, gets no report from the modular service
    when the label shortener gives the name column another label: the
    columns are renamed before [drop] looks for Candidate Name, so it raises
    [KeyError] and the route answers 500.  The single-file service, which
    does not relabel, does what the claim says with the same records, when
    they make a table of scores: its sheet has one row per succeeding
    resume, in the order of the uploads, each with the sum of its scores
    under Total Score. *)
Theorem renamed_name_column_loses_the_report {E : Externals}
    (requirements : str) (resumes : list UploadFile) (w : world)
    (results : list pyobj) (w1 : world) (colmap : dict) (w2 : world) :
  Asyncio.gather
    (map (fun resume => Helpers.process_resume resume requirements) resumes) w
  = (Return results, w1) ->
  Forall (fun r => is_structured_failure r = true
                   \/ exists d, r = Return (JDict d) /\ ScoreRecord d) results ->
  (1 <= length (succeeding results))%nat ->
  AIModels.shorten_requirements
    (map JStr (Pandas.all_keys (records_of results))) w1
  = (Return (JDict colmap), w2) ->
  existsb (Pandas.is_label candidate_name)
    (relabelled colmap (Pandas.all_keys (records_of results))) = false ->
  Routes.rank_resumes requirements resumes w
  = (Raise (KeyError (py "['Candidate Name'] not found in axis")), w2)
  /\ http_status (fst (Routes.rank_resumes requirements resumes w)) = 500
  /\ (ScoreTable (records_of results) ->
      forall resumes' wa wa',
        len resumes' <= 50 ->
        App.score_all requirements resumes' [] wa
        = (Return (map JDict (records_of results)), wa') ->
        App.rank_resumes requirements resumes' wa
        = (Return (StreamingResponse (report [] (records_of results)) 200
                     xlsx_media_type xlsx_headers), wa'))
  /\ length (Pandas.rows (report [] (records_of results)))
     = length (succeeding results)
  /\ Forall2 (fun '(i, d) row =>
                results !! i = Some (Return (JDict d))
                /\ has_total (report [] (records_of results)) row (score_sum d))
       (succeeding results)
       (Pandas.rows (report [] (records_of results))).
Proof.
  intros Hgather Hall Hsome Hshorten Hnone.
  destruct (final_results_records results 0 Hall) as [Hfinal Hrecords].
  fold (succeeding results) in Hfinal, Hrecords.
  fold (records_of results) in Hfinal, Hrecords.
  assert (Hrun : Routes.rank_resumes requirements resumes w
                 = (Raise (KeyError (py "['Candidate Name'] not found in axis")), w2)).
  { rewrite (rank_resumes_gathered _ _ _ _ _ Hgather).
    rewrite collect_final_results, Hfinal. cbn [app].
    apply bind_raise, (generate_excel_renamed _ colmap); assumption. }
  split; [exact Hrun |]. split; [now rewrite Hrun |]. split; [| split].
  - intros Htable resumes' wa wa' Hlen Hscores.
    apply app_rank_resumes_report; try assumption.
    unfold records_of. destruct (succeeding results); [cbn in Hsome; lia | discriminate].
  - cbn [report Pandas.rows]. unfold records_of. now rewrite !length_map.
  - cbn [report Pandas.rows]. unfold records_of. rewrite map_map.
    apply (rows_have_totals (fun i d => results !! i = Some (Return (JDict d)))).
    apply succeeding_lookup.
Qed.

Lemma renamed_name_column_loses_the_report_witness :
  fst (Routes.rank_resumes (py "Python, SQL") [Fixtures.ann_pdf]
         (Fixtures.start Fixtures.table
            [Response (Some (py "{ann}")); Response (Some (py "{name}"))] []))
  = Raise (KeyError (py "['Candidate Name'] not found in axis"))
  /\ fst (App.rank_resumes (py "Python, SQL") [Fixtures.ann_pdf]
            (Fixtures.start Fixtures.table [Response (Some (py "{ann}"))] []))
     = Return (StreamingResponse
                 {| Pandas.columns :=
                      [JStr candidate_name; JStr (py "Python"); JStr (py "SQL");
                       JStr total_score];
                    Pandas.rows :=
                      [[Some (JStr (py "Ann")); Some (JInt 4); Some (JInt 3);
                        Some (JInt 7)]] |}
                 200 xlsx_media_type xlsx_headers).
Proof.
  pose (resumes := [Fixtures.ann_pdf]).
  pose (w := Fixtures.start Fixtures.table
               [Response (Some (py "{ann}")); Response (Some (py "{name}"))] []).
  pose (wa := Fixtures.start Fixtures.table [Response (Some (py "{ann}"))] []).
  pose (results := [Return (JDict Fixtures.ann)] : list pyobj).
  pose (tasks := map (fun resume =>
                        Helpers.process_resume (E := Fixtures.scripted Fixtures.table)
                          resume (py "Python, SQL"))
                     resumes).
  pose (w1 := snd (Asyncio.gather tasks w)).
  pose (w2 := snd (AIModels.shorten_requirements
                     (map JStr (Pandas.all_keys (records_of results))) w1)).
  assert (Hgather : Asyncio.gather tasks w = (Return results, w1)).
  { apply injective_projections; [vm_compute; reflexivity | reflexivity]. }
  assert (Hann : ScoreRecord Fixtures.ann).
  { split; [| split].
    - apply NoDup_ListNoDup, (bool_decide_unpack _). vm_compute. exact I.
    - exists (py "Ann"). reflexivity.
    - intros k v [H | [H | [H | []]]]; inversion H; subst; intros Hk;
        [contradiction | eexists; split; [reflexivity | lia] ..]. }
  assert (Hall : Forall (fun r => is_structured_failure r = true
                                  \/ exists d, r = Return (JDict d) /\ ScoreRecord d)
                        results).
  { constructor; [right | constructor]. now exists Fixtures.ann. }
  assert (Hsome : (1 <= length (succeeding results))%nat) by (cbn; lia).
  assert (Hshorten :
            AIModels.shorten_requirements
              (map JStr (Pandas.all_keys (records_of results))) w1
            = (Return (JDict Fixtures.renamed), w2)).
  { apply injective_projections; [vm_compute; reflexivity | reflexivity]. }
  assert (Hnone : existsb (Pandas.is_label candidate_name)
                    (relabelled Fixtures.renamed
                       (Pandas.all_keys (records_of results))) = false).
  { vm_compute. reflexivity. }
  assert (Htable : ScoreTable (records_of results)).
  { assert (Hkeys : Pandas.all_keys (records_of results) = dict_keys Fixtures.ann)
      by (vm_compute; reflexivity).
    split.
    - exists (py "Python"). rewrite Hkeys. split; [right; left; reflexivity |].
      intros Heq. vm_compute in Heq. discriminate.
    - constructor; [| constructor]. rewrite Hkeys. split; [auto |].
      vm_compute. reflexivity. }
  destruct (renamed_name_column_loses_the_report (py "Python, SQL") resumes w results
              w1 Fixtures.renamed w2 Hgather Hall Hsome Hshorten Hnone)
    as (Hrun & _ & Happ & _).
  split; [exact (f_equal fst Hrun) |].
  assert (Hlen : len resumes <= 50) by (vm_compute; discriminate).
  assert (Hscores : App.score_all (py "Python, SQL") resumes [] wa
                    = (Return (map JDict (records_of results)),
                       snd (App.score_all (py "Python, SQL") resumes [] wa))).
  { apply injective_projections; [vm_compute; reflexivity | reflexivity]. }
  refine (eq_trans (f_equal fst (Happ Htable resumes wa _ Hlen Hscores)) _).
  vm_compute. reflexivity.
Defined.

(** C10.  Whenever the route returns a sheet, its rows follow the order of
    the uploads.  The gathered outcomes have the positions of the resumes
    they come from, whatever order the event loop ran the pipelines in.  The
    records among them, in increasing position, are the rows of the frame:
    the sheet is that frame with the labels that the label shortener
    returned and the totals of its rows, and its k-th row is made of the
    cells of the k-th record, under the keys of the batch, and of the k-th
    total, written to the columns called Total Score. *)
Theorem rows_follow_upload_order {E : Externals}
    (requirements : str) (resumes : list UploadFile) (w : world)
    (df : Pandas.frame) (status_code : Z) (media_type : str)
    (headers : list (str * str)) (w' : world) :
  Routes.rank_resumes requirements resumes w
  = (Return (StreamingResponse df status_code media_type headers), w') ->
  exists results w1 colmap scores totals,
    Asyncio.gather
      (map (fun resume => Helpers.process_resume resume requirements) resumes) w
    = (Return results, w1)
    /\ length results = length resumes
    /\ (forall i r,
          results !! i = Some r ->
          exists resume w0 w0',
            resumes !! i = Some resume
            /\ Helpers.process_resume resume requirements w0 = (r, w0'))
    /\ StronglySorted lt (map fst (succeeding results))
    /\ AIModels.shorten_requirements
         (map JStr (Pandas.all_keys (records_of results))) w1
       = (Return (JDict colmap), w')
    /\ Pandas.drop candidate_name
         {| Pandas.columns :=
              relabelled colmap (Pandas.all_keys (records_of results));
            Pandas.rows :=
              map (Pandas.row_of (Pandas.all_keys (records_of results)))
                  (records_of results) |}
       = Return scores
    /\ Pandas.sum_axis1 scores = Return totals
    /\ Pandas.columns df
       = (if existsb id (total_marks colmap (Pandas.all_keys (records_of results)))
          then relabelled colmap (Pandas.all_keys (records_of results))
          else relabelled colmap (Pandas.all_keys (records_of results))
               ++ [JStr total_score])
    /\ length (Pandas.rows df) = length (succeeding results)
    /\ length totals = length (succeeding results)
    /\ Forall2 (fun '(i, d) '(row, total) =>
                  results !! i = Some (Return (JDict d))
                  /\ row = Pandas.set_cells
                             (total_marks colmap
                                (Pandas.all_keys (records_of results)))
                             total
                             (Pandas.row_of (Pandas.all_keys (records_of results)) d))
         (succeeding results) (combine (Pandas.rows df) totals).
Proof.
  intros Hrun.
  destruct (gather_pipelines requirements resumes w)
    as (results & w1 & Hgather & Hlen & Halign).
  rewrite (rank_resumes_gathered _ _ _ _ _ Hgather) in Hrun.
  apply bind_inv in Hrun as (excel & w2 & Hexcel & Hret).
  unfold ret in Hret. injection Hret as -> _ _ _ ->.
  apply generate_excel_inv in Hexcel
    as (records & colmap & scores & totals & Hrec & Hshorten & Hdrop & Hsum
        & Htotals & ->).
  rewrite collect_final_results in Hrec. cbn [app] in Hrec.
  pose proof (as_records_succeeding results 0 records Hrec) as Hsucc.
  fold (succeeding results) in Hsucc. fold (records_of results) in Hsucc.
  subst records.
  assert (Hcount : length (records_of results) = length (succeeding results))
    by (unfold records_of; apply length_map).
  exists results, w1, colmap, scores, totals.
  split; [exact Hgather |]. split; [exact Hlen |]. split; [exact Halign |].
  split; [apply succeeding_from_sorted |]. split; [exact Hshorten |].
  split; [exact Hdrop |]. split; [exact Hsum |]. split; [reflexivity |].
  split; [| split; [now rewrite Htotals |]].
  - cbn [Pandas.setitem Pandas.rows Pandas.columns].
    rewrite length_map, length_combine, length_map. lia.
  - cbn [Pandas.setitem Pandas.rows Pandas.columns].
    apply (rows_in_order (fun i d => results !! i = Some (Return (JDict d)))).
    + now rewrite Htotals.
    + apply succeeding_lookup.
Qed.

Lemma rows_follow_upload_order_witness :
  exists results w1 colmap scores totals,
    Asyncio.gather
      (map (fun resume => Helpers.process_resume resume (py "Python, SQL"))
           [Fixtures.ann_pdf; Fixtures.notes_txt; Fixtures.bob_docx])
      (Fixtures.start Fixtures.table
         [Response (Some (py "{bob}")); Response (Some (py "{ann}"));
          Response (Some (py "{same}"))] [2%nat; 1%nat])
    = (Return results, w1)
    /\ map fst (succeeding results) = [0%nat; 2%nat]
    /\ colmap = Fixtures.same
    /\ Pandas.sum_axis1 (E := Fixtures.scripted Fixtures.table) scores = Return totals
    /\ totals = [Some (JInt 7); Some (JInt 7)]
    /\ Forall2 (fun '(i, d) '(row, total) =>
                  results !! i = Some (Return (JDict d))
                  /\ row = Pandas.set_cells
                             (total_marks colmap
                                (Pandas.all_keys (records_of results)))
                             total
                             (Pandas.row_of (Pandas.all_keys (records_of results)) d))
         (succeeding results)
         (combine
            [[Some (JStr (py "Ann")); Some (JInt 4); Some (JInt 3); Some (JInt 7)];
             [Some (JStr (py "Bob")); Some (JInt 2); Some (JInt 5); Some (JInt 7)]]
            totals).
Proof.
  pose (resumes :=
          [Fixtures.ann_pdf; Fixtures.notes_txt; Fixtures.bob_docx]).
  pose (w := Fixtures.start Fixtures.table
               [Response (Some (py "{bob}")); Response (Some (py "{ann}"));
                Response (Some (py "{same}"))] [2%nat; 1%nat]).
  pose (df := {| Pandas.columns :=
                   [JStr candidate_name; JStr (py "Py"); JStr (py "SQL");
                    JStr total_score];
                 Pandas.rows :=
                   [[Some (JStr (py "Ann")); Some (JInt 4); Some (JInt 3);
                     Some (JInt 7)];
                    [Some (JStr (py "Bob")); Some (JInt 2); Some (JInt 5);
                     Some (JInt 7)]] |}).
  assert (Hrun : Routes.rank_resumes (py "Python, SQL") resumes w
                 = (Return (StreamingResponse df 200 xlsx_media_type xlsx_headers),
                    snd (Routes.rank_resumes (py "Python, SQL") resumes w))).
  { apply injective_projections; [vm_compute; reflexivity | reflexivity]. }
  destruct (rows_follow_upload_order _ _ _ _ _ _ _ _ Hrun)
    as (results & w1 & colmap & scores & totals & Hgather & _ & _ & _ & Hshorten
        & Hdrop & Hsum & _ & _ & _ & Hrows).
  assert (Hresults : Return results
                     = Return [Return (JDict Fixtures.ann);
                               Raise (HTTPException 422
                                        (py "Unsupported file type. Upload PDF or DOCX."));
                               Return (JDict Fixtures.bob)]).
  { pose proof (f_equal fst Hgather) as Hfst. cbn [fst] in Hfst.
    rewrite <- Hfst. vm_compute. reflexivity. }
  injection Hresults as ->.
  assert (Hw1 : w1 = snd (Asyncio.gather
                            (map (fun resume =>
                                    Helpers.process_resume
                                      (E := Fixtures.scripted Fixtures.table)
                                      resume (py "Python, SQL")) resumes) w)).
  { pose proof (f_equal snd Hgather) as Hsnd. cbn [snd] in Hsnd. now rewrite <- Hsnd. }
  subst w1.
  assert (Hcolmap : Return (JDict colmap) = Return (JDict Fixtures.same)).
  { pose proof (f_equal fst Hshorten) as Hfst. cbn [fst] in Hfst.
    rewrite <- Hfst. vm_compute. reflexivity. }
  injection Hcolmap as ->.
  assert (Hscores : Return scores
                    = Return {| Pandas.columns := [JStr (py "Py"); JStr (py "SQL")];
                                Pandas.rows := [[Some (JInt 4); Some (JInt 3)];
                                                [Some (JInt 2); Some (JInt 5)]] |}).
  { rewrite <- Hdrop. vm_compute. reflexivity. }
  injection Hscores as ->.
  assert (Htotals : Return totals = Return [Some (JInt 7); Some (JInt 7)]).
  { rewrite <- Hsum. vm_compute. reflexivity. }
  injection Htotals as ->.
  eexists _, _, Fixtures.same, _, _.
  split; [exact Hgather |]. split; [reflexivity |]. split; [reflexivity |].
  split; [exact Hsum |]. split; [reflexivity |]. exact Hrows.
Defined.

(** * Further properties *)

(** ** Text extraction *)

Section Extraction.
Context {E : Externals}.

Lemma call_PdfReader_run content w :
  call_PdfReader content w
  = (match PdfReader content with
     | PdfRaises (ReadError msg) => Raise (PdfReadError msg)
     | PdfRaises (OtherPdfError msg) => Raise (LibraryError msg)
     | PdfPages pages => Return pages
     end, logged (CallPdfReader content) w).
Proof.
  unfold call_PdfReader, bind, log_call, logged.
  destruct (PdfReader content) as [[msg | msg] | pages]; reflexivity.
Qed.

Lemma call_Document_run content w :
  call_Document content w
  = (match Document content with
     | DocxRaises (DocxError msg) => Raise (PythonDocxError msg)
     | DocxRaises (PackageNotFound msg) => Raise (PackageNotFoundError msg)
     | DocxRaises (OtherDocxError msg) => Raise (LibraryError msg)
     | DocxParagraphs paragraphs => Return paragraphs
     end, logged (CallDocument content) w).
Proof.
  unfold call_Document, bind, log_call, logged.
  destruct (Document content) as [[msg | msg | msg] | paragraphs]; reflexivity.
Qed.

Lemma bind_ret {A B} (a : A) (k : A -> M B) w : bind (ret a) k w = k a w.
Proof. reflexivity. Qed.

(** Reading the pages changes nothing outside the program. *)
Lemma read_pages_cases pages w :
  (exists texts, mapM page_extract_text_or_empty pages w = (Return texts, w))
  \/ (exists e, mapM page_extract_text_or_empty pages w = (Raise e, w)).
Proof.
  induction pages as [| p pages IH]; [left; now exists [] |].
  cbn [mapM]. destruct p as [[text |] | [msg | msg]]; cbn [page_extract_text_or_empty].
  - rewrite bind_ret.
    destruct IH as [[texts Hrun] | [e Hrun]].
    + left. exists (text :: texts). now rewrite (bind_return _ _ _ _ _ Hrun).
    + right. exists e. now rewrite (bind_raise _ _ _ _ _ Hrun).
  - rewrite bind_ret.
    destruct IH as [[texts Hrun] | [e Hrun]].
    + left. exists ([] :: texts). now rewrite (bind_return _ _ _ _ _ Hrun).
    + right. exists e. now rewrite (bind_raise _ _ _ _ _ Hrun).
  - right. now exists (PdfReadError msg).
  - right. now exists (LibraryError msg).
Qed.

Lemma read_pages_texts pages texts w :
  Forall2 (fun p text => page_text p = Some text) pages texts ->
  mapM page_extract_text_or_empty pages w = (Return texts, w).
Proof.
  induction 1 as [| p text pages texts Hp _ IH]; [reflexivity |].
  cbn [mapM]. destruct p as [[t |] | e]; cbn in Hp; try discriminate;
    injection Hp as <-; cbn [page_extract_text_or_empty];
    rewrite bind_ret; now rewrite (bind_return _ _ _ _ _ IH).
Qed.
End Extraction.

Lemma PdfDoc_extract_text_run {E : Externals}
    (self : FileProcessor.BaseDoc) (w : world) :
  exists r,
    FileProcessor.PdfDoc_extract_text self w
    = (Return r, logged (CallPdfReader (FileProcessor.content self)) w)
    /\ text_or_422 r.
Proof.
  unfold FileProcessor.PdfDoc_extract_text, try_except.
  unfold bind at 1. rewrite call_PdfReader_run.
  destruct (PdfReader (FileProcessor.content self)) as [[msg | msg] | pages].
  - eexists. split; reflexivity.
  - eexists. split; reflexivity.
  - destruct pages as [| p pages]; [eexists; split; reflexivity |].
    destruct (read_pages_cases (p :: pages)
                (logged (CallPdfReader (FileProcessor.content self)) w))
      as [[texts Hrun] | [e Hrun]].
    + rewrite (bind_return _ _ _ _ _ Hrun). eexists. split; [reflexivity | exact I].
    + rewrite (bind_raise _ _ _ _ _ Hrun).
      destruct e; eexists; split; reflexivity.
Qed.

Lemma DocxDoc_extract_text_run {E : Externals}
    (self : FileProcessor.BaseDoc) (w : world) :
  exists r,
    FileProcessor.DocxDoc_extract_text self w
    = (Return r, logged (CallDocument (FileProcessor.content self)) w)
    /\ text_or_422 r.
Proof.
  unfold FileProcessor.DocxDoc_extract_text, try_except.
  unfold bind at 1. rewrite call_Document_run.
  destruct (Document (FileProcessor.content self)) as [[msg | msg | msg] | paragraphs];
    try (eexists; split; reflexivity).
  destruct paragraphs; eexists; split; (reflexivity || exact I).
Qed.

(** X1.  Extraction from a PDF never raises: whatever PyPDF2 does with the
    payload, the method returns a text or a failure of status 422, after one
    call to the reader and none to the generative service. *)
Theorem pdf_extraction_never_raises {E : Externals}
    (self : FileProcessor.BaseDoc) (w : world) :
  exists r,
    FileProcessor.PdfDoc_extract_text self w
    = (Return r, logged (CallPdfReader (FileProcessor.content self)) w)
    /\ text_or_422 r.
Proof. apply PdfDoc_extract_text_run. Qed.

(** X2.  Extraction from a DOCX never raises either: a text or a failure of
    status 422, after one call to python-docx. *)
Theorem docx_extraction_never_raises {E : Externals}
    (self : FileProcessor.BaseDoc) (w : world) :
  exists r,
    FileProcessor.DocxDoc_extract_text self w
    = (Return r, logged (CallDocument (FileProcessor.content self)) w)
    /\ text_or_422 r.
Proof. apply DocxDoc_extract_text_run. Qed.

(** X3.  When every page of a PDF can be read, the extracted text is the
    texts of the pages, in order, joined by newlines, a page without text
    counting as an empty text. *)
Theorem pdf_text_is_pages_joined {E : Externals}
    (self : FileProcessor.BaseDoc) (w : world) (pages : list page) (texts : list str) :
  PdfReader (FileProcessor.content self) = PdfPages pages ->
  pages <> [] ->
  Forall2 (fun p text => page_text p = Some text) pages texts ->
  fst (FileProcessor.PdfDoc_extract_text self w) = Return (Text (join [newline] texts))
  /\ length texts = length pages.
Proof.
  intros Hparse Hsome Hpages. split; [| symmetry; exact (Forall2_length _ _ _ Hpages)].
  unfold FileProcessor.PdfDoc_extract_text, try_except.
  unfold bind at 1. rewrite call_PdfReader_run, Hparse.
  destruct pages as [| p pages]; [contradiction |].
  now rewrite (bind_return _ _ _ _ _ (read_pages_texts _ _ _ Hpages)).
Qed.

Lemma pdf_text_is_pages_joined_witness :
  fst (FileProcessor.PdfDoc_extract_text
         {| FileProcessor.file := Fixtures.bytes_of "Ann";
            FileProcessor.content := Fixtures.bytes_of "Ann" |}
         (Fixtures.start [] [] []))
  = Return (Text (py "Ann")).
Proof.
  refine (proj1 (pdf_text_is_pages_joined
                   {| FileProcessor.file := Fixtures.bytes_of "Ann";
                      FileProcessor.content := Fixtures.bytes_of "Ann" |}
                   (Fixtures.start [] [] [])
                   [PageText (Some (py "Ann"))] [py "Ann"] _ _ _)).
  - reflexivity.
  - discriminate.
  - repeat constructor.
Defined.

Lemma process_world {E : Externals}
    (file : UploadFile) (w : world) :
  len (data file) <= 5 * 1024 * 1024 ->
  snd (FileProcessor.process file w)
  = if str_eqb (content_type file) application_pdf
    then logged (CallPdfReader (data file)) w
    else if str_eqb (content_type file) application_docx
         then logged (CallDocument (data file)) w
         else w.
Proof.
  intros Hlen. unfold FileProcessor.process.
  rewrite (bind_return _ _ _ _ _ (from_upload_within file w Hlen)).
  cbn [FileProcessor.file].
  destruct (str_eqb (content_type file) application_pdf).
  - rewrite (bind_return _ _ _ _ _ (BaseDoc_init_within _ w Hlen)).
    destruct (PdfDoc_extract_text_run
                {| FileProcessor.file := data file; FileProcessor.content := data file |} w)
      as (r & -> & _). reflexivity.
  - destruct (str_eqb (content_type file) application_docx); [| reflexivity].
    rewrite (bind_return _ _ _ _ _ (BaseDoc_init_within _ w Hlen)).
    destruct (DocxDoc_extract_text_run
                {| FileProcessor.file := data file; FileProcessor.content := data file |} w)
      as (r & -> & _). reflexivity.
Qed.

(** X4.  The document processor chooses the library by the declared content
    type alone: for a payload within the size limit it calls the PDF reader
    once for a PDF, python-docx once for a DOCX, and no library for any
    other type; it never calls the generative service. *)
Theorem process_calls_the_declared_parser {E : Externals}
    (file : UploadFile) (w : world) :
  len (data file) <= 5 * 1024 * 1024 ->
  snd (FileProcessor.process file w)
  = if str_eqb (content_type file) application_pdf
    then logged (CallPdfReader (data file)) w
    else if str_eqb (content_type file) application_docx
         then logged (CallDocument (data file)) w
         else w.
Proof. apply process_world. Qed.

Lemma process_calls_the_declared_parser_witness :
  snd (FileProcessor.process Fixtures.bob_docx (Fixtures.start [] [] []))
  = logged (CallDocument (data Fixtures.bob_docx)) (Fixtures.start [] [] []).
Proof.
  refine (process_calls_the_declared_parser Fixtures.bob_docx (Fixtures.start [] [] []) _).
  vm_compute. discriminate.
Defined.

Section ProcessOutcome.
Context {E : Externals}.

Lemma process_within (file : UploadFile) w :
  len (data file) <= 5 * 1024 * 1024 ->
  exists r, fst (FileProcessor.process file w) = Return r /\ text_or_422 r.
Proof.
  intros Hlen. unfold FileProcessor.process.
  rewrite (bind_return _ _ _ _ _ (from_upload_within file w Hlen)).
  cbn [FileProcessor.file].
  destruct (str_eqb (content_type file) application_pdf).
  - rewrite (bind_return _ _ _ _ _ (BaseDoc_init_within _ w Hlen)).
    destruct (PdfDoc_extract_text_run
                {| FileProcessor.file := data file; FileProcessor.content := data file |} w)
      as (r & -> & Hr). now exists r.
  - destruct (str_eqb (content_type file) application_docx).
    + rewrite (bind_return _ _ _ _ _ (BaseDoc_init_within _ w Hlen)).
      destruct (DocxDoc_extract_text_run
                  {| FileProcessor.file := data file; FileProcessor.content := data file |} w)
        as (r & -> & Hr). now exists r.
    + eexists. split; reflexivity.
Qed.
End ProcessOutcome.

(** X5.  The document processor returns exactly when the payload is within
    the size limit, and what it returns is then a text or a failure of
    status 422: the size is its only cause of an exception. *)
Theorem process_returns_iff_within_limit {E : Externals}
    (file : UploadFile) (w : world) :
  (exists r, fst (FileProcessor.process file w) = Return r /\ text_or_422 r)
  <-> len (data file) <= 5 * 1024 * 1024.
Proof.
  split; [| apply process_within].
  intros (r & Hrun & _).
  destruct (Z.le_gt_cases (len (data file)) (5 * 1024 * 1024)) as [Hle | Hgt];
    [exact Hle |].
  rewrite (process_over file w Hgt) in Hrun. discriminate.
Qed.

(** ** Criteria extraction, continued *)

Lemma lstrip_where_split drop s :
  exists dropped,
    s = dropped ++ lstrip_where drop s
    /\ forallb drop dropped = true
    /\ match lstrip_where drop s with
       | [] => True
       | c :: _ => drop c = false
       end.
Proof.
  induction s as [| c s (dropped & Hs & Hall & Hhead)]; [now exists [] |].
  cbn [lstrip_where]. destruct (drop c) eqn:Hc.
  - exists (c :: dropped). cbn. rewrite Hc, Hall. now rewrite <- Hs.
  - exists []. now rewrite Hc.
Qed.

Lemma lstrip_where_kept drop c s :
  drop c = false -> lstrip_where drop (c :: s) = c :: s.
Proof. intros Hc. cbn. now rewrite Hc. Qed.

Lemma lstrip_where_app drop dropped s :
  forallb drop dropped = true ->
  lstrip_where drop (dropped ++ s) = lstrip_where drop s.
Proof.
  induction dropped as [| c dropped IH]; [reflexivity |].
  cbn. intros Hall. apply andb_prop in Hall as [-> Hall]. now apply IH.
Qed.

Lemma rstrip_where_kept drop s c :
  drop c = false -> rstrip_where drop (s ++ [c]) = s ++ [c].
Proof.
  intros Hc. unfold rstrip_where. rewrite rev_app_distr. cbn [rev app].
  rewrite (lstrip_where_kept _ _ _ Hc). cbn [rev]. now rewrite rev_involutive.
Qed.

Lemma rstrip_where_app drop s dropped :
  forallb drop dropped = true ->
  rstrip_where drop (s ++ dropped) = rstrip_where drop s.
Proof.
  intros Hall. unfold rstrip_where. rewrite rev_app_distr.
  rewrite lstrip_where_app; [reflexivity |].
  rewrite forallb_forall in *. intros x Hx. apply Hall. now apply in_rev.
Qed.

(** A stripped text is empty, or starts and ends with a character that is
    no white space. *)
Lemma strip_ends s :
  strip s = []
  \/ exists first middle last,
       isspace first = false /\ isspace last = false
       /\ (strip s = [first] /\ first = last \/ strip s = first :: middle ++ [last]).
Proof.
  unfold strip.
  destruct (lstrip_where_split isspace s) as (_ & _ & _ & Hhead).
  destruct (lstrip_where isspace s) as [| first rest]; [now left |].
  unfold rstrip_where.
  destruct (lstrip_where_split isspace (rev (first :: rest)))
    as (dropped & Hrev & Hall & Hlast).
  destruct (lstrip_where isspace (rev (first :: rest))) as [| last kept].
  - exfalso. rewrite app_nil_r in Hrev.
    assert (Hin : In first dropped).
    { rewrite <- Hrev. apply in_rev. rewrite rev_involutive. now left. }
    rewrite forallb_forall in Hall. rewrite (Hall _ Hin) in Hhead. discriminate.
  - right. apply (f_equal (@rev N)) in Hrev. rewrite rev_involutive in Hrev.
    rewrite rev_app_distr in Hrev. cbn [rev] in Hrev.
    cbn [rev]. destruct (rev kept) as [| c middle] eqn:Hkept.
    + cbn in Hrev. injection Hrev as Hfirst _. subst last.
      exists first, [], first. cbn. tauto.
    + cbn in Hrev. injection Hrev as Hfirst Hrest. subst c.
      exists first, middle, last. cbn. tauto.
Qed.

Lemma split_on_no_separator sep s :
  Forall (fun piece => ~ In sep piece) (split_on sep s).
Proof.
  induction s as [| c s IH]; [repeat constructor; now intros [] |].
  cbn [split_on]. destruct (N.eqb_spec c sep) as [-> | Hne].
  - constructor; [now intros [] | exact IH].
  - destruct (split_on sep s) as [| piece pieces]; [repeat constructor |].
    + intros [H | []]. congruence.
    + inversion IH; subst. constructor; [| assumption].
      intros [H | H]; [congruence | contradiction].
Qed.

Lemma split_on_first sep c s :
  c <> sep -> hd [] (split_on sep (c :: s)) <> [].
Proof.
  intros Hne. cbn [split_on]. destruct (N.eqb_spec c sep); [contradiction |].
  destruct (split_on sep s); discriminate.
Qed.

Lemma split_on_last sep s c :
  c <> sep -> List.last (split_on sep (s ++ [c])) [] <> [].
Proof.
  intros Hne. induction s as [| c' s IH].
  - cbn. destruct (N.eqb_spec c sep); [contradiction | discriminate].
  - cbn [app split_on].
    pose proof (split_on_nonempty sep (s ++ [c])) as Hsome.
    destruct (split_on sep (s ++ [c])) as [| piece pieces]; [contradiction |].
    destruct (c' =? sep)%N; [exact IH |].
    destruct pieces as [| piece' pieces]; [discriminate | exact IH].
Qed.

(** The pieces of a stripped text: one empty piece for an empty text, and
    otherwise a first and a last piece that are not empty. *)
Lemma split_on_strip s :
  Forall (fun piece => ~ In newline piece) (split_on newline (strip s))
  /\ (strip s = [] -> split_on newline (strip s) = [[]])
  /\ (strip s <> [] ->
      hd [] (split_on newline (strip s)) <> []
      /\ List.last (split_on newline (strip s)) [] <> []).
Proof.
  split; [apply split_on_no_separator |]. split; [now intros -> |].
  intros Hsome.
  destruct (strip_ends s)
    as [Hnil | (first & middle & last & Hfirst & Hlast & [[Hs _] | Hs])];
    [contradiction | |]; rewrite Hs.
  - split.
    + apply split_on_first. intros ->. discriminate.
    + apply (split_on_last newline []). intros ->. discriminate.
  - split.
    + apply split_on_first. intros ->. discriminate.
    + apply (split_on_last newline (first :: middle)). intros ->. discriminate.
Qed.

(** X8.  The requirements returned for an answer are the lines of a stripped
    text: none of them holds a newline, a blank answer gives one empty
    requirement, and for any other answer the first and the last requirement
    are not empty (blank lines can only occur in between). *)
Theorem requirements_have_no_blank_ends {E : Externals}
    (job_description : str) (w : world) (text : str) (gemini' : backend) :
  generate_content (gemini w) AIModels.model
    (AIModels.criteria_prompt job_description) = (Response (Some text), gemini') ->
  strip text <> py "INVALID_INPUT" ->
  exists requirements,
    fst (AIModels.extract_criteria job_description w)
    = Return (AIModels.Requirements requirements 200)
    /\ Forall (fun requirement => ~ In newline requirement) requirements
    /\ (strip text = [] -> requirements = [[]])
    /\ (strip text <> [] ->
        hd [] requirements <> [] /\ List.last requirements [] <> []).
Proof.
  intros Hgen Hvalid. exists (split_on newline (strip text)).
  split; [exact (extract_criteria_lines _ _ _ _ Hgen Hvalid) | apply split_on_strip].
Qed.

Lemma requirements_have_no_blank_ends_witness :
  exists requirements,
    fst (AIModels.extract_criteria (py "Data engineer wanted.")
           (Fixtures.start [] [Response (Some ([newline] ++ py " "))] []))
    = Return (AIModels.Requirements requirements 200)
    /\ requirements = [[]].
Proof.
  destruct (requirements_have_no_blank_ends (py "Data engineer wanted.")
              (Fixtures.start [] [Response (Some ([newline] ++ py " "))] [])
              ([newline] ++ py " ") [] eq_refl)
    as (requirements & Hrun & _ & Hblank & _).
  - intros Heq. vm_compute in Heq. discriminate.
  - exists requirements. split; [exact Hrun | now apply Hblank].
Defined.

Section CriteriaFailures.
Context {E : Externals}.

Lemma extract_criteria_run job_description w :
  exists reply gemini',
    AIModels.extract_criteria job_description w
    = (Return reply,
       answered gemini' AIModels.model (AIModels.criteria_prompt job_description) w)
    /\ match reply with
       | AIModels.CriteriaError _ status_code => status_code = 400 \/ status_code = 500
       | AIModels.Requirements _ code => code = 200
       end.
Proof.
  unfold AIModels.extract_criteria.
  destruct (generate_content (gemini w) AIModels.model
              (AIModels.criteria_prompt job_description))
    as [[msg | [text |]] gemini'] eqn:Hgen.
  - eexists _, gemini'. split.
    + erewrite try_raise;
        [| apply bind_raise, (call_generate_content_raises _ _ _ _ _ Hgen)].
      reflexivity.
    + right; reflexivity.
  - destruct (str_eqb (strip text) (py "INVALID_INPUT")) eqn:Hsentinel.
    + eexists _, gemini'. split.
      * erewrite try_return; [reflexivity |].
        rewrite (bind_return _ _ _ _ _ (call_generate_content_response _ _ _ _ _ Hgen)).
        cbn [on_text]. rewrite bind_ret. now rewrite Hsentinel.
      * left; reflexivity.
    + eexists _, gemini'. split.
      * erewrite try_return; [reflexivity |].
        rewrite (bind_return _ _ _ _ _ (call_generate_content_response _ _ _ _ _ Hgen)).
        cbn [on_text]. rewrite bind_ret. rewrite Hsentinel. rewrite bind_ret.
        reflexivity.
      * reflexivity.
  - eexists _, gemini'. split.
    + erewrite try_raise; [reflexivity |].
      now rewrite (bind_return _ _ _ _ _ (call_generate_content_response _ _ _ _ _ Hgen)).
    + right; reflexivity.
Qed.

End CriteriaFailures.

(** X6.  Criteria extraction never raises and never asks the backend twice:
    it returns, after one call, a requirement list with code 200 or an error
    of status 400 or 500. *)
Theorem extract_criteria_never_raises {E : Externals}
    (job_description : str) (w : world) :
  exists reply gemini',
    AIModels.extract_criteria job_description w
    = (Return reply,
       answered gemini' AIModels.model (AIModels.criteria_prompt job_description) w)
    /\ match reply with
       | AIModels.CriteriaError _ status_code => status_code = 400 \/ status_code = 500
       | AIModels.Requirements _ code => code = 200
       end.
Proof. apply extract_criteria_run. Qed.

(** X7.  When the call to the backend fails, criteria extraction returns the
    error of status 500 whose message is "Extraction failed: " followed by
    the text of the failure. *)
Theorem backend_failure_gives_extraction_failed {E : Externals}
    (job_description : str) (w : world) (msg : str) (gemini' : backend) :
  generate_content (gemini w) AIModels.model
    (AIModels.criteria_prompt job_description) = (BackendRaises msg, gemini') ->
  fst (AIModels.extract_criteria job_description w)
  = Return (AIModels.CriteriaError (py "Extraction failed: " ++ msg) 500).
Proof.
  intros Hgen. unfold AIModels.extract_criteria.
  erewrite try_raise;
    [| apply bind_raise, (call_generate_content_raises _ _ _ _ _ Hgen)].
  reflexivity.
Qed.

Lemma backend_failure_gives_extraction_failed_witness :
  fst (AIModels.extract_criteria (py "Data engineer wanted.") (Fixtures.start [] [] []))
  = Return (AIModels.CriteriaError (py "Extraction failed: deadline exceeded") 500).
Proof.
  exact (backend_failure_gives_extraction_failed (py "Data engineer wanted.")
           (Fixtures.start [] [] []) (py "deadline exceeded") [] eq_refl).
Defined.

(** ** The code fence around an answer *)

Lemma without_fence_fenced first middle last :
  in_chars (py "```json") first = false ->
  in_chars (py "```") last = false ->
  without_fence (py "```json" ++ (first :: middle ++ [last]) ++ py "```")
  = first :: middle ++ [last].
Proof.
  intros Hfirst Hlast. unfold without_fence, lstrip_chars, rstrip_chars.
  rewrite lstrip_where_app by reflexivity.
  cbn [app]. rewrite (lstrip_where_kept _ _ _ Hfirst).
  change (first :: (middle ++ [last]) ++ py "```")
    with ((first :: middle ++ [last]) ++ py "```").
  rewrite rstrip_where_app by reflexivity.
  apply (rstrip_where_kept _ (first :: middle) last Hlast).
Qed.

Lemma without_fence_bare first middle last :
  in_chars (py "```json") first = false ->
  in_chars (py "```") last = false ->
  without_fence (first :: middle ++ [last]) = first :: middle ++ [last].
Proof.
  intros Hfirst Hlast. unfold without_fence, lstrip_chars, rstrip_chars.
  rewrite (lstrip_where_kept _ _ _ Hfirst).
  apply (rstrip_where_kept _ (first :: middle) last Hlast).
Qed.

(** X9.  The scorer hands the body of a fenced answer on unchanged, unless
    it refuses the answer: when the answer is a body between the fence
    [```json] and the fence [```], the body neither starts with a character
    of the opening fence nor ends with a backquote, and the stripped answer
    does not contain NOT_VALID, the response is the body with status 200;
    the same body without a fence is handed on as it is, under the same
    condition.  (An answer that contains NOT_VALID is refused with status
    400, whatever else it holds.) *)
Theorem fenced_answer_is_unwrapped {E : Externals}
    (req_ls resume : str) (w : world) (first : N) (middle : str) (last : N)
    (fenced : bool) (gemini' : backend) :
  in_chars (py "```json") first = false ->
  in_chars (py "```") last = false ->
  let body := first :: middle ++ [last] in
  let text := if fenced then py "```json" ++ body ++ py "```" else body in
  generate_content (gemini w) AIModels.model (AIModels.rank_prompt req_ls resume)
  = (Response (Some text), gemini') ->
  contains (py "NOT_VALID") (strip text) = false ->
  fst (AIModels.rank_resumes req_ls resume w)
  = Return (AIModels.RankResponse body 200).
Proof.
  intros Hfirst Hlast body text Hgen Hvalid.
  rewrite (rank_resumes_response _ _ _ _ _ Hgen Hvalid). cbn [fst].
  fold (without_fence text). unfold text, body. destruct fenced.
  - now rewrite without_fence_fenced.
  - now rewrite without_fence_bare.
Qed.

Lemma fenced_answer_is_unwrapped_witness :
  fst (AIModels.rank_resumes (py "Python") (py "Ann, Python developer")
         (Fixtures.start Fixtures.table
            [Response (Some (py "```json" ++ ([newline] ++ py "{ann}" ++ [newline])
                             ++ py "```"))] []))
  = Return (AIModels.RankResponse ([newline] ++ py "{ann}" ++ [newline]) 200).
Proof.
  refine (fenced_answer_is_unwrapped (py "Python") (py "Ann, Python developer")
            (Fixtures.start Fixtures.table
               [Response (Some (py "```json" ++ ([newline] ++ py "{ann}" ++ [newline])
                                ++ py "```"))] [])
            newline (py "{ann}") newline true [] _ _ _ _).
  - reflexivity.
  - reflexivity.
  - reflexivity.
  - vm_compute. reflexivity.
Defined.

(** ** The pipeline of one resume *)

Section Pipeline.
Context {E : Externals}.

Lemma process_keeps_backend (file : UploadFile) w :
  gemini (snd (FileProcessor.process file w)) = gemini w.
Proof.
  destruct (Z_le_gt_dec (len (data file)) (5 * 1024 * 1024)) as [Hle | Hgt].
  - rewrite (process_world file w Hle).
    destruct (str_eqb (content_type file) application_pdf); [reflexivity |].
    destruct (str_eqb (content_type file) application_docx); reflexivity.
  - rewrite process_over by lia. reflexivity.
Qed.

Lemma rank_resumes_not_valid req_ls resume w text gemini' :
  generate_content (gemini w) AIModels.model (AIModels.rank_prompt req_ls resume)
  = (Response (Some text), gemini') ->
  contains (py "NOT_VALID") (strip text) = true ->
  AIModels.rank_resumes req_ls resume w
  = (Return (AIModels.RankError (py "Not a valid Resume or Job Requirements") 400),
     answered gemini' AIModels.model (AIModels.rank_prompt req_ls resume) w).
Proof.
  intros Hgen Hvalid. unfold AIModels.rank_resumes.
  rewrite (bind_return _ _ _ _ _ (call_generate_content_response _ _ _ _ _ Hgen)).
  cbn [on_text]. rewrite bind_ret. now rewrite Hvalid.
Qed.

End Pipeline.

(** X10.  A resume whose text cannot be extracted is not scored: the
    pipeline raises the [HTTPException] with the status, always 422, and
    the message of the extraction failure, and the backend is left as it
    was. *)
Theorem extraction_failure_skips_scoring {E : Externals}
    (resume : UploadFile) (requirements : str) (w : world)
    (status_code : Z) (error : str) (w1 : world) :
  FileProcessor.process resume w = (Return (Failure status_code error), w1) ->
  Helpers.process_resume resume requirements w
  = (Raise (HTTPException status_code error), w1)
  /\ status_code = 422 /\ gemini w1 = gemini w.
Proof.
  intros Hp. split; [| split].
  - unfold Helpers.process_resume. now rewrite (bind_return _ _ _ _ _ Hp).
  - destruct (Z_le_gt_dec (len (data resume)) (5 * 1024 * 1024)) as [Hle | Hgt].
    + destruct (process_within resume w Hle) as (r & Hr & H422).
      rewrite Hp in Hr. cbn [fst] in Hr. injection Hr as <-. exact H422.
    + rewrite process_over in Hp by lia. discriminate Hp.
  - rewrite <- (process_keeps_backend resume w). now rewrite Hp.
Qed.

Lemma extraction_failure_skips_scoring_witness :
  let w := Fixtures.start Fixtures.table [Response (Some (py "{ann}"))] [] in
  fst (Helpers.process_resume Fixtures.notes_txt (py "Python") w)
  = Raise (HTTPException 422 (py "Unsupported file type. Upload PDF or DOCX."))
  /\ gemini (snd (Helpers.process_resume Fixtures.notes_txt (py "Python") w))
     = [Response (Some (py "{ann}"))].
Proof.
  intros w.
  destruct (extraction_failure_skips_scoring Fixtures.notes_txt (py "Python") w
              422 (py "Unsupported file type. Upload PDF or DOCX.") w eq_refl)
    as (Hrun & _ & _).
  rewrite Hrun. split; reflexivity.
Defined.

(** X11.  A resume whose extracted text contains the word "error" is taken
    for a failure of the extraction and indexed as one: the pipeline raises
    [TypeError] and the backend is never asked. *)
Theorem resume_with_word_error_is_not_scored {E : Externals}
    (resume : UploadFile) (requirements : str) (w : world)
    (resume_text : str) (w1 : world) :
  FileProcessor.process resume w = (Return (Text resume_text), w1) ->
  contains (py "error") resume_text = true ->
  Helpers.process_resume resume requirements w
  = (Raise (TypeError (py "string indices must be integers")), w1)
  /\ gemini w1 = gemini w.
Proof.
  intros Hp Hword. split.
  - unfold Helpers.process_resume. rewrite (bind_return _ _ _ _ _ Hp).
    now rewrite Hword.
  - rewrite <- (process_keeps_backend resume w). now rewrite Hp.
Qed.

Lemma resume_with_word_error_is_not_scored_witness :
  let resume :=
    Fixtures.upload (py "eve.pdf") application_pdf
      (Fixtures.bytes_of "Eve, error budget owner") in
  let w := Fixtures.start Fixtures.table [Response (Some (py "{ann}"))] [] in
  fst (Helpers.process_resume resume (py "Python") w)
  = Raise (TypeError (py "string indices must be integers")).
Proof.
  intros resume w.
  destruct (resume_with_word_error_is_not_scored resume (py "Python") w
              (py "Eve, error budget owner")
              (snd (FileProcessor.process resume w)) eq_refl eq_refl)
    as (Hrun & _).
  now rewrite Hrun.
Defined.

(** X12.  When the answer of the scoring backend, stripped, contains
    NOT_VALID anywhere, the pipeline raises the [HTTPException] of status
    400 "Not a valid Resume or Job Requirements", after that one call. *)
Theorem not_valid_answer_gives_400 {E : Externals}
    (resume : UploadFile) (requirements : str) (w : world)
    (resume_text : str) (w1 : world) (text : str) (gemini' : backend) :
  FileProcessor.process resume w = (Return (Text resume_text), w1) ->
  contains (py "error") resume_text = false ->
  generate_content (gemini w1) AIModels.model
    (AIModels.rank_prompt requirements resume_text)
  = (Response (Some text), gemini') ->
  contains (py "NOT_VALID") (strip text) = true ->
  Helpers.process_resume resume requirements w
  = (Raise (HTTPException 400 (py "Not a valid Resume or Job Requirements")),
     answered gemini' AIModels.model
       (AIModels.rank_prompt requirements resume_text) w1).
Proof.
  intros Hp Hword Hgen Hvalid.
  rewrite (process_resume_text _ _ _ _ _ Hp Hword).
  now rewrite (bind_return _ _ _ _ _ (rank_resumes_not_valid _ _ _ _ _ Hgen Hvalid)).
Qed.

Lemma not_valid_answer_gives_400_witness :
  let w :=
    Fixtures.start Fixtures.table
      [Response (Some (py "{" ++ dq ++ py "note" ++ dq ++ py ": "
                       ++ dq ++ py "NOT_VALID" ++ dq ++ py "}"))] [] in
  fst (Helpers.process_resume Fixtures.ann_pdf (py "Python") w)
  = Raise (HTTPException 400 (py "Not a valid Resume or Job Requirements")).
Proof.
  intros w.
  rewrite (not_valid_answer_gives_400 Fixtures.ann_pdf (py "Python") w
             (py "Ann, Python developer")
             (snd (FileProcessor.process Fixtures.ann_pdf w))
             (py "{" ++ dq ++ py "note" ++ dq ++ py ": "
              ++ dq ++ py "NOT_VALID" ++ dq ++ py "}") []
             eq_refl eq_refl eq_refl eq_refl).
  reflexivity.
Defined.

(** X13.  The pipeline returns whatever [json.loads] makes of the answer
    without its code fence: the value is not checked to be a mapping, to
    name a candidate, or to hold integer scores. *)
Theorem scored_resume_is_the_parsed_answer {E : Externals}
    (resume : UploadFile) (requirements : str) (w : world)
    (resume_text : str) (w1 : world) (text : str) (gemini' : backend) (v : json) :
  FileProcessor.process resume w = (Return (Text resume_text), w1) ->
  contains (py "error") resume_text = false ->
  generate_content (gemini w1) AIModels.model
    (AIModels.rank_prompt requirements resume_text)
  = (Response (Some text), gemini') ->
  contains (py "NOT_VALID") (strip text) = false ->
  json_loads (without_fence text) = inr v ->
  Helpers.process_resume resume requirements w
  = (Return v,
     answered gemini' AIModels.model
       (AIModels.rank_prompt requirements resume_text) w1).
Proof.
  intros Hp Hword Hgen Hvalid Hjson.
  rewrite (process_resume_text _ _ _ _ _ Hp Hword).
  rewrite (bind_return _ _ _ _ _ (rank_resumes_response _ _ _ _ _ Hgen Hvalid)).
  now rewrite (loads_value _ _ _ Hjson).
Qed.

Lemma scored_resume_is_the_parsed_answer_witness :
  let w :=
    Fixtures.start [(py "[1, 2]", JList [JInt 1; JInt 2])]
      [Response (Some (py "```json[1, 2]```"))] [] in
  fst (Helpers.process_resume Fixtures.ann_pdf (py "Python") w)
  = Return (JList [JInt 1; JInt 2]).
Proof.
  intros w.
  rewrite (scored_resume_is_the_parsed_answer Fixtures.ann_pdf (py "Python") w
             (py "Ann, Python developer")
             (snd (FileProcessor.process Fixtures.ann_pdf w))
             (py "```json[1, 2]```") [] (JList [JInt 1; JInt 2])
             eq_refl eq_refl eq_refl eq_refl eq_refl).
  reflexivity.
Defined.

(** ** The routes of the modular service *)

Section RouteFacts.
Context {E : Externals}.

Lemma collect_errors results final_results errors :
  snd (Routes.collect results final_results errors)
  = errors ++ failure_details results.
Proof.
  revert final_results errors.
  induction results as [| res results IH]; intros final_results errors; cbn.
  - now rewrite app_nil_r.
  - destruct res as [[] |]; rewrite IH; try reflexivity.
    now rewrite <- app_assoc.
Qed.

Lemma failures_and_others (results : list pyobj) :
  (length (List.filter (fun r => negb (is_structured_failure r)) results)
   + length (failure_details results))%nat
  = length results.
Proof.
  induction results as [| res results IH]; [reflexivity |].
  destruct res as [[] |]; cbn; lia.
Qed.

End RouteFacts.

(** X14.  The loop over the gathered outcomes splits them in two without
    losing or reordering any: the results kept for the report are the
    outcomes that are no [HTTPException], in their order, and the errors are
    the details of the [HTTPException]s, in their order. *)
Theorem collect_partitions_outcomes (results : list pyobj) :
  fst (Routes.collect results [] [])
  = List.filter (fun r => negb (is_structured_failure r)) results
  /\ snd (Routes.collect results [] []) = failure_details results
  /\ (length (fst (Routes.collect results [] []))
      + length (snd (Routes.collect results [] [])))%nat
     = length results.
Proof.
  rewrite collect_final_results, collect_errors. cbn [app].
  split; [reflexivity | split; [reflexivity |]]. apply failures_and_others.
Qed.

(** X15.  The ranking route of the modular service answers 200 or 500 and
    nothing else: no failure of a resume, and no failure of the report,
    reaches the caller with the status 400 or 422 that the route
    documents. *)
Theorem rank_route_answers_200_or_500 {E : Externals}
    (requirements : str) (resumes : list UploadFile) (w : world) :
  http_status (fst (Routes.rank_resumes requirements resumes w)) = 200
  \/ http_status (fst (Routes.rank_resumes requirements resumes w)) = 500.
Proof.
  destruct (gather_pipelines requirements resumes w) as (results & w1 & Hg & _).
  rewrite (rank_resumes_gathered _ _ _ _ _ Hg).
  destruct (Helpers.generate_excel (fst (Routes.collect results [] [])) w1)
    as [[e | excel] w2] eqn:Hx.
  - right. rewrite (bind_raise _ _ _ _ _ Hx). cbn [fst].
    apply generate_excel_raises in Hx. now destruct e.
  - left. now rewrite (bind_return _ _ _ _ _ Hx).
Qed.

(** X16.  The criteria route of the modular service answers with one of the
    four statuses it documents: 200, 400, 422 or 500. *)
Theorem criteria_route_answers_documented_status {E : Externals}
    (file : UploadFile) (w : world) :
  In (http_status (fst (Routes.extract_criteria file w))) [200; 400; 422; 500].
Proof.
  unfold Routes.extract_criteria.
  destruct (Z_le_gt_dec (len (data file)) (5 * 1024 * 1024)) as [Hle | Hgt].
  - destruct (process_within file w Hle) as (r & Hr & H422).
    destruct (FileProcessor.process file w) as [res w1] eqn:Hp.
    cbn [fst] in Hr. subst res. rewrite (bind_return _ _ _ _ _ Hp).
    destruct r as [job_description | status_code error].
    + destruct (contains (py "error") job_description).
      * cbn. tauto.
      * destruct (extract_criteria_run job_description w1)
          as (reply & gemini' & Hrun & Hreply).
        rewrite (bind_return _ _ _ _ _ Hrun).
        destruct reply as [error status_code | requirements code]; cbn.
        -- destruct Hreply as [-> | ->]; tauto.
        -- tauto.
    + cbn in H422 |- *. subst status_code. tauto.
  - rewrite (bind_raise _ _ _ _ _ (process_over file w ltac:(lia))). cbn. tauto.
Qed.

(** X17.  The report depends on a second answer of the backend: when the
    answer to the label prompt is not JSON, the report builder raises the
    [JSONDecodeError] although every record is in the frame, and no sheet is
    built. *)
Theorem unparseable_labels_lose_the_report {E : Externals}
    (data : list pyobj) (df : Pandas.frame) (w : world) (text : str)
    (gemini' : backend) (msg : str) :
  Pandas.DataFrame data = Return df ->
  generate_content (gemini w) AIModels.model
    (AIModels.labels_prompt (Pandas.columns df))
  = (Response (Some text), gemini') ->
  json_loads (without_fence text) = inl msg ->
  Helpers.generate_excel data w
  = (Raise (JSONDecodeError msg),
     answered gemini' AIModels.model
       (AIModels.labels_prompt (Pandas.columns df)) w).
Proof.
  intros Hdf Hgen Hjson. unfold Helpers.generate_excel.
  rewrite Hdf. unfold bind at 1, lift at 1. cbv beta iota.
  erewrite bind_raise; [reflexivity |].
  unfold AIModels.shorten_requirements.
  rewrite (bind_return _ _ _ _ _ (call_generate_content_response _ _ _ _ _ Hgen)).
  cbn [on_text]. rewrite bind_ret.
  apply (loads_fails _ _ _ Hjson).
Qed.

Lemma unparseable_labels_lose_the_report_witness :
  let w :=
    Fixtures.start Fixtures.table
      [Response (Some (py "Here are the labels you asked for."))] [] in
  fst (Helpers.generate_excel [Return (JDict Fixtures.ann)] w)
  = Raise (JSONDecodeError (py "Expecting value")).
Proof.
  intros w.
  rewrite (unparseable_labels_lose_the_report [Return (JDict Fixtures.ann)]
             {| Pandas.columns := map JStr (Pandas.all_keys [Fixtures.ann]);
                Pandas.rows :=
                  map (Pandas.row_of (Pandas.all_keys [Fixtures.ann])) [Fixtures.ann] |}
             w (py "Here are the labels you asked for.") []
             (py "Expecting value") eq_refl eq_refl eq_refl).
  reflexivity.
Defined.

(** ** The single-file service *)

Section SingleFile.
Context {E : Externals}.

Lemma extract_text_from_docx_run file_content w :
  exists r,
    App.extract_text_from_docx file_content w
    = (r, logged (CallDocument file_content) w)
    /\ value_or_http 422 r.
Proof.
  unfold App.extract_text_from_docx, try_except, bind.
  rewrite call_Document_run.
  destruct (Document file_content) as [[msg | msg | msg] | [| p ps]];
    eexists; (split; [reflexivity | exact I || reflexivity]).
Qed.

Lemma extract_text_from_pdf_run file_content w :
  exists r,
    App.extract_text_from_pdf file_content w
    = (r, logged (CallPdfReader file_content) w)
    /\ match r with
       | Return _ => True
       | Raise e =>
           if PyPDF2_PdfReadError
           then exists detail, e = HTTPException 422 detail
           else e = AttributeError (py "module 'PyPDF2' has no attribute 'PdfReadError'")
       end.
Proof.
  assert (Hhandler : forall e w0,
    exists e',
      bind App.lookup_PdfReadError
        (fun _ : unit =>
           match e with
           | PdfReadError _ =>
               raise (A := str)
                 (HTTPException 422 (py "Invalid PDF structure - unable to read file"))
           | _ => raise (HTTPException 422 (py "PDF processing error: " ++ exn_str e))
           end) w0 = (Raise e', w0)
      /\ if PyPDF2_PdfReadError
         then exists detail, e' = HTTPException 422 detail
         else e' = AttributeError (py "module 'PyPDF2' has no attribute 'PdfReadError'")).
  { intros e w0. unfold bind, App.lookup_PdfReadError.
    destruct PyPDF2_PdfReadError.
    - destruct e; eexists; (split; [reflexivity | eexists; reflexivity]).
    - eexists; split; reflexivity. }
  unfold App.extract_text_from_pdf.
  destruct (PdfReader file_content) as [err | [| p ps]] eqn:Hreader.
  - destruct (Hhandler (match err with
                        | ReadError msg => PdfReadError msg
                        | OtherPdfError msg => LibraryError msg
                        end) (logged (CallPdfReader file_content) w))
      as (e' & Hrun & He').
    exists (Raise e'). split; [| exact He'].
    assert (Hbody : call_PdfReader file_content w
                    = (Raise (match err with
                              | ReadError msg => PdfReadError msg
                              | OtherPdfError msg => LibraryError msg
                              end), logged (CallPdfReader file_content) w))
      by (rewrite call_PdfReader_run, Hreader; now destruct err).
    rewrite (try_raise _ _ _ _ _ (bind_raise _ _ _ _ _ Hbody)). exact Hrun.
  - destruct (Hhandler (ValueError (py "PDF contains no readable text"))
                (logged (CallPdfReader file_content) w)) as (e' & Hrun & He').
    exists (Raise e'). split; [| exact He'].
    erewrite try_raise; cycle 1.
    + erewrite bind_return; [| rewrite call_PdfReader_run, Hreader; reflexivity].
      reflexivity.
    + exact Hrun.
  - destruct (read_pages_cases (p :: ps) (logged (CallPdfReader file_content) w))
      as [(texts & Hpages) | (e & Hpages)].
    + exists (Return (join [newline] texts)). split; [| exact I].
      erewrite try_return; [reflexivity |].
      erewrite bind_return; [| rewrite call_PdfReader_run, Hreader; reflexivity].
      cbv beta iota. now rewrite (bind_return _ _ _ _ _ Hpages).
    + destruct (Hhandler e (logged (CallPdfReader file_content) w))
        as (e' & Hrun & He').
      exists (Raise e'). split; [| exact He'].
      erewrite try_raise; cycle 1.
      * erewrite bind_return; [| rewrite call_PdfReader_run, Hreader; reflexivity].
        cbv beta iota. now rewrite (bind_raise _ _ _ _ _ Hpages).
      * exact Hrun.
Qed.

Lemma score_resume_with_gemini_run resume_text requirements w :
  exists r gemini',
    App.score_resume_with_gemini resume_text requirements w
    = (r, answered gemini' App.model (App.score_prompt resume_text requirements) w)
    /\ value_or_http 500 r.
Proof.
  unfold App.score_resume_with_gemini.
  destruct (generate_content (gemini w) App.model
              (App.score_prompt resume_text requirements))
    as [[msg | [text |]] gemini'] eqn:Hgen.
  - eexists _, gemini'. split.
    + erewrite try_raise;
        [| apply bind_raise, (call_generate_content_raises _ _ _ _ _ Hgen)].
      reflexivity.
    + reflexivity.
  - destruct (json_loads (rstrip_chars (py "```") (lstrip_chars (py "```json") text)))
      as [msg | v] eqn:Hjson.
    + eexists _, gemini'. split.
      * erewrite try_raise; [reflexivity |].
        rewrite (bind_return _ _ _ _ _ (call_generate_content_response _ _ _ _ _ Hgen)).
        cbn [App.response_text]. rewrite bind_ret.
        erewrite try_raise; [| apply loads_fails, Hjson]. reflexivity.
      * reflexivity.
    + eexists _, gemini'. split.
      * erewrite try_return; [reflexivity |].
        rewrite (bind_return _ _ _ _ _ (call_generate_content_response _ _ _ _ _ Hgen)).
        cbn [App.response_text]. rewrite bind_ret.
        erewrite try_return; [| apply loads_value, Hjson]. reflexivity.
      * exact I.
  - eexists _, gemini'. split.
    + erewrite try_raise; [reflexivity |].
      now rewrite (bind_return _ _ _ _ _ (call_generate_content_response _ _ _ _ _ Hgen)).
    + reflexivity.
Qed.

Lemma extract_criteria_with_gemini_run text w :
  exists r gemini',
    App.extract_criteria_with_gemini text w
    = (r, answered gemini' App.model (App.criteria_prompt text) w)
    /\ value_or_http 500 r.
Proof.
  unfold App.extract_criteria_with_gemini.
  destruct (generate_content (gemini w) App.model (App.criteria_prompt text))
    as [[msg | [response |]] gemini'] eqn:Hgen.
  - eexists _, gemini'. split.
    + erewrite try_raise;
        [| apply bind_raise, (call_generate_content_raises _ _ _ _ _ Hgen)].
      reflexivity.
    + reflexivity.
  - eexists _, gemini'. split.
    + erewrite try_return; [reflexivity |].
      rewrite (bind_return _ _ _ _ _ (call_generate_content_response _ _ _ _ _ Hgen)).
      reflexivity.
    + exact I.
  - eexists _, gemini'. split.
    + erewrite try_raise; [reflexivity |].
      now rewrite (bind_return _ _ _ _ _ (call_generate_content_response _ _ _ _ _ Hgen)).
    + reflexivity.
Qed.

(** the status with which a failure of the text extraction is answered *)
Lemma extract_text_raises file content w e w' :
  App.extract_text file content w = (Raise e, w') ->
  http_status (Raise e) = 422 \/ http_status (Raise e) = 500.
Proof.
  unfold App.extract_text.
  destruct (str_eqb (content_type file) application_pdf).
  - destruct (extract_text_from_pdf_run content w) as (r & -> & Hr).
    intros [= -> <-]. destruct PyPDF2_PdfReadError.
    + destruct Hr as (detail & ->). now left.
    + subst e. now right.
  - destruct (extract_text_from_docx_run content w) as (r & -> & Hr).
    intros [= -> <-]. destruct e; try contradiction. cbn in Hr |- *. now left.
Qed.

Lemma value_or_http_status {A} status (e : exn) :
  value_or_http status (@Raise A e) -> http_status (Raise e) = status.
Proof. destruct e; cbn; try contradiction. auto. Qed.

Lemma score_one_raises resume requirements w e w' :
  bind (read resume)
    (fun content =>
       bind (App.extract_text resume content)
         (fun text => App.score_resume_with_gemini text requirements)) w
  = (Raise e, w') ->
  http_status (Raise e) = 422 \/ http_status (Raise e) = 500.
Proof.
  unfold read. rewrite bind_ret.
  destruct (App.extract_text resume (data resume) w) as [[e0 | text] w1] eqn:Ht.
  - rewrite (bind_raise _ _ _ _ _ Ht). intros [= <- <-].
    apply (extract_text_raises _ _ _ _ _ Ht).
  - rewrite (bind_return _ _ _ _ _ Ht).
    destruct (score_resume_with_gemini_run text requirements w1)
      as (r & gemini' & -> & Hr).
    intros [= -> <-]. right. now apply (value_or_http_status (A := json)).
Qed.

Lemma score_all_cons requirements resume resumes results w :
  App.supported (content_type resume) = true ->
  App.score_all requirements (resume :: resumes) results w
  = bind
      (bind (read resume)
         (fun content =>
            bind (App.extract_text resume content)
              (fun text => App.score_resume_with_gemini text requirements)))
      (fun scores => App.score_all requirements resumes (results ++ [scores])) w.
Proof.
  intros Hs. cbn [App.score_all]. rewrite Hs. cbn [negb].
  unfold bind, read, ret.
  destruct (App.extract_text resume (data resume) w) as [[e | text] w1];
    [reflexivity |].
  now destruct (App.score_resume_with_gemini text requirements w1) as [[e | s] w2].
Qed.

Lemma score_all_skip requirements resume resumes results w :
  App.supported (content_type resume) = false ->
  App.score_all requirements (resume :: resumes) results w
  = App.score_all requirements resumes results w.
Proof. intros Hs. cbn [App.score_all]. now rewrite Hs. Qed.

Lemma score_all_raises requirements resumes results w e w' :
  App.score_all requirements resumes results w = (Raise e, w') ->
  http_status (Raise e) = 422 \/ http_status (Raise e) = 500.
Proof.
  revert results w. induction resumes as [| resume resumes IH]; intros results w.
  - discriminate.
  - destruct (App.supported (content_type resume)) eqn:Hs.
    + rewrite (score_all_cons _ _ _ _ _ Hs).
      match goal with |- bind ?m _ _ = _ -> _ =>
        destruct (m w) as [[e0 | scores] w1] eqn:Hone end.
      * rewrite (bind_raise _ _ _ _ _ Hone). intros [= <- <-].
        apply (score_one_raises _ _ _ _ _ Hone).
      * rewrite (bind_return _ _ _ _ _ Hone). apply IH.
    + rewrite (score_all_skip _ _ _ _ _ Hs). apply IH.
Qed.

Lemma bind_congr {A B} (m m' : M A) (k : A -> M B) w w' :
  m w = m' w' -> bind m k w = bind m' k w'.
Proof. unfold bind. now intros ->. Qed.

Lemma score_all_app requirements before after results w :
  App.score_all requirements (before ++ after) results w
  = bind (App.score_all requirements before results)
      (fun results' => App.score_all requirements after results') w.
Proof.
  revert results w. induction before as [| resume before IH]; intros results w;
    [reflexivity |].
  cbn [app]. destruct (App.supported (content_type resume)) eqn:Hs.
  - rewrite !(score_all_cons _ _ _ _ _ Hs).
    match goal with |- bind ?m _ _ = _ =>
      destruct (m w) as [[e0 | scores] w1] eqn:Hone end.
    + rewrite (bind_raise _ _ _ _ _ Hone). symmetry.
      apply bind_raise. rewrite (score_all_cons _ _ _ _ _ Hs).
      apply (bind_raise _ _ _ _ _ Hone).
    + rewrite (bind_return _ _ _ _ _ Hone), IH. symmetry.
      apply bind_congr. rewrite (score_all_cons _ _ _ _ _ Hs).
      now rewrite (bind_return _ _ _ _ _ Hone).
  - rewrite (score_all_skip _ _ _ _ _ Hs), IH. symmetry.
    apply bind_congr, (score_all_skip _ _ _ _ _ Hs).
Qed.

Lemma score_all_length requirements resumes results w results' w' :
  App.score_all requirements resumes results w = (Return results', w') ->
  length results'
  = (length results
     + length (List.filter (fun resume => App.supported (content_type resume))
                 resumes))%nat.
Proof.
  revert results w. induction resumes as [| resume resumes IH]; intros results w.
  - intros [= <- <-]. cbn. lia.
  - cbn [List.filter]. destruct (App.supported (content_type resume)) eqn:Hs.
    + rewrite (score_all_cons _ _ _ _ _ Hs).
      match goal with |- bind ?m _ _ = _ -> _ =>
        destruct (m w) as [[e0 | scores] w1] eqn:Hone end.
      * rewrite (bind_raise _ _ _ _ _ Hone). discriminate.
      * rewrite (bind_return _ _ _ _ _ Hone). intros Hrest.
        rewrite (IH _ _ Hrest), length_app. cbn. lia.
    + rewrite (score_all_skip _ _ _ _ _ Hs). apply IH.
Qed.
End SingleFile.

Section SingleFileRoutes.
Context {E : Externals}.

Lemma other_exception_status (e : exn) :
  is_HTTPException e = false -> http_status (Raise e) = 500.
Proof. now destruct e. Qed.

Lemma as_records_length (data : list pyobj) records :
  Pandas.as_records data = Some records -> length records = length data.
Proof.
  revert records. induction data as [| r data IH]; intros records.
  - now intros [= <-].
  - cbn. destruct r as [e | []]; try discriminate.
    destruct (Pandas.as_records data) as [ds |]; [| discriminate].
    intros [= <-]. cbn. now rewrite (IH ds).
Qed.

(** A frame from which the name column can be dropped was built from
    mappings, and has a row for each. *)
Lemma DataFrame_rows (data : list pyobj) df scores :
  Pandas.DataFrame data = Return df ->
  Pandas.drop candidate_name df = Return scores ->
  length (Pandas.rows df) = length data.
Proof.
  intros Hdf Hdrop.
  destruct (Pandas.as_records data) as [records |] eqn:Hrecords.
  - unfold Pandas.DataFrame in Hdf. rewrite Hrecords in Hdf. injection Hdf as <-.
    cbn. rewrite length_map. now apply as_records_length.
  - pose proof (DataFrame_objects_labels _ _ Hrecords Hdf) as Hint.
    rewrite drop_without_name in Hdrop; [discriminate |].
    eapply List.Forall_impl; [| exact Hint]. intros l Hl. cbn beta.
    destruct l; try reflexivity. now destruct (Hl s).
Qed.

Lemma setitem_rows name values df :
  length values = length (Pandas.rows df) ->
  length (Pandas.rows (Pandas.setitem name values df)) = length (Pandas.rows df).
Proof.
  intros Hlen. unfold Pandas.setitem. cbn.
  rewrite length_map, length_combine. lia.
Qed.

Lemma app_rank_resumes_run requirements resumes w :
  len resumes <= 50 ->
  (exists e w',
      App.rank_resumes requirements resumes w = (Raise e, w')
      /\ (http_status (Raise e) = 422 \/ http_status (Raise e) = 500))
  \/ (exists df w',
        App.rank_resumes requirements resumes w
        = (Return (StreamingResponse df 200 xlsx_media_type xlsx_headers), w')
        /\ length (Pandas.rows df)
           = length (List.filter (fun resume => App.supported (content_type resume))
                       resumes)
        /\ resumes <> []).
Proof.
  intros Hn. unfold App.rank_resumes.
  destruct (len resumes >? 50) eqn:Hgt; [apply Z.gtb_lt in Hgt; lia |].
  destruct (App.score_all requirements resumes [] w) as [[e | results] w1] eqn:Hs.
  - left. exists e, w1. rewrite (bind_raise _ _ _ _ _ Hs).
    split; [reflexivity | apply (score_all_raises _ _ _ _ _ _ Hs)].
  - rewrite (bind_return _ _ _ _ _ Hs). unfold bind, lift.
    destruct (Pandas.DataFrame (map Return results)) as [e | df] eqn:Hdf.
    { left. exists e, w1. split; [reflexivity |]. right.
      apply other_exception_status, (DataFrame_raises _ _ Hdf). }
    destruct (Pandas.drop (py "Candidate Name") df) as [e | scores] eqn:Hdrop.
    { left. exists e, w1. split; [reflexivity |]. right.
      apply other_exception_status, (drop_raises _ _ _ Hdrop). }
    destruct (Pandas.sum_axis1 scores) as [e | totals] eqn:Hsum.
    { left. exists e, w1. split; [reflexivity |]. right.
      apply other_exception_status, (sum_axis1_raises _ _ Hsum). }
    destruct results as [| scores0 results].
    { cbn in Hdf. injection Hdf as <-. discriminate Hdrop. }
    right. eexists _, w1. split; [reflexivity |]. split.
    + rewrite setitem_rows.
      * rewrite (DataFrame_rows _ _ _ Hdf Hdrop), length_map.
        now rewrite (score_all_length _ _ _ _ _ _ Hs).
      * rewrite (sum_axis1_length _ _ Hsum). apply (drop_rows _ _ _ Hdrop).
    + intros ->. discriminate Hs.
Qed.

End SingleFileRoutes.

(** X18.  In the single-file service every failure to read a DOCX payload,
    whatever the library raised, reaches the caller as an [HTTPException] of
    status 422, after one call of the parser. *)
Theorem app_docx_failures_are_422 {E : Externals} (file_content : bytes) (w : world) :
  exists r,
    App.extract_text_from_docx file_content w
    = (r, logged (CallDocument file_content) w)
    /\ value_or_http 422 r.
Proof. apply extract_text_from_docx_run. Qed.

(** X19.  In the single-file service a failure to read a PDF payload is an
    [HTTPException] of status 422 only where the PDF library has the name
    [PdfReadError] at its top level; where it has not, every failure, also an
    empty document, ends in the [AttributeError] of looking that name up. *)
Theorem app_pdf_failures_depend_on_library {E : Externals}
    (file_content : bytes) (w : world) :
  exists r,
    App.extract_text_from_pdf file_content w
    = (r, logged (CallPdfReader file_content) w)
    /\ match r with
       | Return _ => True
       | Raise e =>
           if PyPDF2_PdfReadError
           then exists detail, e = HTTPException 422 detail
           else e = AttributeError (py "module 'PyPDF2' has no attribute 'PdfReadError'")
       end.
Proof. apply extract_text_from_pdf_run. Qed.

(** X20.  Scoring in the single-file service raises nothing but an
    [HTTPException] of status 500, and asks the backend exactly once. *)
Theorem app_scoring_failures_are_500 {E : Externals}
    (resume_text requirements : str) (w : world) :
  exists r gemini',
    App.score_resume_with_gemini resume_text requirements w
    = (r, answered gemini' App.model (App.score_prompt resume_text requirements) w)
    /\ value_or_http 500 r.
Proof. apply score_resume_with_gemini_run. Qed.

(** X21.  Criteria extraction in the single-file service raises nothing but
    an [HTTPException] of status 500, and asks the backend exactly once. *)
Theorem app_criteria_failures_are_500 {E : Externals} (text : str) (w : world) :
  exists r gemini',
    App.extract_criteria_with_gemini text w
    = (r, answered gemini' App.model (App.criteria_prompt text) w)
    /\ value_or_http 500 r.
Proof. apply extract_criteria_with_gemini_run. Qed.

(** X22.  The loop of the single-file ranking route skips the resumes of an
    unsupported type without a trace: it behaves on a batch as on the batch
    without them. *)
Theorem unsupported_resumes_leave_no_trace {E : Externals}
    (requirements : str) (resumes : list UploadFile) (results : list json)
    (w : world) :
  App.score_all requirements resumes results w
  = App.score_all requirements
      (List.filter (fun resume => App.supported (content_type resume)) resumes)
      results w.
Proof.
  revert results w. induction resumes as [| resume resumes IH]; intros results w;
    [reflexivity |].
  cbn [List.filter]. destruct (App.supported (content_type resume)) eqn:Hs.
  - rewrite !(score_all_cons _ _ _ _ _ Hs).
    match goal with |- bind ?m _ _ = _ =>
      destruct (m w) as [[e0 | scores] w1] eqn:Hone end.
    + now rewrite !(bind_raise _ _ _ _ _ Hone).
    + rewrite !(bind_return _ _ _ _ _ Hone). apply IH.
  - rewrite (score_all_skip _ _ _ _ _ Hs). apply IH.
Qed.

(** X23.  In the single-file service the first resume that fails ends the
    request with its exception: the scores of the resumes before it are
    lost and the resumes after it are not read. *)
Theorem first_failure_aborts_the_batch {E : Externals}
    (requirements : str) (before : list UploadFile) (resume : UploadFile)
    (after : list UploadFile) (w : world) (results : list json) (w1 : world)
    (e : exn) (w2 : world) :
  len (before ++ resume :: after) <= 50 ->
  App.score_all requirements before [] w = (Return results, w1) ->
  App.score_all requirements [resume] results w1 = (Raise e, w2) ->
  App.rank_resumes requirements (before ++ resume :: after) w = (Raise e, w2).
Proof.
  intros Hn Hbefore Hresume. unfold App.rank_resumes.
  destruct (len (before ++ resume :: after) >? 50) eqn:Hgt;
    [apply Z.gtb_lt in Hgt; lia |].
  apply bind_raise. rewrite score_all_app, (bind_return _ _ _ _ _ Hbefore).
  change (resume :: after) with ([resume] ++ after).
  rewrite score_all_app. now apply bind_raise.
Qed.

Lemma first_failure_aborts_the_batch_witness :
  let w := Fixtures.start Fixtures.table [Response (Some (py "{ann}"))] [] in
  fst (App.rank_resumes (py "Python")
         ([Fixtures.ann_pdf] ++ Fixtures.bob_docx :: [Fixtures.ann_pdf]) w)
  = Raise (HTTPException 500 (py "Resume scoring error: deadline exceeded")).
Proof.
  intros w.
  rewrite (first_failure_aborts_the_batch (py "Python") [Fixtures.ann_pdf]
             Fixtures.bob_docx [Fixtures.ann_pdf] w [JDict Fixtures.ann]
             (snd (App.score_all (py "Python") [Fixtures.ann_pdf] [] w))
             (HTTPException 500 (py "Resume scoring error: deadline exceeded"))
             (snd (App.score_all (py "Python") [Fixtures.bob_docx] [JDict Fixtures.ann]
                     (snd (App.score_all (py "Python") [Fixtures.ann_pdf] [] w))))).
  - reflexivity.
  - vm_compute. discriminate.
  - reflexivity.
  - reflexivity.
Defined.

(** X24.  The single-file ranking route answers 200, 400, 422 or 500, and
    400 exactly when more than 50 resumes are sent: the answer 400 "No
    resumes processed successfully." is never given. *)
Theorem app_rank_route_400_means_too_many {E : Externals}
    (requirements : str) (resumes : list UploadFile) (w : world) :
  In (http_status (fst (App.rank_resumes requirements resumes w))) [200; 400; 422; 500]
  /\ (http_status (fst (App.rank_resumes requirements resumes w)) = 400
      <-> 50 < len resumes).
Proof.
  destruct (Z_le_gt_dec (len resumes) 50) as [Hn | Hn].
  - destruct (app_rank_resumes_run requirements resumes w Hn)
      as [(e & w' & -> & Hstatus) | (df & w' & -> & _)]; cbn [fst].
    + destruct Hstatus as [-> | ->]; (split; [cbn; tauto | split; lia]).
    + cbn. split; [tauto | split; lia].
  - unfold App.rank_resumes.
    destruct (len resumes >? 50) eqn:Hgt; [| rewrite Z.gtb_ltb in Hgt; apply Z.ltb_ge in Hgt; lia].
    cbn. split; [tauto | split; [lia | reflexivity]].
Qed.

(** X25.  The single-file criteria route answers 200, 400, 422 or 500, and
    400 exactly when the payload is above 5 MB or the declared type is
    neither PDF nor DOCX. *)
Theorem app_criteria_route_400_means_size_or_type {E : Externals}
    (file : UploadFile) (w : world) :
  In (http_status (fst (App.extract_criteria_endpoint file w))) [200; 400; 422; 500]
  /\ (http_status (fst (App.extract_criteria_endpoint file w)) = 400
      <-> 5 * 1024 * 1024 < len (data file)
          \/ App.supported (content_type file) = false).
Proof.
  unfold App.extract_criteria_endpoint.
  destruct (len (data file) >? 5 * 1024 * 1024) eqn:Hgt.
  { apply Z.gtb_lt in Hgt. cbn. split; [tauto | split; [now left | reflexivity]]. }
  assert (Hle : len (data file) <= 5 * 1024 * 1024)
    by (rewrite Z.gtb_ltb in Hgt; now apply Z.ltb_ge in Hgt).
  destruct (App.supported (content_type file)) eqn:Hs; cbn [negb].
  2: { cbn. split; [tauto | split; [now right | reflexivity]]. }
  assert (Hnot : forall status : Z,
            status <> 400 ->
            status = 400
            <-> 5 * 1024 * 1024 < len (data file) \/ true = false).
  { intros status Hstatus. split; [now intros -> |].
    intros [Hbig | Habs]; [lia | discriminate Habs]. }
  unfold read. rewrite bind_ret.
  destruct (App.extract_text file (data file) w) as [[e | text] w1] eqn:Ht.
  - rewrite (bind_raise _ _ _ _ _ Ht). cbn [fst].
    destruct (extract_text_raises _ _ _ _ _ Ht) as [-> | ->];
      (split; [cbn; tauto | apply Hnot; lia]).
  - rewrite (bind_return _ _ _ _ _ Ht).
    destruct (extract_criteria_with_gemini_run text w1) as (r & gemini' & Hrun & Hr).
    destruct r as [e | criteria].
    + rewrite (bind_raise _ _ _ _ _ Hrun). cbn [fst].
      rewrite (value_or_http_status (A := list str) _ _ Hr).
      split; [cbn; tauto | apply Hnot; lia].
    + rewrite (bind_return _ _ _ _ _ Hrun). cbn.
      split; [tauto | apply Hnot; lia].
Qed.

(** X26.  When the single-file ranking route returns a sheet, the sheet has
    one row for each resume of a supported type, and the batch was not
    empty. *)
Theorem app_sheet_has_a_row_per_supported_resume {E : Externals}
    (requirements : str) (resumes : list UploadFile) (w : world)
    (df : Pandas.frame) (status_code : Z) (media_type : str)
    (headers : list (str * str)) (w' : world) :
  App.rank_resumes requirements resumes w
  = (Return (StreamingResponse df status_code media_type headers), w') ->
  length (Pandas.rows df)
  = length (List.filter (fun resume => App.supported (content_type resume)) resumes)
  /\ resumes <> [] /\ len resumes <= 50.
Proof.
  intros Hrun.
  assert (Hn : len resumes <= 50).
  { destruct (Z_le_gt_dec (len resumes) 50) as [Hn | Hn]; [exact Hn |].
    unfold App.rank_resumes in Hrun.
    destruct (len resumes >? 50) eqn:Hgt; [discriminate Hrun |].
    rewrite Z.gtb_ltb in Hgt. apply Z.ltb_ge in Hgt. lia. }
  destruct (app_rank_resumes_run requirements resumes w Hn)
    as [(e & w0 & Hraise & _) | (df0 & w0 & Hreturn & Hrows & Hne)].
  - rewrite Hraise in Hrun. discriminate Hrun.
  - rewrite Hreturn in Hrun. injection Hrun as -> _ _ _ _. auto.
Qed.

Lemma app_sheet_has_a_row_per_supported_resume_witness :
  length (Pandas.rows (report [] [Fixtures.ann])) = 1%nat.
Proof.
  refine (proj1 (app_sheet_has_a_row_per_supported_resume (py "Python")
                   [Fixtures.ann_pdf; Fixtures.notes_txt]
                   (Fixtures.start Fixtures.table [Response (Some (py "{ann}"))] [])
                   (report [] [Fixtures.ann]) 200 xlsx_media_type xlsx_headers
                   (snd (App.rank_resumes (py "Python")
                           [Fixtures.ann_pdf; Fixtures.notes_txt]
                           (Fixtures.start Fixtures.table
                              [Response (Some (py "{ann}"))] [])))
                   _)).
  vm_compute. reflexivity.
Defined.

(** ** The two services on the same payload *)

Section Agreement.
Context {E : Externals}.

Lemma read_pages_pure (pages : list page) :
  exists r, forall w, mapM page_extract_text_or_empty pages w = (r, w).
Proof.
  induction pages as [| p ps [r IH]]; [eexists; reflexivity |].
  destruct p as [[text |] | [msg | msg]].
  - exists (match r with Raise e => Raise e | Return texts => Return (text :: texts) end).
    intros w. cbn [mapM page_extract_text_or_empty]. rewrite bind_ret.
    unfold bind. rewrite IH. now destruct r.
  - exists (match r with Raise e => Raise e | Return texts => Return ([] :: texts) end).
    intros w. cbn [mapM page_extract_text_or_empty]. rewrite bind_ret.
    unfold bind. rewrite IH. now destruct r.
  - eexists. intros w. reflexivity.
  - eexists. intros w. reflexivity.
Qed.

Lemma pdf_handler_raises (e : exn) w :
  exists e',
    bind App.lookup_PdfReadError
      (fun _ : unit =>
         match e with
         | PdfReadError _ =>
             raise (A := str)
               (HTTPException 422 (py "Invalid PDF structure - unable to read file"))
         | _ => raise (HTTPException 422 (py "PDF processing error: " ++ exn_str e))
         end) w = (Raise e', w).
Proof.
  unfold bind, App.lookup_PdfReadError.
  destruct PyPDF2_PdfReadError; [destruct e |]; eexists; reflexivity.
Qed.

Lemma pdf_extractions_agree (self : FileProcessor.BaseDoc) w w' :
  (exists text,
      fst (FileProcessor.PdfDoc_extract_text self w) = Return (Text text)
      /\ fst (App.extract_text_from_pdf (FileProcessor.content self) w')
         = Return text)
  \/ ((exists status_code error,
          fst (FileProcessor.PdfDoc_extract_text self w)
          = Return (Failure status_code error))
      /\ exists e,
          fst (App.extract_text_from_pdf (FileProcessor.content self) w') = Raise e).
Proof.
  unfold FileProcessor.PdfDoc_extract_text, App.extract_text_from_pdf.
  destruct (PdfReader (FileProcessor.content self)) as [err | [| p ps]] eqn:Hreader.
  - right. split.
    + unfold try_except, bind. rewrite call_PdfReader_run, Hreader.
      destruct err; eexists _, _; reflexivity.
    + assert (Hbody : call_PdfReader (FileProcessor.content self) w'
                      = (Raise (match err with
                                | ReadError msg => PdfReadError msg
                                | OtherPdfError msg => LibraryError msg
                                end),
                         logged (CallPdfReader (FileProcessor.content self)) w'))
        by (rewrite call_PdfReader_run, Hreader; now destruct err).
      rewrite (try_raise _ _ _ _ _ (bind_raise _ _ _ _ _ Hbody)).
      destruct (pdf_handler_raises
                  (match err with
                   | ReadError msg => PdfReadError msg
                   | OtherPdfError msg => LibraryError msg
                   end) (logged (CallPdfReader (FileProcessor.content self)) w'))
        as (e' & He').
      exists e'. unfold M in *. now rewrite He'.
  - right. split.
    + unfold try_except, bind. rewrite call_PdfReader_run, Hreader.
      eexists _, _; reflexivity.
    + destruct (pdf_handler_raises (ValueError (py "PDF contains no readable text"))
                  (logged (CallPdfReader (FileProcessor.content self)) w'))
        as (e' & He').
      exists e'. erewrite try_raise; cycle 1.
      * unfold bind. rewrite call_PdfReader_run, Hreader. reflexivity.
      * unfold M in *. now rewrite He'.
  - destruct (read_pages_pure (p :: ps)) as [[e | texts] Hpure].
    + right. split.
      * unfold try_except. unfold bind at 1. rewrite call_PdfReader_run, Hreader.
        rewrite (bind_raise _ _ _ _ _ (Hpure _)). destruct e; eexists _, _; reflexivity.
      * destruct (pdf_handler_raises e
                    (logged (CallPdfReader (FileProcessor.content self)) w'))
          as (e' & He').
        exists e'. erewrite try_raise; cycle 1.
        -- unfold bind at 1. rewrite call_PdfReader_run, Hreader.
           apply (bind_raise _ _ _ _ _ (Hpure _)).
        -- unfold M in *. now rewrite He'.
    + left. exists (join [newline] texts). split.
      * unfold try_except. unfold bind at 1. rewrite call_PdfReader_run, Hreader.
        now rewrite (bind_return _ _ _ _ _ (Hpure _)).
      * unfold try_except. unfold bind at 1. rewrite call_PdfReader_run, Hreader.
        now rewrite (bind_return _ _ _ _ _ (Hpure _)).
Qed.

Lemma docx_extractions_agree (self : FileProcessor.BaseDoc) w w' :
  (exists text,
      fst (FileProcessor.DocxDoc_extract_text self w) = Return (Text text)
      /\ fst (App.extract_text_from_docx (FileProcessor.content self) w')
         = Return text)
  \/ ((exists status_code error,
          fst (FileProcessor.DocxDoc_extract_text self w)
          = Return (Failure status_code error))
      /\ exists e,
          fst (App.extract_text_from_docx (FileProcessor.content self) w') = Raise e).
Proof.
  unfold FileProcessor.DocxDoc_extract_text, App.extract_text_from_docx,
    try_except, bind.
  rewrite !call_Document_run.
  destruct (Document (FileProcessor.content self)) as [[msg | msg | msg] | [| p ps]].
  1-4: right; split; [eexists _, _; reflexivity | eexists; reflexivity].
  left. eexists. split; reflexivity.
Qed.

End Agreement.

(** X27.  On a payload within the limit and of a supported type the two
    services extract the same text: the modular extractor returns a text
    exactly when the single-file extractor returns it. *)
Theorem services_extract_the_same_text {E : Externals}
    (file : UploadFile) (w w' : world) (text : str) :
  len (data file) <= 5 * 1024 * 1024 ->
  App.supported (content_type file) = true ->
  fst (FileProcessor.process file w) = Return (Text text)
  <-> fst (App.extract_text file (data file) w') = Return text.
Proof.
  intros Hlen Hs. unfold FileProcessor.process, App.extract_text.
  rewrite (bind_return _ _ _ _ _ (from_upload_within file w Hlen)).
  cbn [FileProcessor.file]. unfold App.supported in Hs.
  destruct (str_eqb (content_type file) application_pdf).
  - rewrite (bind_return _ _ _ _ _ (BaseDoc_init_within _ w Hlen)).
    destruct (pdf_extractions_agree
                {| FileProcessor.file := data file; FileProcessor.content := data file |}
                w w')
      as [(t & Hm & Ha) | ((s & m & Hm) & (e & Ha))];
      cbn [FileProcessor.content] in Ha; rewrite Hm, Ha.
    + split; intros [= ->]; reflexivity.
    + split; discriminate.
  - destruct (str_eqb (content_type file) application_docx); [| discriminate Hs].
    rewrite (bind_return _ _ _ _ _ (BaseDoc_init_within _ w Hlen)).
    destruct (docx_extractions_agree
                {| FileProcessor.file := data file; FileProcessor.content := data file |}
                w w')
      as [(t & Hm & Ha) | ((s & m & Hm) & (e & Ha))];
      cbn [FileProcessor.content] in Ha; rewrite Hm, Ha.
    + split; intros [= ->]; reflexivity.
    + split; discriminate.
Qed.

Lemma services_extract_the_same_text_witness :
  fst (App.extract_text Fixtures.bob_docx (data Fixtures.bob_docx)
         (Fixtures.start Fixtures.table [] [7%nat]))
  = Return (py "Bob, SQL analyst").
Proof.
  refine (proj1 (services_extract_the_same_text Fixtures.bob_docx
                   (Fixtures.start Fixtures.table [] [])
                   (Fixtures.start Fixtures.table [] [7%nat])
                   (py "Bob, SQL analyst") _ _) _).
  - vm_compute. discriminate.
  - reflexivity.
  - reflexivity.
Defined.
